(** * Amana marketing dashboard: the client-side aggregation pipeline

    A shallow embedding of the data-processing functions of the four
    dashboard views (weekly, regional, demographic, device) and of the
    bubble-map helper, followed by the properties established about them.

    JavaScript numbers are IEEE-754 binary64 values, so [number] is Rocq's
    primitive [float]: [+], [-], [*], [/] and the comparisons below are the
    very operations the views execute, including [Infinity] and [NaN].
    A [Map] is an insertion-ordered association list keyed by strings.
    A property read of an absent collection throws; this is the [TypeError]
    completion. *)

From Stdlib Require Import ZArith List String Ascii Bool Lia Floats.
From Stdlib Require Import Sorting.Sorted Sorting.Permutation.
Import ListNotations.

Set Warnings "-inexact-float".
Set Implicit Arguments.

(* ================================================================= *)
(** ** JavaScript numbers *)

Definition number := float.

(** The double nearest to an integer (exact below 2^53). *)
Definition Z2float (n : Z) : number :=
  SF2Prim (binary_normalize prec emax n 0 false).

Definition signed (s : bool) (m : positive) : Z :=
  if s then Z.neg m else Z.pos m.

(** [Math.round]: the integer closest to [x], ties towards +Infinity;
    a result of zero keeps the sign of [x]; NaN, infinities and zeros are
    returned unchanged. *)
Definition Math_round (x : number) : number :=
  match Prim2SF x with
  | S754_finite s m e =>
      if (0 <=? e)%Z then x
      else
        let n := ((2 * signed s m + 2 ^ (- e)) / 2 ^ (1 - e))%Z in
        if (n =? 0)%Z then (if s then neg_zero else zero) else Z2float n
  | _ => x
  end.

(** [Math.floor]. *)
Definition Math_floor (x : number) : number :=
  match Prim2SF x with
  | S754_finite s m e =>
      if (0 <=? e)%Z then x
      else
        let n := (signed s m / 2 ^ (- e))%Z in
        if (n =? 0)%Z then zero else Z2float n
  | _ => x
  end.

(** [parseFloat(x.toFixed(2))]: [toFixed] picks the integer [n] for which
    [n / 100] is closest to the exact value of [|x|] (the larger on a tie),
    prints it with the sign of [x], and [parseFloat] reads the decimal back
    as the nearest double.  From 1e21 on, and for NaN and the infinities,
    [toFixed] prints the number itself, which [parseFloat] reads back. *)
Definition toFixed2 (x : number) : number :=
  match Prim2SF x with
  | S754_finite s m e =>
      if (1e21 <=? abs x)%float then x
      else
        let n := if (0 <=? e)%Z then (Z.pos m * 2 ^ e * 100)%Z
                 else ((2 * (Z.pos m * 100) + 2 ^ (- e)) / 2 ^ (1 - e))%Z in
        match n with
        | Z.pos p =>
            SF2Prim (SFdiv prec emax (S754_finite s p 0) (S754_finite false 100 0))
        | _ => if s then neg_zero else zero
        end
  | S754_zero _ => zero
  | _ => x
  end.

(** [Math.min(...l)] and [Math.max(...l)]: NaN is contagious and -0 is below +0. *)
Definition js_min2 (lowest x : number) : number :=
  if is_nan lowest || is_nan x then nan
  else if (x <? lowest)%float then x
  else if (x =? lowest)%float && get_sign x then x
  else lowest.

Definition js_max2 (highest x : number) : number :=
  if is_nan highest || is_nan x then nan
  else if (highest <? x)%float then x
  else if (x =? highest)%float && negb (get_sign x) then x
  else highest.

Definition Math_min (l : list number) : number := fold_left js_min2 l infinity.
Definition Math_max (l : list number) : number := fold_left js_max2 l neg_infinity.

(* ================================================================= *)
(** ** Completions: a call returns normally or throws a TypeError *)

Inductive completion (A : Type) : Type :=
| Normal (a : A)
| TypeError.
Arguments Normal {A} a.
Arguments TypeError {A}.

Definition bind {A B} (c : completion A) (k : A -> completion B) : completion B :=
  match c with
  | Normal a => k a
  | TypeError => TypeError
  end.

Notation "x <- c ;; k" := (bind c (fun x => k))
  (at level 61, c at next level, right associativity).

(** Reading [.forEach] (or any property) of a collection: [undefined] throws. *)
Definition deref {A} (o : option (list A)) : completion (list A) :=
  match o with
  | Some l => Normal l
  | None => TypeError
  end.

(* ================================================================= *)
(** ** [Map<string, V>]: insertion-ordered *)

Section JsMap.
Context {V : Type}.

Definition Map := list (string * V).

Fixpoint Map_get (k : string) (m : Map) : option V :=
  match m with
  | [] => None
  | (k', v) :: m' => if String.eqb k' k then Some v else Map_get k m'
  end.

Definition Map_has (k : string) (m : Map) : bool :=
  match Map_get k m with Some _ => true | None => false end.

(** [set] replaces the value of a present key where it stands and appends a
    new key at the end. *)
Fixpoint Map_set (k : string) (v : V) (m : Map) : Map :=
  match m with
  | [] => [(k, v)]
  | (k', v') :: m' =>
      if String.eqb k' k then (k', v) :: m' else (k', v') :: Map_set k v m'
  end.

Definition Map_keys (m : Map) : list string := map fst m.
Definition Map_values (m : Map) : list V := map snd m.
Definition Map_entries (m : Map) : list (string * V) := m.
End JsMap.
Arguments Map V : clear implicits.

(* ================================================================= *)
(** ** [Array.prototype.sort] with a comparator

    The sort is stable and reads only the sign of the comparator's result
    (a NaN result counts as 0).  For a consistent comparator the outcome is
    the one below whatever algorithm the engine runs. *)

Section ArraySort.
Context {A : Type} (cmp : A -> A -> Z).

Fixpoint sort_insert (x : A) (l : list A) : list A :=
  match l with
  | [] => [x]
  | y :: l' => if (cmp x y <=? 0)%Z then x :: y :: l' else y :: sort_insert x l'
  end.

Fixpoint Array_sort (l : list A) : list A :=
  match l with
  | [] => []
  | x :: l' => sort_insert x (Array_sort l')
  end.
End ArraySort.

(* ================================================================= *)
(** ** The fetched document *)

(** Modelled from the spec: the type declarations [MarketingData],
    [WeeklyPerformance], [RegionalPerformance] and [DemographicBreakdown] of
    [types/marketing], which the views import.  The records carry the fields
    the views read, as the inbound data contract lists them: the scalar totals
    of a campaign and its four breakdown collections.  A breakdown collection
    is an [option]: [None] is a payload in which the field is missing. *)
Module WeeklyPerformance.
Record t : Type := mk
  { week_start : string;
    impressions : number;
    clicks : number;
    conversions : number;
    spend : number;
    revenue : number }.
End WeeklyPerformance.

Module RegionalPerformance.
Record t : Type := mk
  { region : string;
    country : string;
    impressions : number;
    clicks : number;
    conversions : number;
    spend : number;
    revenue : number;
    ctr : number;
    conversion_rate : number;
    cpc : number;
    cpa : number;
    roas : number }.
End RegionalPerformance.

Module DemographicBreakdown.
Record t : Type := mk
  { age_group : string;
    gender : string;
    percentage_of_audience : number }.
End DemographicBreakdown.

Module DeviceBreakdown.
Record t : Type := mk
  { device_type : string;
    percentage_of_audience : number }.
End DeviceBreakdown.

Module Campaign.
Record t : Type := mk
  { name : string;
    impressions : number;
    clicks : number;
    conversions : number;
    spend : number;
    revenue : number;
    weekly_performance : option (list WeeklyPerformance.t);
    regional_performance : option (list RegionalPerformance.t);
    demographic_breakdown : option (list DemographicBreakdown.t);
    device_breakdown : option (list DeviceBreakdown.t) }.
End Campaign.

Module MarketingData.
Record t : Type := mk { campaigns : option (list Campaign.t) }.
End MarketingData.

(** [data?.campaigns]: [None] while nothing is fetched or when the field is
    missing. *)
Definition optional_campaigns (data : option MarketingData.t)
  : option (list Campaign.t) :=
  match data with
  | Some d => MarketingData.campaigns d
  | None => None
  end.

(** [campaigns.forEach(campaign => campaign.<field>.forEach(entry => ...))]:
    the loop nest every view runs, threading the accumulator [s]. *)
Fixpoint forEach_breakdown {E S : Type}
    (field : Campaign.t -> option (list E))
    (visit : Campaign.t -> S -> E -> S)
    (campaigns : list Campaign.t) (s : S) : completion S :=
  match campaigns with
  | [] => Normal s
  | campaign :: rest =>
      entries <- deref (field campaign) ;;
      forEach_breakdown field visit rest (fold_left (visit campaign) entries s)
  end.

(* ================================================================= *)
(** ** Weekly view *)

Module WeeklyView.
Section WithDate.
Import WeeklyPerformance.
Local Open Scope float_scope.

(** [new Date(s).getTime()]: an integral count of milliseconds, or NaN
    ([None]) for a string that is not a date.  The sort reads only the sign
    of a difference of two time values, which the integers give exactly. *)
Variable Date_getTime : string -> option Z.

(** [{ ...existing, impressions: existing.impressions + week.impressions, ... }] *)
Definition merged (existing week : t) : t :=
  {| week_start := week_start existing;
     impressions := impressions existing + impressions week;
     clicks := clicks existing + clicks week;
     conversions := conversions existing + conversions week;
     spend := spend existing + spend week;
     revenue := revenue existing + revenue week |}.

Definition visit (_ : Campaign.t) (weeklyMap : Map t) (week : t) : Map t :=
  let key := week_start week in
  if Map_has key weeklyMap then
    match Map_get key weeklyMap with
    | Some existing => Map_set key (merged existing week) weeklyMap
    | None => weeklyMap
    end
  else Map_set key week weeklyMap.

Definition by_week_start (a b : t) : Z :=
  match Date_getTime (week_start a), Date_getTime (week_start b) with
  | Some ta, Some tb => (ta - tb)%Z
  | _, _ => 0%Z
  end.

Definition getAggregatedWeeklyData (marketingData : option MarketingData.t)
  : completion (list t) :=
  match optional_campaigns marketingData with
  | None => Normal []
  | Some campaigns =>
      weeklyMap <- forEach_breakdown Campaign.weekly_performance visit campaigns [] ;;
      Normal (Array_sort by_week_start (Map_values weeklyMap))
  end.
End WithDate.
End WeeklyView.

(* ================================================================= *)
(** ** Region view *)

Module RegionView.
Import RegionalPerformance.
Local Open Scope float_scope.

Definition key_of (r : t) : string := (region r ++ "-" ++ country r)%string.

(** [{ ...existing, impressions: existing.impressions + region.impressions, ...,
      ctr: region.ctr, ... }] *)
Definition merged (existing r : t) : t :=
  {| region := region existing;
     country := country existing;
     impressions := impressions existing + impressions r;
     clicks := clicks existing + clicks r;
     conversions := conversions existing + conversions r;
     spend := spend existing + spend r;
     revenue := revenue existing + revenue r;
     ctr := ctr r;
     conversion_rate := conversion_rate r;
     cpc := cpc r;
     cpa := cpa r;
     roas := roas r |}.

Definition visit (_ : Campaign.t) (regionalMap : Map t) (r : t) : Map t :=
  let key := key_of r in
  if Map_has key regionalMap then
    match Map_get key regionalMap with
    | Some existing => Map_set key (merged existing r) regionalMap
    | None => regionalMap
    end
  else Map_set key r regionalMap.

Definition getAggregatedRegionalData (marketingData : option MarketingData.t)
  : completion (list t) :=
  match optional_campaigns marketingData with
  | None => Normal []
  | Some campaigns =>
      regionalMap <- forEach_breakdown Campaign.regional_performance visit campaigns [] ;;
      Normal (Map_values regionalMap)
  end.
End RegionView.

(* ================================================================= *)
(** ** Demographic view *)

Module DemographicMetrics.
Record t : Type := mk
  { maleClicks : number;
    maleSpend : number;
    maleRevenue : number;
    femaleClicks : number;
    femaleSpend : number;
    femaleRevenue : number }.
End DemographicMetrics.

Module SpendRevenue.
Record t : Type := mk { spend : number; revenue : number }.
End SpendRevenue.

Module AgeGroupData.
Record t : Type := mk
  { ageGroup : string;
    spend : number;
    revenue : number }.
End AgeGroupData.

Module CampaignPerformance.
Record t : Type := mk
  { ageGroup : string;
    gender : string;
    impressions : number;
    clicks : number;
    conversions : number;
    ctr : number;
    conversionRate : number }.
End CampaignPerformance.

Module DemographicView.
Section WithLocale.
Import DemographicBreakdown.
Local Open Scope float_scope.

(** [a.localeCompare(b)]: the host's collation; only its sign is read. *)
Variable localeCompare : string -> string -> Z.

(** *** [processDemographicMetrics] *)

Definition metrics_zero : DemographicMetrics.t :=
  DemographicMetrics.mk 0 0 0 0 0 0.

Definition metrics_visit (campaign : Campaign.t)
    (metrics : DemographicMetrics.t) (demo : t) : DemographicMetrics.t :=
  let totalSpend := Campaign.spend campaign in
  let totalRevenue := Campaign.revenue campaign in
  let totalClicks := Campaign.clicks campaign in
  let percentage := percentage_of_audience demo / 100 in
  let clicks := Math_round (totalClicks * percentage) in
  let spend := totalSpend * percentage in
  let revenue := totalRevenue * percentage in
  if String.eqb (gender demo) "Male" then
    {| DemographicMetrics.maleClicks := DemographicMetrics.maleClicks metrics + clicks;
       DemographicMetrics.maleSpend := DemographicMetrics.maleSpend metrics + spend;
       DemographicMetrics.maleRevenue := DemographicMetrics.maleRevenue metrics + revenue;
       DemographicMetrics.femaleClicks := DemographicMetrics.femaleClicks metrics;
       DemographicMetrics.femaleSpend := DemographicMetrics.femaleSpend metrics;
       DemographicMetrics.femaleRevenue := DemographicMetrics.femaleRevenue metrics |}
  else if String.eqb (gender demo) "Female" then
    {| DemographicMetrics.maleClicks := DemographicMetrics.maleClicks metrics;
       DemographicMetrics.maleSpend := DemographicMetrics.maleSpend metrics;
       DemographicMetrics.maleRevenue := DemographicMetrics.maleRevenue metrics;
       DemographicMetrics.femaleClicks := DemographicMetrics.femaleClicks metrics + clicks;
       DemographicMetrics.femaleSpend := DemographicMetrics.femaleSpend metrics + spend;
       DemographicMetrics.femaleRevenue := DemographicMetrics.femaleRevenue metrics + revenue |}
  else metrics.

Definition processDemographicMetrics (data : option MarketingData.t)
  : completion DemographicMetrics.t :=
  match optional_campaigns data with
  | None => Normal metrics_zero
  | Some campaigns =>
      forEach_breakdown Campaign.demographic_breakdown metrics_visit
        campaigns metrics_zero
  end.

(** *** [processAgeGroupData] *)

Definition age_visit (campaign : Campaign.t)
    (ageGroupMap : Map SpendRevenue.t) (demo : t) : Map SpendRevenue.t :=
  let totalSpend := Campaign.spend campaign in
  let totalRevenue := Campaign.revenue campaign in
  let percentage := percentage_of_audience demo / 100 in
  let spend := totalSpend * percentage in
  let revenue := totalRevenue * percentage in
  let existing :=
    match Map_get (age_group demo) ageGroupMap with
    | Some e => e
    | None => SpendRevenue.mk 0 0
    end in
  Map_set (age_group demo)
    {| SpendRevenue.spend := SpendRevenue.spend existing + spend;
       SpendRevenue.revenue := SpendRevenue.revenue existing + revenue |}
    ageGroupMap.

Definition by_ageGroup (a b : AgeGroupData.t) : Z :=
  localeCompare (AgeGroupData.ageGroup a) (AgeGroupData.ageGroup b).

Definition spend_row (entry : string * SpendRevenue.t) : AgeGroupData.t :=
  AgeGroupData.mk (fst entry) (SpendRevenue.spend (snd entry)) 0.

Definition revenue_row (entry : string * SpendRevenue.t) : AgeGroupData.t :=
  AgeGroupData.mk (fst entry) 0 (SpendRevenue.revenue (snd entry)).

Definition processAgeGroupData (data : option MarketingData.t)
  : completion (list AgeGroupData.t * list AgeGroupData.t) :=
  match optional_campaigns data with
  | None => Normal ([], [])
  | Some campaigns =>
      ageGroupMap <- forEach_breakdown Campaign.demographic_breakdown age_visit
                       campaigns [] ;;
      Normal (Array_sort by_ageGroup (map spend_row (Map_entries ageGroupMap)),
              Array_sort by_ageGroup (map revenue_row (Map_entries ageGroupMap)))
  end.

(** *** [processCampaignPerformance] *)

(** The row built for one breakdown entry. *)
Definition performance_of (campaign : Campaign.t) (demo : t)
  : CampaignPerformance.t :=
  let totalImpressions := Campaign.impressions campaign in
  let totalClicks := Campaign.clicks campaign in
  let totalConversions := Campaign.conversions campaign in
  let percentage := percentage_of_audience demo / 100 in
  let impressions := Math_round (totalImpressions * percentage) in
  let clicks := Math_round (totalClicks * percentage) in
  let conversions := Math_round (totalConversions * percentage) in
  let ctr := if 0 <? clicks then (clicks / impressions) * 100 else 0 in
  let conversionRate := if 0 <? clicks then (conversions / clicks) * 100 else 0 in
  {| CampaignPerformance.ageGroup := age_group demo;
     CampaignPerformance.gender := gender demo;
     CampaignPerformance.impressions := impressions;
     CampaignPerformance.clicks := clicks;
     CampaignPerformance.conversions := conversions;
     CampaignPerformance.ctr := toFixed2 ctr;
     CampaignPerformance.conversionRate := toFixed2 conversionRate |}.

(** The in-place update of a row already in the map. *)
Definition performance_add (existing performance : CampaignPerformance.t)
  : CampaignPerformance.t :=
  let impressions :=
    CampaignPerformance.impressions existing + CampaignPerformance.impressions performance in
  let clicks :=
    CampaignPerformance.clicks existing + CampaignPerformance.clicks performance in
  let conversions :=
    CampaignPerformance.conversions existing + CampaignPerformance.conversions performance in
  {| CampaignPerformance.ageGroup := CampaignPerformance.ageGroup existing;
     CampaignPerformance.gender := CampaignPerformance.gender existing;
     CampaignPerformance.impressions := impressions;
     CampaignPerformance.clicks := clicks;
     CampaignPerformance.conversions := conversions;
     CampaignPerformance.ctr :=
       if 0 <? clicks then toFixed2 ((clicks / impressions) * 100) else 0;
     CampaignPerformance.conversionRate :=
       if 0 <? clicks then toFixed2 ((conversions / clicks) * 100) else 0 |}.

Definition gender_visit (genderMap : Map CampaignPerformance.t)
    (performance : CampaignPerformance.t) : Map CampaignPerformance.t :=
  let key := CampaignPerformance.ageGroup performance in
  match Map_get key genderMap with
  | Some existing => Map_set key (performance_add existing performance) genderMap
  | None => Map_set key performance genderMap
  end.

Definition performance_visit (campaign : Campaign.t)
    (maps : Map CampaignPerformance.t * Map CampaignPerformance.t) (demo : t)
  : Map CampaignPerformance.t * Map CampaignPerformance.t :=
  let (maleMap, femaleMap) := maps in
  let performance := performance_of campaign demo in
  if String.eqb (gender demo) "Male" then
    (gender_visit maleMap performance, femaleMap)
  else if String.eqb (gender demo) "Female" then
    (maleMap, gender_visit femaleMap performance)
  else (maleMap, femaleMap).

Definition by_performance_ageGroup (a b : CampaignPerformance.t) : Z :=
  localeCompare (CampaignPerformance.ageGroup a) (CampaignPerformance.ageGroup b).

(** The result is the pair [(male, female)]. *)
Definition processCampaignPerformance (data : option MarketingData.t)
  : completion (list CampaignPerformance.t * list CampaignPerformance.t) :=
  match optional_campaigns data with
  | None => Normal ([], [])
  | Some campaigns =>
      maps <- forEach_breakdown Campaign.demographic_breakdown performance_visit
                campaigns ([], []) ;;
      Normal (Array_sort by_performance_ageGroup (Map_values (fst maps)),
              Array_sort by_performance_ageGroup (Map_values (snd maps)))
  end.
End WithLocale.
End DemographicView.

(* ================================================================= *)
(** ** Device view *)

Module DeviceMetrics.
Record t : Type := mk
  { mobileClicks : number;
    mobileSpend : number;
    mobileRevenue : number;
    desktopClicks : number;
    desktopSpend : number;
    desktopRevenue : number;
    tabletClicks : number;
    tabletSpend : number;
    tabletRevenue : number }.
End DeviceMetrics.

Module ChartPoint.
Record t : Type := mk { label : string; value : number }.
End ChartPoint.

Module CampaignPerformanceByDevice.
Record t : Type := mk
  { campaignName : string;
    deviceType : string;
    impressions : number;
    clicks : number;
    conversions : number;
    ctr : number;
    conversionRate : number }.
End CampaignPerformanceByDevice.

Module DeviceView.
Import DeviceBreakdown.
Local Open Scope float_scope.

(** *** [fetchData]: the breakdown made up for a campaign that has none.
    [r1], [r2], [r3] are the three results of [Math.random()]. *)
Definition mock_device_breakdown (r1 r2 r3 : number) : list t :=
  let device_breakdown :=
    [ mk "Mobile" (r1 * 50 + 25);
      mk "Desktop" (r2 * 30 + 10);
      mk "Tablet" (r3 * 10 + 2) ] in
  let total :=
    fold_left (fun acc curr => acc + percentage_of_audience curr) device_breakdown 0 in
  map (fun db => mk (device_type db) ((percentage_of_audience db / total) * 100))
      device_breakdown.

Definition with_device_breakdown (campaign : Campaign.t) (l : list t) : Campaign.t :=
  {| Campaign.name := Campaign.name campaign;
     Campaign.impressions := Campaign.impressions campaign;
     Campaign.clicks := Campaign.clicks campaign;
     Campaign.conversions := Campaign.conversions campaign;
     Campaign.spend := Campaign.spend campaign;
     Campaign.revenue := Campaign.revenue campaign;
     Campaign.weekly_performance := Campaign.weekly_performance campaign;
     Campaign.regional_performance := Campaign.regional_performance campaign;
     Campaign.demographic_breakdown := Campaign.demographic_breakdown campaign;
     Campaign.device_breakdown := Some l |}.

(** [random i] is the result of the [i]-th call of [Math.random()]. *)
Fixpoint fill_device_breakdown (random : nat -> number) (i : nat)
    (campaigns : list Campaign.t) : list Campaign.t :=
  match campaigns with
  | [] => []
  | campaign :: rest =>
      match Campaign.device_breakdown campaign with
      | Some _ => campaign :: fill_device_breakdown random i rest
      | None =>
          with_device_breakdown campaign
            (mock_device_breakdown (random i) (random (1 + i)%nat) (random (2 + i)%nat))
          :: fill_device_breakdown random (3 + i)%nat rest
      end
  end.

(** The document handed to [setData]; a payload without [campaigns] throws
    (and the view shows its error state). *)
Definition fetchData (random : nat -> number) (result : MarketingData.t)
  : completion MarketingData.t :=
  campaigns <- deref (MarketingData.campaigns result) ;;
  Normal (MarketingData.mk (Some (fill_device_breakdown random 0 campaigns))).

(** *** [processDeviceMetrics] *)

Definition initialMetrics : DeviceMetrics.t :=
  DeviceMetrics.mk 0 0 0 0 0 0 0 0 0.

Definition metrics_visit (campaign : Campaign.t)
    (metrics : DeviceMetrics.t) (device : t) : DeviceMetrics.t :=
  let percentage := percentage_of_audience device / 100 in
  let clicks := Math_round (Campaign.clicks campaign * percentage) in
  let spend := Campaign.spend campaign * percentage in
  let revenue := Campaign.revenue campaign * percentage in
  let m := metrics in
  if String.eqb (device_type device) "Mobile" then
    DeviceMetrics.mk
      (DeviceMetrics.mobileClicks m + clicks) (DeviceMetrics.mobileSpend m + spend)
      (DeviceMetrics.mobileRevenue m + revenue)
      (DeviceMetrics.desktopClicks m) (DeviceMetrics.desktopSpend m)
      (DeviceMetrics.desktopRevenue m)
      (DeviceMetrics.tabletClicks m) (DeviceMetrics.tabletSpend m)
      (DeviceMetrics.tabletRevenue m)
  else if String.eqb (device_type device) "Desktop" then
    DeviceMetrics.mk
      (DeviceMetrics.mobileClicks m) (DeviceMetrics.mobileSpend m)
      (DeviceMetrics.mobileRevenue m)
      (DeviceMetrics.desktopClicks m + clicks) (DeviceMetrics.desktopSpend m + spend)
      (DeviceMetrics.desktopRevenue m + revenue)
      (DeviceMetrics.tabletClicks m) (DeviceMetrics.tabletSpend m)
      (DeviceMetrics.tabletRevenue m)
  else if String.eqb (device_type device) "Tablet" then
    DeviceMetrics.mk
      (DeviceMetrics.mobileClicks m) (DeviceMetrics.mobileSpend m)
      (DeviceMetrics.mobileRevenue m)
      (DeviceMetrics.desktopClicks m) (DeviceMetrics.desktopSpend m)
      (DeviceMetrics.desktopRevenue m)
      (DeviceMetrics.tabletClicks m + clicks) (DeviceMetrics.tabletSpend m + spend)
      (DeviceMetrics.tabletRevenue m + revenue)
  else m.

Definition processDeviceMetrics (data : option MarketingData.t)
  : completion DeviceMetrics.t :=
  match optional_campaigns data with
  | None => Normal initialMetrics
  | Some campaigns =>
      forEach_breakdown Campaign.device_breakdown metrics_visit campaigns initialMetrics
  end.

(** *** [processDeviceChartData] *)

Definition chart_visit (campaign : Campaign.t)
    (deviceMap : Map SpendRevenue.t) (device : t) : Map SpendRevenue.t :=
  let percentage := percentage_of_audience device / 100 in
  let spend := Campaign.spend campaign * percentage in
  let revenue := Campaign.revenue campaign * percentage in
  let existing :=
    match Map_get (device_type device) deviceMap with
    | Some e => e
    | None => SpendRevenue.mk 0 0
    end in
  Map_set (device_type device)
    {| SpendRevenue.spend := SpendRevenue.spend existing + spend;
       SpendRevenue.revenue := SpendRevenue.revenue existing + revenue |}
    deviceMap.

Definition spend_point (entry : string * SpendRevenue.t) : ChartPoint.t :=
  ChartPoint.mk (fst entry) (SpendRevenue.spend (snd entry)).

Definition revenue_point (entry : string * SpendRevenue.t) : ChartPoint.t :=
  ChartPoint.mk (fst entry) (SpendRevenue.revenue (snd entry)).

(** The result is the pair [(spend, revenue)]. *)
Definition processDeviceChartData (data : option MarketingData.t)
  : completion (list ChartPoint.t * list ChartPoint.t) :=
  match optional_campaigns data with
  | None => Normal ([], [])
  | Some campaigns =>
      deviceMap <- forEach_breakdown Campaign.device_breakdown chart_visit campaigns [] ;;
      Normal (map spend_point (Map_entries deviceMap),
              map revenue_point (Map_entries deviceMap))
  end.

(** *** [processCampaignPerformanceByDevice] *)

Definition performance_of (campaign : Campaign.t) (device : t)
  : CampaignPerformanceByDevice.t :=
  let percentage := percentage_of_audience device / 100 in
  let impressions := Math_round (Campaign.impressions campaign * percentage) in
  let clicks := Math_round (Campaign.clicks campaign * percentage) in
  let conversions := Math_round (Campaign.conversions campaign * percentage) in
  let ctr := if 0 <? impressions then (clicks / impressions) * 100 else 0 in
  let conversionRate := if 0 <? clicks then (conversions / clicks) * 100 else 0 in
  {| CampaignPerformanceByDevice.campaignName := Campaign.name campaign;
     CampaignPerformanceByDevice.deviceType := device_type device;
     CampaignPerformanceByDevice.impressions := impressions;
     CampaignPerformanceByDevice.clicks := clicks;
     CampaignPerformanceByDevice.conversions := conversions;
     CampaignPerformanceByDevice.ctr := toFixed2 ctr;
     CampaignPerformanceByDevice.conversionRate := toFixed2 conversionRate |}.

Module Tables.
Record t : Type := mk
    { mobile : list CampaignPerformanceByDevice.t;
      desktop : list CampaignPerformanceByDevice.t;
      tablet : list CampaignPerformanceByDevice.t }.
End Tables.

Definition performance_visit (campaign : Campaign.t)
    (tables : Tables.t) (device : t) : Tables.t :=
  let performance := performance_of campaign device in
  if String.eqb (device_type device) "Mobile" then
    Tables.mk (Tables.mobile tables ++ [performance]) (Tables.desktop tables)
              (Tables.tablet tables)
  else if String.eqb (device_type device) "Desktop" then
    Tables.mk (Tables.mobile tables) (Tables.desktop tables ++ [performance])
              (Tables.tablet tables)
  else if String.eqb (device_type device) "Tablet" then
    Tables.mk (Tables.mobile tables) (Tables.desktop tables)
              (Tables.tablet tables ++ [performance])
  else tables.

Definition processCampaignPerformanceByDevice (data : option MarketingData.t)
  : completion Tables.t :=
  match optional_campaigns data with
  | None => Normal (Tables.mk [] [] [])
  | Some campaigns =>
      forEach_breakdown Campaign.device_breakdown performance_visit campaigns
        (Tables.mk [] [] [])
  end.
End DeviceView.

(* ================================================================= *)
(** ** Bubble map *)

Module BubbleMapDataPoint.
(** [latitude] and [longitude] are [None] when the value read into them is
    [undefined]. *)
Record t : Type := mk
  { region : string;
    country : string;
    latitude : option number;
    longitude : option number;
    value : number;
    additionalData : list (string * number) }.
End BubbleMapDataPoint.

Module BubbleMap.
Local Open Scope float_scope.

(** What a property read [CITY_COORDINATES[name]] yields. *)
Inductive property : Type :=
  | Coordinates (lat lng : number)   (* an entry of the table *)
  | Inherited                        (* a member of Object.prototype: truthy, without lat or lng *)
  | Undefined.

Definition own_CITY_COORDINATES : list (string * (number * number)) :=
  [ ("Abu Dhabi", (24.4539, 54.3773));
    ("Dubai", (25.2048, 55.2708));
    ("Sharjah", (25.3573, 55.4033));
    ("Riyadh", (24.7136, 46.6753));
    ("Doha", (25.2854, 51.531));
    ("Kuwait City", (29.3759, 47.9774));
    ("Manama", (26.0667, 50.5577)) ]%string.

(** The table is an object literal, so a name it does not own is looked up
    in [Object.prototype]. *)
Definition Object_prototype : list string :=
  [ "constructor"; "__proto__"; "hasOwnProperty"; "isPrototypeOf";
    "propertyIsEnumerable"; "toLocaleString"; "toString"; "valueOf";
    "__defineGetter__"; "__defineSetter__"; "__lookupGetter__";
    "__lookupSetter__" ]%string.

Definition CITY_COORDINATES (name : string) : property :=
  match Map_get name own_CITY_COORDINATES with
  | Some (lat, lng) => Coordinates lat lng
  | None =>
      if existsb (String.eqb name) Object_prototype then Inherited else Undefined
  end.

Inductive valueType : Type := revenue | spend | impressions | clicks | conversions.

Definition pick (item : RegionalPerformance.t) (v : valueType) : number :=
  match v with
  | revenue => RegionalPerformance.revenue item
  | spend => RegionalPerformance.spend item
  | impressions => RegionalPerformance.impressions item
  | clicks => RegionalPerformance.clicks item
  | conversions => RegionalPerformance.conversions item
  end.

Definition point_of (item : RegionalPerformance.t) (v : valueType)
    (lat lng : option number) : BubbleMapDataPoint.t :=
  {| BubbleMapDataPoint.region := RegionalPerformance.region item;
     BubbleMapDataPoint.country := RegionalPerformance.country item;
     BubbleMapDataPoint.latitude := lat;
     BubbleMapDataPoint.longitude := lng;
     BubbleMapDataPoint.value := pick item v;
     BubbleMapDataPoint.additionalData :=
       [ ("revenue", RegionalPerformance.revenue item);
         ("spend", RegionalPerformance.spend item);
         ("impressions", RegionalPerformance.impressions item);
         ("clicks", RegionalPerformance.clicks item);
         ("conversions", RegionalPerformance.conversions item) ]%string |}.

(** The callback of [.map]: a point or [null], and the line it logs. *)
Definition transform_item (v : valueType) (item : RegionalPerformance.t)
  : option BubbleMapDataPoint.t * list string :=
  match CITY_COORDINATES (RegionalPerformance.region item) with
  | Undefined =>
      (None,
       [("Coordinates not found for region: " ++ RegionalPerformance.region item)%string])
  | Coordinates lat lng => (Some (point_of item v (Some lat) (Some lng)), [])
  | Inherited => (Some (point_of item v None None), [])
  end.

(** The points returned ([.filter(Boolean)] drops the nulls) and the lines
    written by [console.warn], in order. *)
Fixpoint transformRegionalDataForBubbleMap
    (regionalData : list RegionalPerformance.t) (v : valueType)
  : list BubbleMapDataPoint.t * list string :=
  match regionalData with
  | [] => ([], [])
  | item :: rest =>
      let (p, w) := transform_item v item in
      let (ps, ws) := transformRegionalDataForBubbleMap rest v in
      (match p with Some pt => pt :: ps | None => ps end, w ++ ws)
  end.

(** *** The component: radius and colour of each bubble *)

(** [`rgb(${r}, ${g}, ${b})`] is kept as its three numbers. *)
Inductive color : Type :=
  | Hex (code : string)
  | Rgb (r g b : number).

Section Props.
Variables minRadius maxRadius : number.

Definition getRadius (value minValue maxValue : number) : number :=
    if maxValue =? minValue then (minRadius + maxRadius) / 2
    else
      let ratio := (value - minValue) / (maxValue - minValue) in
      minRadius + (maxRadius - minRadius) * ratio.

Definition getColor (value minValue maxValue : number) : color :=
    if maxValue =? minValue then Hex "#3B82F6"
    else
      let ratio := (value - minValue) / (maxValue - minValue) in
      if ratio <? 0.5 then
        let intensity := ratio * 2 in
        Rgb (Math_floor (59 + intensity * 196))
            (Math_floor (130 + intensity * 125))
            (Math_floor (246 - intensity * 246))
      else
        let intensity := (ratio - 0.5) * 2 in
        Rgb (Math_floor (255 - intensity * 255))
            (Math_floor (255 - intensity * 255))
            (Math_floor (246 - intensity * 246)).

Definition values_of (data : list BubbleMapDataPoint.t) : list number :=
    map BubbleMapDataPoint.value data.

    (** The [(radius, fillColor)] of the circle drawn for each point; without
        data the component shows a placeholder and draws nothing. *)
Definition markers (data : list BubbleMapDataPoint.t) : list (number * color) :=
    match data with
    | [] => []
    | _ =>
        let minValue := Math_min (values_of data) in
        let maxValue := Math_max (values_of data) in
        map (fun item =>
               (getRadius (BubbleMapDataPoint.value item) minValue maxValue,
                getColor (BubbleMapDataPoint.value item) minValue maxValue))
            data
    end.
End Props.
End BubbleMap.

(* ================================================================= *)
(** ** What the pages hand to their widgets *)

Module ChartDataPoint.
Record t : Type := mk
  { name : string;
    revenue : number;
    spend : number;
    impressions : number;
    clicks : number;
    conversions : number }.
End ChartDataPoint.

Module WeeklyChart.
Section WithDate.

Variable Date_getTime : string -> option Z.

(** [new Date(s).toLocaleDateString("en-US", { month: "short", day: "numeric" })]:
    the host's rendering of a date. *)
Variable toLocaleDateString : string -> string.

Definition transformWeeklyData (weeklyData : list WeeklyPerformance.t)
  : list ChartDataPoint.t :=
  map (fun week =>
         {| ChartDataPoint.name := toLocaleDateString (WeeklyPerformance.week_start week);
            ChartDataPoint.revenue := WeeklyPerformance.revenue week;
            ChartDataPoint.spend := WeeklyPerformance.spend week;
            ChartDataPoint.impressions := WeeklyPerformance.impressions week;
            ChartDataPoint.clicks := WeeklyPerformance.clicks week;
            ChartDataPoint.conversions := WeeklyPerformance.conversions week |})
      weeklyData.

(** [const chartData = transformWeeklyData(getAggregatedWeeklyData())] *)
Definition chartData (marketingData : option MarketingData.t)
  : completion (list ChartDataPoint.t) :=
  aggregatedWeeklyData <- WeeklyView.getAggregatedWeeklyData Date_getTime marketingData ;;
  Normal (transformWeeklyData aggregatedWeeklyData).
End WithDate.
End WeeklyChart.

Module DemographicCharts.
Section WithLocale.

Variable localeCompare : string -> string -> Z.

(** The [data] of the two bar charts:
    [ageGroupData.spend.map(item => ({ label: item.ageGroup, value: item.spend }))]
    and the same for revenue. *)
Definition barData (data : option MarketingData.t)
  : completion (list ChartPoint.t * list ChartPoint.t) :=
  ageGroupData <- DemographicView.processAgeGroupData localeCompare data ;;
  Normal
    (map (fun item => ChartPoint.mk (AgeGroupData.ageGroup item) (AgeGroupData.spend item))
         (fst ageGroupData),
     map (fun item => ChartPoint.mk (AgeGroupData.ageGroup item) (AgeGroupData.revenue item))
         (snd ageGroupData)).
End WithLocale.
End DemographicCharts.

Module RegionMaps.

(** The [data] of one bubble map of the region page:
    [transformRegionalDataForBubbleMap(aggregatedRegionalData, valueType)],
    with the lines it logs. *)
Definition bubbleMapData (valueType : BubbleMap.valueType)
    (marketingData : option MarketingData.t)
  : completion (list BubbleMapDataPoint.t * list string) :=
  aggregatedRegionalData <- RegionView.getAggregatedRegionalData marketingData ;;
  Normal (BubbleMap.transformRegionalDataForBubbleMap aggregatedRegionalData valueType).
End RegionMaps.

(* ================================================================= *)
(** ** The state of a view: [data], [loading], [error] *)

Module ViewState.
Record t : Type := mk
  { data : option MarketingData.t;
    loading : bool;
    error : option string }.

(** [useState(null)], [useState(true)], [useState(null)] *)
Definition initial : t := mk None true None.

Inductive update : Type :=
| setData (result : MarketingData.t)
| setLoading (b : bool)
| setError (message : string).

Definition apply (s : t) (u : update) : t :=
  match u with
  | setData result => mk (Some result) (loading s) (error s)
  | setLoading b => mk (data s) b (error s)
  | setError message => mk (data s) (loading s) (Some message)
  end.

(** The states a view goes through while the updates arrive, the first one
    included. *)
Fixpoint states (s : t) (updates : list update) : list t :=
  s :: match updates with
       | [] => []
       | u :: rest => states (apply s u) rest
       end.

Definition final (s : t) (updates : list update) : t := fold_left apply updates s.

(** A value thrown or rejected with: an [Error] with its message, or
    anything else. *)
Inductive thrown : Type :=
| ErrorObject (message : string)
| OtherValue.

(** [err instanceof Error ? err.message : fallback] *)
Definition message_of (fallback : string) (err : thrown) : string :=
  match err with
  | ErrorObject message => message
  | OtherValue => fallback
  end.

(** What a page shows. *)
Inductive screen (A : Type) : Type :=
| Loading
| Failed (message : string)
| Dashboard (content : A).
Arguments Loading {A}.
Arguments Failed {A} message.
Arguments Dashboard {A} content.

(** [if (loading) ...; if (error) ...; return <the dashboard>]: the empty
    string is falsy. *)
Definition choose {A : Type} (s : t) (content : A) : screen A :=
  if loading s then Loading
  else
    match error s with
    | Some message => if String.eqb message "" then Dashboard content else Failed message
    | None => Dashboard content
    end.
End ViewState.

Module DemographicPage.
Module Content.
Record t : Type := mk
  { demographicMetrics : DemographicMetrics.t;
    bars : list ChartPoint.t * list ChartPoint.t;
    campaignPerformance : list CampaignPerformance.t * list CampaignPerformance.t }.
End Content.

Section WithLocale.
Import ViewState.

Variable localeCompare : string -> string -> Z.

(** What [await fetch(...)] and [await response.json()] come to: the fetch
    rejects, or resolves with a response whose [ok] is known and whose body
    parses or fails to. *)
Inductive fetched : Type :=
| Rejected (err : thrown)
| Response (ok : bool) (json : thrown + MarketingData.t).

(** The updates of the effect's [fetchData], in order. *)
Definition fetchData (outcome : fetched) : list update :=
  (match outcome with
   | Rejected err => [setError (message_of "An error occurred" err)]
   | Response false _ => [setError "Failed to fetch data"]
   | Response true (inl err) => [setError (message_of "An error occurred" err)]
   | Response true (inr result) => [setData result]
   end ++ [setLoading false])%list.

(** One render: the three processing functions run first, whatever the
    state. *)
Definition render (s : ViewState.t) : completion (screen Content.t) :=
  demographicMetrics <- DemographicView.processDemographicMetrics (data s) ;;
  bars <- DemographicCharts.barData localeCompare (data s) ;;
  campaignPerformance <-
    DemographicView.processCampaignPerformance localeCompare (data s) ;;
  Normal (choose s (Content.mk demographicMetrics bars campaignPerformance)).
End WithLocale.
End DemographicPage.

Module DevicePage.
Module Content.
Record t : Type := mk
  { deviceMetrics : DeviceMetrics.t;
    deviceChartData : list ChartPoint.t * list ChartPoint.t;
    campaignPerformance : DeviceView.Tables.t }.
End Content.

Section WithHost.
Import ViewState.

(** The draws of [Math.random()] and the message of the TypeError the engine
    throws for [undefined.forEach]. *)
Variable random : nat -> number.
Variable TypeError_message : string.

Definition fetchData (outcome : DemographicPage.fetched) : list update :=
  (match outcome with
   | DemographicPage.Rejected err => [setError (message_of "An error occurred" err)]
   | DemographicPage.Response false _ => [setError "Failed to fetch data"]
   | DemographicPage.Response true (inl err) =>
       [setError (message_of "An error occurred" err)]
   | DemographicPage.Response true (inr result) =>
       match DeviceView.fetchData random result with
       | Normal enriched => [setData enriched]
       | TypeError => [setError TypeError_message]
       end
   end ++ [setLoading false])%list.

Definition render (s : ViewState.t) : completion (screen Content.t) :=
  deviceMetrics <- DeviceView.processDeviceMetrics (data s) ;;
  deviceChartData <- DeviceView.processDeviceChartData (data s) ;;
  campaignPerformance <- DeviceView.processCampaignPerformanceByDevice (data s) ;;
  Normal (choose s (Content.mk deviceMetrics deviceChartData campaignPerformance)).
End WithHost.
End DevicePage.

(* ================================================================= *)
(** ** Vocabulary of the properties *)

(** The apportionment of a campaign total: [total * (percentage / 100)]. *)
Definition apportion (total percentage : number) : number :=
  (total * (percentage / 100))%float.

(** A sum taken in the order of the list, as the accumulators take it. *)
Definition sum_from (start : number) (l : list number) : number :=
  fold_left PrimFloat.add l start.

(** The entries of one breakdown dimension in document order, each with the
    campaign that owns it. *)
Definition entries_of {E : Type} (field : Campaign.t -> option (list E))
    (campaigns : list Campaign.t) : list (Campaign.t * E) :=
  flat_map
    (fun c => map (pair c) (match field c with Some l => l | None => [] end))
    campaigns.

(** The keys of a list, each at the place of its first appearance. *)
Fixpoint first_seen (l : list string) : list string :=
  match l with
  | [] => []
  | k :: l' => k :: filter (fun k' => negb (String.eqb k' k)) (first_seen l')
  end.

(** The merge-reduce all four views instantiate: a new key stores [init e],
    a key already present stores [merge existing e]. *)
Section MergeReduce.
Context {E V : Type}.
Variable key : E -> string.
Variable init : E -> V.
Variable merge : V -> E -> V.

Definition upsert (m : Map V) (e : E) : Map V :=
  match Map_get (key e) m with
  | Some existing => Map_set (key e) (merge existing e) m
  | None => Map_set (key e) (init e) m
  end.

Definition has_key (k : string) (e : E) : bool := String.eqb (key e) k.

(** The bucket of [k]: the entries of key [k] folded in order. *)
Definition bucket_from (o : option V) (k : string) (es : list E) : option V :=
  match o, filter (has_key k) es with
  | Some v, l => Some (fold_left merge l v)
  | None, [] => None
  | None, e :: l => Some (fold_left merge l (init e))
  end.
End MergeReduce.

(** A comparator whose sign orders its arguments consistently. *)
Definition consistent {A : Type} (cmp : A -> A -> Z) : Prop :=
  (forall a b, (0 < cmp a b)%Z -> (cmp b a <= 0)%Z) /\
  (forall a b c, (cmp a b <= 0)%Z -> (cmp b c <= 0)%Z -> (cmp a c <= 0)%Z).

Definition all_present {E : Type} (field : Campaign.t -> option (list E))
    (campaigns : list Campaign.t) : Prop :=
  Forall (fun c => field c <> None) campaigns.

(** One step of the loop nest on an entry paired with its campaign. *)
Definition visit_pair {E S : Type} (visit : Campaign.t -> S -> E -> S)
    (s : S) (ce : Campaign.t * E) : S :=
  visit (fst ce) s (snd ce).

(** [k] is not among [ks]. *)
Definition fresh (ks : list string) (k : string) : bool :=
  negb (existsb (String.eqb k) ks).

(** The order a comparator induces: [a] may stand before [b]. *)
Definition cmp_le {A : Type} (cmp : A -> A -> Z) (a b : A) : Prop :=
  (cmp a b <= 0)%Z.

(** What the device view's fetch makes of a campaign: a campaign with a
    breakdown is kept; one without gets Mobile, Desktop and Tablet, each
    synthetic percentage divided by the sum of the three and multiplied by
    100.  The draws are three consecutive results of [Math.random()]. *)
Definition synthesized_from (random : nat -> number) (c c' : Campaign.t) : Prop :=
  match Campaign.device_breakdown c with
  | Some _ => c' = c
  | None =>
      exists i : nat,
        let p1 := (random i * 50 + 25)%float in
        let p2 := (random (1 + i)%nat * 30 + 10)%float in
        let p3 := (random (2 + i)%nat * 10 + 2)%float in
        let total := (0 + p1 + p2 + p3)%float in
        c' = DeviceView.with_device_breakdown c
               [ DeviceBreakdown.mk "Mobile" (p1 / total * 100)%float;
                 DeviceBreakdown.mk "Desktop" (p2 / total * 100)%float;
                 DeviceBreakdown.mk "Tablet" (p3 / total * 100)%float ]
  end.

(** The view state once a document with these campaigns is fetched. *)
Definition document (campaigns : list Campaign.t) : option MarketingData.t :=
  Some (MarketingData.mk (Some campaigns)).

(** The entries of each dimension, in document order. *)
Definition weeks_of (campaigns : list Campaign.t) : list WeeklyPerformance.t :=
  map snd (entries_of Campaign.weekly_performance campaigns).

Definition regions_of (campaigns : list Campaign.t) : list RegionalPerformance.t :=
  map snd (entries_of Campaign.regional_performance campaigns).

Definition demographics_of (campaigns : list Campaign.t)
  : list (Campaign.t * DemographicBreakdown.t) :=
  entries_of Campaign.demographic_breakdown campaigns.

Definition devices_of (campaigns : list Campaign.t)
  : list (Campaign.t * DeviceBreakdown.t) :=
  entries_of Campaign.device_breakdown campaigns.

Definition is_gender (g : string) (ce : Campaign.t * DemographicBreakdown.t) : bool :=
  String.eqb (DemographicBreakdown.gender (snd ce)) g.

Definition age_of (ce : Campaign.t * DemographicBreakdown.t) : string :=
  DemographicBreakdown.age_group (snd ce).

Definition device_of (ce : Campaign.t * DeviceBreakdown.t) : string :=
  DeviceBreakdown.device_type (snd ce).

(** The share of a campaign total that falls to a breakdown entry. *)
Definition demographic_share (total : Campaign.t -> number)
    (ce : Campaign.t * DemographicBreakdown.t) : number :=
  apportion (total (fst ce)) (DemographicBreakdown.percentage_of_audience (snd ce)).

Definition device_share (total : Campaign.t -> number)
    (ce : Campaign.t * DeviceBreakdown.t) : number :=
  apportion (total (fst ce)) (DeviceBreakdown.percentage_of_audience (snd ce)).

(** The same shares as the tables count them: rounded at once. *)
Definition rounded_demographic_share (total : Campaign.t -> number)
    (ce : Campaign.t * DemographicBreakdown.t) : number :=
  Math_round (demographic_share total ce).

Definition rounded_device_share (total : Campaign.t -> number)
    (ce : Campaign.t * DeviceBreakdown.t) : number :=
  Math_round (device_share total ce).

(** Ascending week-start dates: both are dates and the first is not later. *)
Definition week_le (Date_getTime : string -> option Z)
    (a b : WeeklyPerformance.t) : Prop :=
  match Date_getTime (WeeklyPerformance.week_start a),
        Date_getTime (WeeklyPerformance.week_start b) with
  | Some ta, Some tb => (ta <= tb)%Z
  | _, _ => False
  end.

(** The visits of the views as instances of the merge-reduce. *)
Definition weekly_upsert
  : Map WeeklyPerformance.t -> WeeklyPerformance.t -> Map WeeklyPerformance.t :=
  upsert WeeklyPerformance.week_start (fun w => w) WeeklyView.merged.

Definition regional_upsert
  : Map RegionalPerformance.t -> RegionalPerformance.t -> Map RegionalPerformance.t :=
  upsert RegionView.key_of (fun r => r) RegionView.merged.

Definition performance_upsert
  : Map CampaignPerformance.t -> Campaign.t * DemographicBreakdown.t ->
    Map CampaignPerformance.t :=
  upsert age_of
    (fun ce => DemographicView.performance_of (fst ce) (snd ce))
    (fun existing ce =>
       DemographicView.performance_add existing
         (DemographicView.performance_of (fst ce) (snd ce))).

(** [{ spend: existing.spend + spend, revenue: existing.revenue + revenue }] *)
Definition add_shares {E : Type} (spend_share revenue_share : E -> number)
    (existing : SpendRevenue.t) (e : E) : SpendRevenue.t :=
  {| SpendRevenue.spend := (SpendRevenue.spend existing + spend_share e)%float;
     SpendRevenue.revenue := (SpendRevenue.revenue existing + revenue_share e)%float |}.

Definition shares_upsert {E : Type} (key : E -> string)
    (spend_share revenue_share : E -> number)
  : Map SpendRevenue.t -> E -> Map SpendRevenue.t :=
  upsert key
    (add_shares spend_share revenue_share (SpendRevenue.mk 0%float 0%float))
    (add_shares spend_share revenue_share).

Definition age_upsert
  : Map SpendRevenue.t -> Campaign.t * DemographicBreakdown.t -> Map SpendRevenue.t :=
  shares_upsert age_of (demographic_share Campaign.spend)
    (demographic_share Campaign.revenue).

Definition chart_upsert
  : Map SpendRevenue.t -> Campaign.t * DeviceBreakdown.t -> Map SpendRevenue.t :=
  shares_upsert device_of (device_share Campaign.spend) (device_share Campaign.revenue).

(** An entry counted by the gender-partitioned outputs. *)
Definition binary_gender (demo : DemographicBreakdown.t) : bool :=
  String.eqb (DemographicBreakdown.gender demo) "Male"
  || String.eqb (DemographicBreakdown.gender demo) "Female".

(** The campaign without its entries of any other gender. *)
Definition without_other_genders (c : Campaign.t) : Campaign.t :=
  {| Campaign.name := Campaign.name c;
     Campaign.impressions := Campaign.impressions c;
     Campaign.clicks := Campaign.clicks c;
     Campaign.conversions := Campaign.conversions c;
     Campaign.spend := Campaign.spend c;
     Campaign.revenue := Campaign.revenue c;
     Campaign.weekly_performance := Campaign.weekly_performance c;
     Campaign.regional_performance := Campaign.regional_performance c;
     Campaign.demographic_breakdown :=
       option_map (filter binary_gender) (Campaign.demographic_breakdown c);
     Campaign.device_breakdown := Campaign.device_breakdown c |}.

Definition is_device (t : string) (ce : Campaign.t * DeviceBreakdown.t) : bool :=
  String.eqb (DeviceBreakdown.device_type (snd ce)) t.

(** An entry counted by the device cards and tables. *)
Definition known_device (device : DeviceBreakdown.t) : bool :=
  String.eqb (DeviceBreakdown.device_type device) "Mobile"
  || String.eqb (DeviceBreakdown.device_type device) "Desktop"
  || String.eqb (DeviceBreakdown.device_type device) "Tablet".

(** The campaign without its entries of any other device type. *)
Definition without_unknown_devices (c : Campaign.t) : Campaign.t :=
  {| Campaign.name := Campaign.name c;
     Campaign.impressions := Campaign.impressions c;
     Campaign.clicks := Campaign.clicks c;
     Campaign.conversions := Campaign.conversions c;
     Campaign.spend := Campaign.spend c;
     Campaign.revenue := Campaign.revenue c;
     Campaign.weekly_performance := Campaign.weekly_performance c;
     Campaign.regional_performance := Campaign.regional_performance c;
     Campaign.demographic_breakdown := Campaign.demographic_breakdown c;
     Campaign.device_breakdown :=
       option_map (filter known_device) (Campaign.device_breakdown c) |}.

(** The row of the device tables made for an entry. *)
Definition device_row (ce : Campaign.t * DeviceBreakdown.t)
  : CampaignPerformanceByDevice.t :=
  DeviceView.performance_of (fst ce) (snd ce).

(** The order of two week-start strings as dates. *)
Definition date_le (Date_getTime : string -> option Z) (k k' : string) : Prop :=
  match Date_getTime k, Date_getTime k' with
  | Some t, Some t' => (t <= t')%Z
  | _, _ => False
  end.

(** A name without the separator of the regional key. *)
Fixpoint no_hyphen (s : string) : bool :=
  match s with
  | EmptyString => true
  | String c rest => negb (Ascii.eqb c "-"%char) && no_hyphen rest
  end.

(** The region and the country of a regional entry and of a bubble. *)
Definition place_of (r : RegionalPerformance.t) : string * string :=
  (RegionalPerformance.region r, RegionalPerformance.country r).

Definition same_place (b r : RegionalPerformance.t) : bool :=
  String.eqb (RegionalPerformance.region r) (RegionalPerformance.region b)
  && String.eqb (RegionalPerformance.country r) (RegionalPerformance.country b).

Definition bubble_place (p : BubbleMapDataPoint.t) : string * string :=
  (BubbleMapDataPoint.region p, BubbleMapDataPoint.country p).

(** The name reads as something truthy in [CITY_COORDINATES]. *)
Definition located (name : string) : bool :=
  match BubbleMap.CITY_COORDINATES name with
  | BubbleMap.Undefined => false
  | _ => true
  end.

Definition warning_of (name : string) : string :=
  ("Coordinates not found for region: " ++ name)%string.

(** The point drawn for a located record. *)
Definition bubble_of (v : BubbleMap.valueType) (item : RegionalPerformance.t)
  : BubbleMapDataPoint.t :=
  match BubbleMap.CITY_COORDINATES (RegionalPerformance.region item) with
  | BubbleMap.Coordinates lat lng => BubbleMap.point_of item v (Some lat) (Some lng)
  | _ => BubbleMap.point_of item v None None
  end.

(** The state holds a document, or an error message. *)
Definition has_data (s : ViewState.t) : bool :=
  match ViewState.data s with Some _ => true | None => false end.

Definition has_error (s : ViewState.t) : bool :=
  match ViewState.error s with Some _ => true | None => false end.

(** The effect has fetched [result] without failure. *)
Definition fetched_document (result : MarketingData.t) : DemographicPage.fetched :=
  DemographicPage.Response true (inr result).

(** A number that is neither zero, nor infinite, nor NaN. *)
Definition finite_nonzero (x : number) : bool :=
  match Prim2SF x with
  | S754_finite _ _ _ => true
  | _ => false
  end.

(* ================================================================= *)
(** ** Sample documents *)

Module Samples.
Local Open Scope string_scope.
Local Open Scope float_scope.

(** A sample collation: code-unit order. *)
Fixpoint codeUnitCompare (a b : string) : Z :=
  match a, b with
  | EmptyString, EmptyString => 0
  | EmptyString, String _ _ => -1
  | String _ _, EmptyString => 1
  | String x a', String y b' =>
      let d := (Z.of_N (N_of_ascii x) - Z.of_N (N_of_ascii y))%Z in
      if (d =? 0)%Z then codeUnitCompare a' b' else d
  end.

(** The time values of the week-start dates used below. *)
Definition sample_getTime (s : string) : option Z :=
  if String.eqb s "2024-01-01" then Some 1704067200000%Z
  else if String.eqb s "2024-01-08" then Some 1704672000000%Z
  else if String.eqb s "2024-01-15" then Some 1705276800000%Z
  else None.

(** Two campaigns with totals impressions=1000, clicks=100, conversions=10
    and the single demographic entry 18-24 / Male / 50. *)
Definition young_men : DemographicBreakdown.t :=
  DemographicBreakdown.mk "18-24" "Male" 50.

Definition half_male (name : string) (spend revenue : number) : Campaign.t :=
  Campaign.mk name 1000 100 10 spend revenue (Some []) (Some []) (Some [young_men]) None.

(** Clicks recorded for a campaign without impressions. *)
Definition no_impressions : Campaign.t :=
  Campaign.mk "Clicks only" 0 100 10 500 900 (Some []) (Some []) (Some [young_men]) None.

(** The same region reported by two campaigns: 10 clicks on 100 impressions
    (ctr 10) and 10 clicks on 200 impressions (ctr 5). *)
Definition dubai_A : RegionalPerformance.t :=
  RegionalPerformance.mk "Dubai" "UAE" 100 10 1 50 200 10 10 5 50 4.
Definition dubai_B : RegionalPerformance.t :=
  RegionalPerformance.mk "Dubai" "UAE" 200 10 2 80 240 5 20 8 40 3.

Definition regional_campaign (name : string) (rs : list RegionalPerformance.t)
  : Campaign.t :=
  Campaign.mk name 5000 400 40 1000 3000 (Some []) (Some rs) (Some []) None.

(** A region named after a member of [Object.prototype], and one that is
    nowhere. *)
Definition constructor_region : RegionalPerformance.t :=
  RegionalPerformance.mk "constructor" "UAE" 200 10 2 80 240 5 20 8 40 3.
Definition atlantis : RegionalPerformance.t :=
  RegionalPerformance.mk "Atlantis" "Nowhere" 200 10 2 80 240 5 20 8 40 3.

(** Two bubbles of values 10 and 30, and two of the same value. *)
Definition bubble (name : string) (lat lng v : number) : BubbleMapDataPoint.t :=
  BubbleMapDataPoint.mk name "UAE" (Some lat) (Some lng) v [].

Definition two_bubbles : list BubbleMapDataPoint.t :=
  [ bubble "Dubai" 25.2048 55.2708 10; bubble "Sharjah" 25.3573 55.4033 30 ].

(** A campaign of an older payload, without device breakdown, and the three
    draws 0.25, 0.5, 0.5 of [Math.random()]. *)
Definition legacy_campaign : Campaign.t :=
  Campaign.mk "Legacy" 1000 100 10 500 900 (Some []) (Some []) (Some []) None.

Definition draws (i : nat) : number := nth i [0.25; 0.5; 0.5] 0.

(** One week reported by two campaigns, with values of its own: 7 and 5
    impressions, and so on. *)
Definition week_A : WeeklyPerformance.t :=
  WeeklyPerformance.mk "2024-01-01" 7 3 1 2.5 4.
Definition week_B : WeeklyPerformance.t :=
  WeeklyPerformance.mk "2024-01-01" 5 2 1 1.5 3.

Definition weekly_campaign (name : string)
    (impressions clicks conversions spend revenue : number)
    (weeks : list WeeklyPerformance.t) : Campaign.t :=
  Campaign.mk name impressions clicks conversions spend revenue
    (Some weeks) (Some []) (Some []) None.

Definition weekly_pair : list Campaign.t :=
  [ weekly_campaign "A" 1000 100 10 500 900 [week_A];
    weekly_campaign "B" 1000 100 10 500 900 [week_B] ].

Definition merged_week : WeeklyPerformance.t :=
  WeeklyPerformance.mk "2024-01-01" 12 5 2 4 7.

Definition two_half_male : list Campaign.t :=
  [ half_male "A" 500 900; half_male "B" 300 600 ].

Definition merged_young_men : CampaignPerformance.t :=
  CampaignPerformance.mk "18-24" "Male" 1000 100 10 10 10.

(** Three weeks reported latest first. *)
Definition week (start : string) (n : number) : WeeklyPerformance.t :=
  WeeklyPerformance.mk start n n n n n.

Definition weeks_latest_first : list Campaign.t :=
  [ weekly_campaign "A" 1000 100 10 500 900 [week "2024-01-15" 3; week "2024-01-08" 2];
    weekly_campaign "B" 1000 100 10 500 900 [week "2024-01-01" 1; week "2024-01-08" 4] ].

(** Demographic entries of three age groups, oldest first. *)
Definition ages_oldest_first : list Campaign.t :=
  [ Campaign.mk "A" 1000 100 10 500 900 (Some []) (Some [])
      (Some [ DemographicBreakdown.mk "35-44" "Male" 30;
              DemographicBreakdown.mk "25-34" "Male" 30;
              DemographicBreakdown.mk "18-24" "Male" 40 ])
      None ].

(** Regions and devices in the order Doha, Dubai, Doha and Tablet, Mobile,
    Tablet. *)
Definition region (name : string) : RegionalPerformance.t :=
  RegionalPerformance.mk name "GCC" 100 10 1 50 200 10 10 5 50 4.

Definition regions_and_devices : list Campaign.t :=
  [ Campaign.mk "A" 1000 100 10 500 900 (Some [])
      (Some [region "Doha"; region "Dubai"; region "Doha"]) (Some [])
      (Some [ DeviceBreakdown.mk "Tablet" 10; DeviceBreakdown.mk "Mobile" 60;
              DeviceBreakdown.mk "Tablet" 30 ]) ].

Definition male_row (age : string) (impressions clicks conversions : number)
  : CampaignPerformance.t :=
  CampaignPerformance.mk age "Male" impressions clicks conversions 10 10.

(** A campaign whose payload has no demographic breakdown, and the same
    campaign with an empty one. *)
Definition no_demographics : Campaign.t :=
  Campaign.mk "Old" 1000 100 10 500 900 (Some []) (Some []) None None.

Definition empty_demographics : Campaign.t :=
  Campaign.mk "Old" 1000 100 10 500 900 (Some []) (Some []) (Some []) None.

(** An entry of another gender next to a male one of the same age group. *)
Definition mixed_genders : Campaign.t :=
  Campaign.mk "Mixed" 1000 100 10 500 900 (Some []) (Some [])
    (Some [ DemographicBreakdown.mk "18-24" "Male" 50;
            DemographicBreakdown.mk "18-24" "Non-binary" 20 ])
    None.

(** A campaign that was never shown, on mobile only. *)
Definition idle_campaign : Campaign.t :=
  Campaign.mk "Idle" 0 0 0 0 0 (Some []) (Some []) (Some [])
    (Some [DeviceBreakdown.mk "Mobile" 100]).

Definition unseen_campaign : Campaign.t :=
  Campaign.mk "Unseen" 0 0 0 0 0 (Some []) (Some []) (Some [young_men]) None.

(** A campaign with entries of both genders and of another one. *)
Definition three_genders : Campaign.t :=
  Campaign.mk "Genders" 1000 100 10 500 900 (Some []) (Some [])
    (Some [ DemographicBreakdown.mk "18-24" "Male" 50;
            DemographicBreakdown.mk "18-24" "Female" 30;
            DemographicBreakdown.mk "25-34" "Other" 20 ])
    None.

(** A campaign seen on two phones, a desktop and a television. *)
Definition four_devices : Campaign.t :=
  Campaign.mk "Devices" 1000 100 10 500 900 (Some []) (Some []) (Some [])
    (Some [ DeviceBreakdown.mk "Mobile" 40; DeviceBreakdown.mk "Desktop" 30;
            DeviceBreakdown.mk "Mobile" 20; DeviceBreakdown.mk "TV" 10 ]).

(** A sample rendering of the week-start dates. *)
Definition sample_toLocaleDateString (s : string) : string :=
  if String.eqb s "2024-01-01" then "Jan 1"
  else if String.eqb s "2024-01-08" then "Jan 8"
  else if String.eqb s "2024-01-15" then "Jan 15"
  else "Invalid Date".

(** The campaigns of [weeks_latest_first] in the other order. *)
Definition weeks_other_order : list Campaign.t :=
  [ weekly_campaign "B" 1000 100 10 500 900 [week "2024-01-01" 1; week "2024-01-08" 4];
    weekly_campaign "A" 1000 100 10 500 900 [week "2024-01-15" 3; week "2024-01-08" 2] ].

(** Dubai reported by two campaigns, next to a region without coordinates. *)
Definition dubai_twice : list Campaign.t :=
  [ regional_campaign "A" [dubai_A; atlantis]; regional_campaign "B" [dubai_B] ].

Definition dubai_bucket : RegionalPerformance.t :=
  RegionalPerformance.mk "Dubai" "UAE" 300 20 3 130 440 5 20 8 40 3.

(** A campaign reporting a week whose start is not a date, between two that
    are. *)
Definition undated_week : list Campaign.t :=
  [ weekly_campaign "A" 1000 100 10 500 900
      [week "2024-01-15" 3; week "TBD" 2; week "2024-01-01" 1] ].
End Samples.

(* ================================================================= *)
(** * Properties *)

(** ** Maps *)

Section MapFacts.
Context {V : Type}.
Implicit Types (m : Map V) (k : string) (v : V).

Lemma Map_get_set_same k v m : Map_get k (Map_set k v m) = Some v.
Proof.
    induction m as [|[k' v'] m IH]; simpl.
    - now rewrite String.eqb_refl.
    - destruct (String.eqb k' k) eqn:Hk; simpl; rewrite Hk; auto.
Qed.

Lemma Map_get_set_other k k' v m :
    k <> k' -> Map_get k' (Map_set k v m) = Map_get k' m.
Proof.
    intros Hne. induction m as [|[k0 v0] m IH]; simpl.
    - destruct (String.eqb k k') eqn:Hk; auto.
      apply String.eqb_eq in Hk. contradiction.
    - destruct (String.eqb k0 k) eqn:Hk; simpl.
      + apply String.eqb_eq in Hk. subst k0.
        destruct (String.eqb k k') eqn:Hk'; auto.
        apply String.eqb_eq in Hk'. contradiction.
      + now rewrite IH.
Qed.

Lemma Map_has_get k m :
    Map_has k m = match Map_get k m with Some _ => true | None => false end.
Proof. reflexivity. Qed.

Lemma Map_get_In k v m : Map_get k m = Some v -> In (k, v) m.
Proof.
    induction m as [|[k' v'] m IH]; simpl; [discriminate|].
    destruct (String.eqb k' k) eqn:Hk; intros H.
    - apply String.eqb_eq in Hk. inversion H. subst. now left.
    - right. auto.
Qed.

Lemma Map_get_None_keys k m : Map_get k m = None <-> ~ In k (Map_keys m).
Proof.
    induction m as [|[k' v'] m IH]; simpl.
    - split; auto.
    - destruct (String.eqb k' k) eqn:Hk.
      + apply String.eqb_eq in Hk. subst. split; [discriminate|]. intros H. exfalso. auto.
      + apply String.eqb_neq in Hk. rewrite IH. unfold Map_keys. tauto.
Qed.

Lemma In_Map_get k v m : NoDup (Map_keys m) -> In (k, v) m -> Map_get k m = Some v.
Proof.
    induction m as [|[k' v'] m IH]; simpl; [tauto|].
    intros Hnd [Heq|Hin].
    - inversion Heq. subst. now rewrite String.eqb_refl.
    - inversion Hnd as [|? ? Hnotin Hnd']. subst.
      destruct (String.eqb k' k) eqn:Hk.
      + apply String.eqb_eq in Hk. subst. exfalso. apply Hnotin.
        unfold Map_keys. change k with (fst (k, v)). now apply in_map.
      + auto.
Qed.

Lemma Map_keys_set k v m :
    Map_keys (Map_set k v m) =
    if Map_has k m then Map_keys m else Map_keys m ++ [k].
Proof.
    unfold Map_has. induction m as [|[k' v'] m IH]; simpl; auto.
    destruct (String.eqb k' k) eqn:Hk; simpl; auto.
    rewrite IH. now destruct (Map_get k m).
Qed.
End MapFacts.

(** ** The loop nest over campaigns and entries *)

Section LoopFacts.
Context {E S : Type}.
Variable field : Campaign.t -> option (list E).
Variable visit : Campaign.t -> S -> E -> S.

Lemma fold_left_visit_pair c l s :
  fold_left (visit_pair visit) (map (pair c) l) s = fold_left (visit c) l s.
Proof. revert s. induction l as [|e l IH]; intros s; simpl; auto. Qed.

Lemma forEach_breakdown_present campaigns s :
  all_present field campaigns ->
  forEach_breakdown field visit campaigns s =
  Normal (fold_left (visit_pair visit) (entries_of field campaigns) s).
Proof.
  intros Hall. revert s. induction Hall as [|c cs Hc _ IH]; intros s; simpl; auto.
  destruct (field c) as [l|] eqn:Hf; [|contradiction]. simpl.
  rewrite fold_left_app, fold_left_visit_pair. apply IH.
Qed.

Lemma forEach_breakdown_absent campaigns s :
  Exists (fun c => field c = None) campaigns ->
  forEach_breakdown field visit campaigns s = TypeError.
Proof.
  intros Hex. revert s. induction Hex as [c cs Hc|c cs _ IH]; intros s; simpl.
  - now rewrite Hc.
  - destruct (field c); simpl; auto.
Qed.

Lemma forEach_breakdown_Normal campaigns s s' :
  forEach_breakdown field visit campaigns s = Normal s' ->
  all_present field campaigns /\
  s' = fold_left (visit_pair visit) (entries_of field campaigns) s.
Proof.
  revert s. induction campaigns as [|c cs IH]; intros s; simpl.
  - intros H. inversion H. split; [constructor|reflexivity].
  - destruct (field c) as [l|] eqn:Hf; simpl; [|discriminate].
    intros H. apply IH in H. destruct H as [Hall ->]. split.
    + constructor; [congruence|assumption].
    + now rewrite fold_left_app, fold_left_visit_pair.
Qed.
End LoopFacts.

(** ** Merge-reduce *)

Lemma filter_twice {A : Type} (f g : A -> bool) (l : list A) :
  filter f (filter g l) = filter (fun x => g x && f x) l.
Proof.
  induction l as [|x l IH]; simpl; auto.
  destruct (g x); simpl; [destruct (f x)|]; now rewrite IH.
Qed.

Section MergeReduceFacts.
Context {E V : Type}.
Variable key : E -> string.
Variable init : E -> V.
Variable merge : V -> E -> V.

Let ups := upsert key init merge.

Lemma Map_get_upsert k m e :
  Map_get k (ups m e) =
  if has_key key k e
  then Some (match Map_get k m with Some v => merge v e | None => init e end)
  else Map_get k m.
Proof.
  unfold ups, upsert, has_key. destruct (String.eqb (key e) k) eqn:Hk.
  - apply String.eqb_eq in Hk. subst k.
    destruct (Map_get (key e) m); apply Map_get_set_same.
  - apply String.eqb_neq in Hk.
    destruct (Map_get (key e) m); now apply Map_get_set_other.
Qed.

Lemma Map_get_upsert_fold k es m :
  Map_get k (fold_left ups es m) = bucket_from key init merge (Map_get k m) k es.
Proof.
  revert m. induction es as [|e es IH]; intros m; simpl.
  - unfold bucket_from. simpl. now destruct (Map_get k m).
  - rewrite IH, Map_get_upsert. unfold bucket_from. simpl.
    destruct (has_key key k e); [|reflexivity].
    now destruct (Map_get k m).
Qed.

Lemma Map_keys_upsert m e :
  Map_keys (ups m e) = if Map_has (key e) m then Map_keys m else Map_keys m ++ [key e].
Proof.
  unfold ups, upsert. rewrite Map_has_get.
  destruct (Map_get (key e) m) eqn:Hg; rewrite Map_keys_set, Map_has_get, Hg; reflexivity.
Qed.

Lemma Map_has_existsb k (m : Map V) : Map_has k m = existsb (String.eqb k) (Map_keys m).
Proof.
  unfold Map_has. induction m as [|[k' v'] m IH]; simpl; auto.
  rewrite (String.eqb_sym k k'). destruct (String.eqb k' k); auto.
Qed.

Lemma Map_keys_upsert_fold es m :
  Map_keys (fold_left ups es m) =
  Map_keys m ++ filter (fresh (Map_keys m)) (first_seen (map key es)).
Proof.
  revert m. induction es as [|e es IH]; intros m; simpl.
  - now rewrite app_nil_r.
  - rewrite IH, Map_keys_upsert, Map_has_existsb. unfold fresh at 2.
    destruct (existsb (String.eqb (key e)) (Map_keys m)) eqn:Hex; simpl.
    + f_equal. rewrite filter_twice. apply filter_ext. intros k. unfold fresh.
      destruct (String.eqb k (key e)) eqn:Hk; simpl; [|reflexivity].
      apply String.eqb_eq in Hk. subst k. now rewrite Hex.
    + rewrite <- app_assoc. simpl. do 2 f_equal.
      rewrite filter_twice. apply filter_ext. intros k. unfold fresh.
      rewrite existsb_app. simpl. rewrite orb_false_r, negb_orb. apply andb_comm.
Qed.

Lemma Map_keys_upsert_all es :
  Map_keys (fold_left ups es []) = first_seen (map key es).
Proof.
  rewrite Map_keys_upsert_fold. simpl.
  induction (first_seen (map key es)) as [|k l IH]; simpl; auto. now f_equal.
Qed.
End MergeReduceFacts.

Lemma first_seen_In k l : In k (first_seen l) <-> In k l.
Proof.
  induction l as [|a l IH]; simpl; [tauto|].
  rewrite filter_In, IH. destruct (String.eqb k a) eqn:Hk.
  - apply String.eqb_eq in Hk. subst. simpl. intuition.
  - apply String.eqb_neq in Hk. simpl. intuition congruence.
Qed.

Lemma first_seen_NoDup l : NoDup (first_seen l).
Proof.
  induction l as [|a l IH]; simpl; constructor.
  - rewrite filter_In. intros [_ H]. now rewrite String.eqb_refl in H.
  - now apply NoDup_filter.
Qed.

(** ** Sorting *)

Section SortFacts.
Context {A : Type}.
Variable cmp : A -> A -> Z.

Lemma sort_insert_perm x l : Permutation (sort_insert cmp x l) (x :: l).
Proof.
  induction l as [|y l IH]; simpl; auto.
  destruct (cmp x y <=? 0)%Z; auto.
  rewrite IH. apply perm_swap.
Qed.

Lemma Array_sort_perm l : Permutation (Array_sort cmp l) l.
Proof.
  induction l as [|x l IH]; simpl; auto.
  rewrite sort_insert_perm. now constructor.
Qed.

Lemma Array_sort_In x l : In x (Array_sort cmp l) <-> In x l.
Proof.
  split; apply Permutation_in; [|symmetry]; apply Array_sort_perm.
Qed.

Lemma sort_insert_sorted x l :
  (forall y, In y l -> (0 < cmp x y)%Z -> cmp_le cmp y x) ->
  (forall y z, In y l -> In z l -> cmp_le cmp x y -> cmp_le cmp y z -> cmp_le cmp x z) ->
  StronglySorted (cmp_le cmp) l -> StronglySorted (cmp_le cmp) (sort_insert cmp x l).
Proof.
  intros Hanti Htrans Hs. induction Hs as [|y l Hs IH Hall]; simpl.
  - repeat constructor.
  - destruct (cmp x y <=? 0)%Z eqn:Hxy.
    + apply Z.leb_le in Hxy. constructor; [now constructor|].
      constructor; [exact Hxy|].
      rewrite Forall_forall in *. intros z Hz.
      apply (Htrans y z); simpl; auto.
    + apply Z.leb_gt in Hxy. constructor.
      * apply IH.
        -- intros y0 Hy0. apply Hanti. now right.
        -- intros y0 z Hy0 Hz. apply Htrans; now right.
      * rewrite Forall_forall in *. intros z Hz.
        apply (Permutation_in _ (sort_insert_perm x l)) in Hz.
        destruct Hz as [<-|Hz]; [apply Hanti; simpl; auto|auto].
Qed.

Lemma Array_sort_sorted l :
  (forall a b, In a l -> In b l -> (0 < cmp a b)%Z -> cmp_le cmp b a) ->
  (forall a b c, In a l -> In b l -> In c l -> cmp_le cmp a b -> cmp_le cmp b c -> cmp_le cmp a c) ->
  StronglySorted (cmp_le cmp) (Array_sort cmp l).
Proof.
  induction l as [|x l IH]; intros Hanti Htrans; simpl; [constructor|].
  apply sort_insert_sorted.
  - intros y Hy. apply (proj1 (Array_sort_In _ _)) in Hy. apply Hanti; simpl; auto.
  - intros y z Hy Hz. apply (proj1 (Array_sort_In _ _)) in Hy.
    apply (proj1 (Array_sort_In _ _)) in Hz. apply Htrans; simpl; auto.
  - apply IH.
    + intros a b Ha Hb. apply Hanti; now right.
    + intros a b c Ha Hb Hc. apply Htrans; now right.
Qed.
End SortFacts.

Unset Implicit Arguments.
Local Open Scope string_scope.
Local Open Scope float_scope.

(** ** What a merge-reduce leaves in its map *)

Section BucketFacts.
Context {E V : Type}.
Variable key : E -> string.
Variable init : E -> V.
Variable merge : V -> E -> V.

Lemma upsert_fold_NoDup es :
  NoDup (Map_keys (fold_left (upsert key init merge) es [])).
Proof. rewrite Map_keys_upsert_all. apply first_seen_NoDup. Qed.

Lemma upsert_fold_bucket es k v :
  In (k, v) (fold_left (upsert key init merge) es []) ->
  exists first rest,
    filter (has_key key k) es = first :: rest /\ v = fold_left merge rest (init first).
Proof.
  intros Hin. apply In_Map_get in Hin; [|apply upsert_fold_NoDup].
  rewrite Map_get_upsert_fold in Hin. unfold bucket_from in Hin. simpl in Hin.
  destruct (filter (has_key key k) es) as [|e l]; [discriminate|].
  inversion Hin. eauto.
Qed.

Lemma filter_has_key_head k es first rest :
  filter (has_key key k) es = first :: rest -> key first = k.
Proof.
  intros Hf. assert (Hin : In first (filter (has_key key k) es)) by (rewrite Hf; now left).
  apply filter_In in Hin. destruct Hin as [_ Hk]. now apply String.eqb_eq in Hk.
Qed.

(** The key a bucket is stored under can be read off the bucket. *)
Lemma upsert_fold_key (key_of_bucket : V -> string) es k v :
  (forall e, key_of_bucket (init e) = key e) ->
  (forall b e, key_of_bucket (merge b e) = key_of_bucket b) ->
  In (k, v) (fold_left (upsert key init merge) es []) ->
  key_of_bucket v = k.
Proof.
  intros Hinit Hmerge Hin.
  apply upsert_fold_bucket in Hin. destruct Hin as (first & rest & Hf & ->).
  apply filter_has_key_head in Hf. rewrite <- Hf, <- Hinit.
  generalize (init first). induction rest as [|e l IH]; intros b; simpl; auto.
  now rewrite IH, Hmerge.
Qed.

Lemma upsert_fold_values_keys (key_of_bucket : V -> string) es :
  (forall e, key_of_bucket (init e) = key e) ->
  (forall b e, key_of_bucket (merge b e) = key_of_bucket b) ->
  map key_of_bucket (Map_values (fold_left (upsert key init merge) es []))
  = first_seen (map key es).
Proof.
  intros Hinit Hmerge. rewrite <- (Map_keys_upsert_all key init merge).
  unfold Map_values, Map_keys. rewrite map_map. apply map_ext_in.
  intros [k v] Hin. simpl. eapply upsert_fold_key; eauto.
Qed.
End BucketFacts.

Lemma In_Map_values {V : Type} (v : V) (m : Map V) :
  In v (Map_values m) -> exists k, In (k, v) m.
Proof.
  unfold Map_values. rewrite in_map_iff. intros [[k v'] [Heq Hin]].
  simpl in Heq. subst. eauto.
Qed.

Lemma fold_left_project {E V : Type} (merge : V -> E -> V)
    (proj : V -> number) (val : E -> number) :
  (forall v e, proj (merge v e) = (proj v + val e)%float) ->
  forall l v, proj (fold_left merge l v) = sum_from (proj v) (map val l).
Proof.
  intros Hstep. induction l as [|e l IH]; intros v; simpl; auto.
  unfold sum_from in *. simpl. now rewrite IH, Hstep.
Qed.

Lemma fold_left_visit_pair_snd {E S : Type} (visit : Campaign.t -> S -> E -> S)
    (step : S -> E -> S) :
  (forall c s e, visit c s e = step s e) ->
  forall ces s, fold_left (visit_pair visit) ces s = fold_left step (map snd ces) s.
Proof.
  intros Hv. induction ces as [|[c e] ces IH]; intros s; simpl; auto.
  unfold visit_pair at 2. simpl. now rewrite Hv, IH.
Qed.

Lemma fold_left_ext {A B : Type} (f g : A -> B -> A) :
  (forall a b, f a b = g a b) -> forall l a, fold_left f l a = fold_left g l a.
Proof.
  intros Hfg. induction l as [|b l IH]; intros a; simpl; auto. now rewrite Hfg, IH.
Qed.

Lemma StronglySorted_impl {A : Type} (R R' : A -> A -> Prop) (l : list A) :
  (forall a b, In a l -> In b l -> R a b -> R' a b) ->
  StronglySorted R l -> StronglySorted R' l.
Proof.
  intros Himp Hs. induction Hs as [|a l Hs IH Hall]; constructor.
  - apply IH. intros x y Hx Hy. apply Himp; now right.
  - rewrite Forall_forall in *. intros b Hb. apply Himp; simpl; auto.
Qed.

(** ** The weekly reducer *)

Lemma weekly_visit_upsert c m w : WeeklyView.visit c m w = weekly_upsert m w.
Proof.
  unfold WeeklyView.visit, weekly_upsert, upsert. rewrite Map_has_get.
  now destruct (Map_get (WeeklyPerformance.week_start w) m).
Qed.

Lemma weekly_output D campaigns out :
  WeeklyView.getAggregatedWeeklyData D (document campaigns) = Normal out ->
  all_present Campaign.weekly_performance campaigns /\
  out = Array_sort (WeeklyView.by_week_start D)
          (Map_values (fold_left weekly_upsert (weeks_of campaigns) [])).
Proof.
  unfold WeeklyView.getAggregatedWeeklyData. simpl.
  destruct (forEach_breakdown Campaign.weekly_performance WeeklyView.visit campaigns [])
    as [m|] eqn:Hf; simpl; [|discriminate].
  intros H. inversion H. subst out.
  apply forEach_breakdown_Normal in Hf. destruct Hf as [Hall ->]. split; auto.
  now rewrite (fold_left_visit_pair_snd _ _ weekly_visit_upsert).
Qed.

Lemma weekly_bucket D campaigns out b :
  WeeklyView.getAggregatedWeeklyData D (document campaigns) = Normal out ->
  In b out ->
  exists first rest,
    filter (has_key WeeklyPerformance.week_start (WeeklyPerformance.week_start b))
           (weeks_of campaigns) = first :: rest /\
    b = fold_left WeeklyView.merged rest first.
Proof.
  intros Hout Hb. apply weekly_output in Hout. destruct Hout as [_ ->].
  apply (proj1 (Array_sort_In _ _ _)) in Hb.
  apply In_Map_values in Hb. destruct Hb as [k Hin].
  assert (Hk : WeeklyPerformance.week_start b = k).
  { apply (upsert_fold_key WeeklyPerformance.week_start (fun w => w) WeeklyView.merged
             WeeklyPerformance.week_start (weeks_of campaigns));
      [reflexivity | reflexivity | exact Hin]. }
  apply upsert_fold_bucket in Hin. rewrite Hk. exact Hin.
Qed.

(** ** The regional reducer *)

Lemma regional_visit_upsert c m r : RegionView.visit c m r = regional_upsert m r.
Proof.
  unfold RegionView.visit, regional_upsert, upsert. rewrite Map_has_get.
  now destruct (Map_get (RegionView.key_of r) m).
Qed.

Lemma regional_output campaigns out :
  RegionView.getAggregatedRegionalData (document campaigns) = Normal out ->
  all_present Campaign.regional_performance campaigns /\
  out = Map_values (fold_left regional_upsert (regions_of campaigns) []).
Proof.
  unfold RegionView.getAggregatedRegionalData. simpl.
  destruct (forEach_breakdown Campaign.regional_performance RegionView.visit campaigns [])
    as [m|] eqn:Hf; simpl; [|discriminate].
  intros H. inversion H. subst out.
  apply forEach_breakdown_Normal in Hf. destruct Hf as [Hall ->]. split; auto.
  now rewrite (fold_left_visit_pair_snd _ _ regional_visit_upsert).
Qed.

Lemma regional_bucket campaigns out b :
  RegionView.getAggregatedRegionalData (document campaigns) = Normal out ->
  In b out ->
  exists first rest,
    filter (has_key RegionView.key_of (RegionView.key_of b)) (regions_of campaigns)
    = first :: rest /\
    b = fold_left RegionView.merged rest first.
Proof.
  intros Hout Hb. apply regional_output in Hout. destruct Hout as [_ ->].
  apply In_Map_values in Hb. destruct Hb as [k Hin].
  assert (Hk : RegionView.key_of b = k).
  { apply (upsert_fold_key RegionView.key_of (fun r => r) RegionView.merged
             RegionView.key_of (regions_of campaigns));
      [reflexivity | reflexivity | exact Hin]. }
  apply upsert_fold_bucket in Hin. rewrite Hk. exact Hin.
Qed.

(** ** The demographic performance tables *)

Lemma gender_visit_upsert m c demo :
  DemographicView.gender_visit m (DemographicView.performance_of c demo)
  = performance_upsert m (c, demo).
Proof. reflexivity. Qed.

Lemma performance_fold ces :
  forall maleMap femaleMap,
    fold_left (visit_pair DemographicView.performance_visit) ces (maleMap, femaleMap)
    = (fold_left performance_upsert (filter (is_gender "Male") ces) maleMap,
       fold_left performance_upsert (filter (is_gender "Female") ces) femaleMap).
Proof.
  induction ces as [|[c demo] ces IH]; intros maleMap femaleMap; simpl; auto.
  unfold visit_pair at 2. unfold DemographicView.performance_visit, is_gender. simpl.
  destruct (String.eqb (DemographicBreakdown.gender demo) "Male") eqn:Hm.
  - apply String.eqb_eq in Hm. rewrite Hm. simpl.
    rewrite IH. now rewrite <- Hm, gender_visit_upsert.
  - destruct (String.eqb (DemographicBreakdown.gender demo) "Female") eqn:Hf; simpl.
    + now rewrite IH, gender_visit_upsert.
    + apply IH.
Qed.

Lemma performance_output lc campaigns male female :
  DemographicView.processCampaignPerformance lc (document campaigns)
  = Normal (male, female) ->
  all_present Campaign.demographic_breakdown campaigns /\
  male = Array_sort (DemographicView.by_performance_ageGroup lc)
           (Map_values (fold_left performance_upsert
                          (filter (is_gender "Male") (demographics_of campaigns)) [])) /\
  female = Array_sort (DemographicView.by_performance_ageGroup lc)
             (Map_values (fold_left performance_upsert
                            (filter (is_gender "Female") (demographics_of campaigns)) [])).
Proof.
  unfold DemographicView.processCampaignPerformance. simpl.
  destruct (forEach_breakdown Campaign.demographic_breakdown
              DemographicView.performance_visit campaigns ([], []))
    as [maps|] eqn:Hf; simpl; [|discriminate].
  intros H. inversion H. subst male female.
  apply forEach_breakdown_Normal in Hf. destruct Hf as [Hall ->].
  rewrite performance_fold. simpl. auto.
Qed.

Lemma performance_row lc g ces row :
  In row (Array_sort (DemographicView.by_performance_ageGroup lc)
            (Map_values (fold_left performance_upsert (filter (is_gender g) ces) []))) ->
  exists first rest,
    filter (has_key age_of (CampaignPerformance.ageGroup row)) (filter (is_gender g) ces)
    = first :: rest /\
    row = fold_left
            (fun existing ce =>
               DemographicView.performance_add existing
                 (DemographicView.performance_of (fst ce) (snd ce)))
            rest (DemographicView.performance_of (fst first) (snd first)).
Proof.
  intros Hb. apply (proj1 (Array_sort_In _ _ _)) in Hb.
  apply In_Map_values in Hb. destruct Hb as [k Hin].
  assert (Hk : CampaignPerformance.ageGroup row = k).
  { revert Hin. apply (upsert_fold_key age_of _ _ CampaignPerformance.ageGroup);
      reflexivity. }
  apply upsert_fold_bucket in Hin. rewrite Hk. exact Hin.
Qed.

(** ** Spend and revenue by age group and by device *)

Section SharesFacts.
Context {E : Type}.
Variable key : E -> string.
Variables spend_share revenue_share : E -> number.

Lemma shares_bucket es k v :
  In (k, v) (fold_left (shares_upsert key spend_share revenue_share) es []) ->
  SpendRevenue.spend v = sum_from 0 (map spend_share (filter (has_key key k) es)) /\
  SpendRevenue.revenue v = sum_from 0 (map revenue_share (filter (has_key key k) es)).
Proof.
  intros Hin. apply upsert_fold_bucket in Hin. destruct Hin as (first & rest & -> & ->).
  change (fold_left (add_shares spend_share revenue_share) rest
            (add_shares spend_share revenue_share (SpendRevenue.mk 0 0) first))
    with (fold_left (add_shares spend_share revenue_share) (first :: rest)
            (SpendRevenue.mk 0 0)).
  split.
  - now rewrite (fold_left_project _ SpendRevenue.spend spend_share).
  - now rewrite (fold_left_project _ SpendRevenue.revenue revenue_share).
Qed.
End SharesFacts.

Lemma age_visit_upsert c m demo :
  DemographicView.age_visit c m demo = age_upsert m (c, demo).
Proof.
  unfold DemographicView.age_visit, age_upsert, shares_upsert, upsert, age_of. simpl.
  now destruct (Map_get (DemographicBreakdown.age_group demo) m).
Qed.

Lemma chart_visit_upsert c m device :
  DeviceView.chart_visit c m device = chart_upsert m (c, device).
Proof.
  unfold DeviceView.chart_visit, chart_upsert, shares_upsert, upsert, device_of. simpl.
  now destruct (Map_get (DeviceBreakdown.device_type device) m).
Qed.

Lemma fold_left_visit_pair_upsert {E S : Type} (visit : Campaign.t -> S -> E -> S)
    (step : S -> Campaign.t * E -> S) :
  (forall c s e, visit c s e = step s (c, e)) ->
  forall ces s, fold_left (visit_pair visit) ces s = fold_left step ces s.
Proof.
  intros Hv. induction ces as [|[c e] ces IH]; intros s; simpl; auto.
  unfold visit_pair at 2. simpl. now rewrite Hv, IH.
Qed.

Lemma age_output lc campaigns spend_rows revenue_rows :
  DemographicView.processAgeGroupData lc (document campaigns)
  = Normal (spend_rows, revenue_rows) ->
  all_present Campaign.demographic_breakdown campaigns /\
  let m := fold_left age_upsert (demographics_of campaigns) [] in
  spend_rows = Array_sort (DemographicView.by_ageGroup lc)
                 (map DemographicView.spend_row m) /\
  revenue_rows = Array_sort (DemographicView.by_ageGroup lc)
                   (map DemographicView.revenue_row m).
Proof.
  unfold DemographicView.processAgeGroupData. simpl.
  destruct (forEach_breakdown Campaign.demographic_breakdown
              DemographicView.age_visit campaigns [])
    as [m|] eqn:Hf; simpl; [|discriminate].
  intros H. inversion H. subst spend_rows revenue_rows.
  apply forEach_breakdown_Normal in Hf. destruct Hf as [Hall ->].
  rewrite (fold_left_visit_pair_upsert _ _ age_visit_upsert). auto.
Qed.

Lemma chart_output campaigns spend_points revenue_points :
  DeviceView.processDeviceChartData (document campaigns)
  = Normal (spend_points, revenue_points) ->
  all_present Campaign.device_breakdown campaigns /\
  let m := fold_left chart_upsert (devices_of campaigns) [] in
  spend_points = map DeviceView.spend_point m /\
  revenue_points = map DeviceView.revenue_point m.
Proof.
  unfold DeviceView.processDeviceChartData. simpl.
  destruct (forEach_breakdown Campaign.device_breakdown DeviceView.chart_visit campaigns [])
    as [m|] eqn:Hf; simpl; [|discriminate].
  intros H. inversion H. subst spend_points revenue_points.
  apply forEach_breakdown_Normal in Hf. destruct Hf as [Hall ->].
  rewrite (fold_left_visit_pair_upsert _ _ chart_visit_upsert). auto.
Qed.

(* ================================================================= *)
(** * The statements of the specification *)

(** ** The end-to-end demographic scenario *)

(** C4.  Two campaigns with totals clicks=100, impressions=1000,
    conversions=10, each with the single demographic entry 18-24 / Male / 50:
    the male table holds exactly one row, for the age group 18-24, with
    clicks=100, impressions=1000, conversions=10, ctr=10 and
    conversion rate=10 (and the female table is empty), whatever the
    campaigns' names, spend, revenue and other collections and whatever the
    collation. *)
Theorem two_half_male_campaigns :
  forall (localeCompare : string -> string -> Z)
         (name1 name2 : string) (spend1 revenue1 spend2 revenue2 : number)
         (weekly1 weekly2 : option (list WeeklyPerformance.t))
         (regional1 regional2 : option (list RegionalPerformance.t))
         (device1 device2 : option (list DeviceBreakdown.t)),
    DemographicView.processCampaignPerformance localeCompare
      (document
         [ Campaign.mk name1 1000 100 10 spend1 revenue1 weekly1 regional1
             (Some [DemographicBreakdown.mk "18-24" "Male" 50]) device1;
           Campaign.mk name2 1000 100 10 spend2 revenue2 weekly2 regional2
             (Some [DemographicBreakdown.mk "18-24" "Male" 50]) device2 ])
    = Normal
        ([ {| CampaignPerformance.ageGroup := "18-24";
              CampaignPerformance.gender := "Male";
              CampaignPerformance.impressions := 1000;
              CampaignPerformance.clicks := 100;
              CampaignPerformance.conversions := 10;
              CampaignPerformance.ctr := 10;
              CampaignPerformance.conversionRate := 10 |} ],
         []).
Proof. intros. vm_compute. reflexivity. Qed.

(** ** Zero denominators *)

(** C2, at the failing input.  A campaign with 100 clicks and no impressions:
    the demographic row has impressions = 0 and its ctr is Infinity, because
    the row's ctr is guarded by its clicks and not by its impressions. *)
Theorem demographic_ctr_of_zero_impressions :
  DemographicView.processCampaignPerformance Samples.codeUnitCompare
    (document [Samples.no_impressions])
  = Normal
      ([ {| CampaignPerformance.ageGroup := "18-24";
            CampaignPerformance.gender := "Male";
            CampaignPerformance.impressions := 0;
            CampaignPerformance.clicks := 50;
            CampaignPerformance.conversions := 5;
            CampaignPerformance.ctr := infinity;
            CampaignPerformance.conversionRate := 10 |} ],
       []).
Proof. vm_compute. reflexivity. Qed.

(** ** Ratios of a merged regional bucket *)

(** C3, at the failing input.  Two campaigns report Dubai, with 10 clicks on
    100 impressions and 10 clicks on 200 impressions: the merged bucket has
    20 clicks on 300 impressions and carries the second entry's ctr (5) and
    conversion rate (20), where the formulas on the sums give 6.67 and 15. *)
Theorem regional_ratios_copied_from_last_entry :
  RegionView.getAggregatedRegionalData
    (document [Samples.regional_campaign "A" [Samples.dubai_A];
                       Samples.regional_campaign "B" [Samples.dubai_B]])
  = Normal [ RegionalPerformance.mk "Dubai" "UAE" 300 20 3 130 440 5 20 8 40 3 ]
  /\ toFixed2 (20 / 300 * 100) = 6.67
  /\ toFixed2 (3 / 20 * 100) = 15.
Proof. vm_compute. repeat split; reflexivity. Qed.

(** ** Regions without coordinates *)

(** C7, at the failing input.  The region name "constructor" has no entry in
    the table, yet its record is kept: the lookup finds the inherited member
    of [Object.prototype], the point has neither latitude nor longitude, and
    nothing is logged. *)
Theorem inherited_region_not_excluded :
  Map_get "constructor" BubbleMap.own_CITY_COORDINATES = None
  /\
  BubbleMap.transformRegionalDataForBubbleMap [Samples.constructor_region] BubbleMap.revenue
  = ([ {| BubbleMapDataPoint.region := "constructor";
          BubbleMapDataPoint.country := "UAE";
          BubbleMapDataPoint.latitude := None;
          BubbleMapDataPoint.longitude := None;
          BubbleMapDataPoint.value := 240;
          BubbleMapDataPoint.additionalData :=
            [ ("revenue", 240); ("spend", 80); ("impressions", 200);
              ("clicks", 10); ("conversions", 2) ] |} ],
     []).
Proof. split; vm_compute; reflexivity. Qed.

(** ** Radius and colour of a bubble *)

(** C8.  For the [i]-th point of a non-empty data set, with [lo] and [hi] the
    minimum and maximum of the values of the set, the circle drawn has radius
    [minRadius + (maxRadius - minRadius) * ((value - lo) / (hi - lo))] when
    [hi] differs from [lo]; when [hi] equals [lo] it has the midpoint radius
    [(minRadius + maxRadius) / 2] and the colour #3B82F6. *)
Theorem bubble_radius_and_color :
  forall (minRadius maxRadius : number) (data : list BubbleMapDataPoint.t)
         (i : nat) (item : BubbleMapDataPoint.t),
    nth_error data i = Some item ->
    let lo := Math_min (BubbleMap.values_of data) in
    let hi := Math_max (BubbleMap.values_of data) in
    let v := BubbleMapDataPoint.value item in
    exists radius fill,
      nth_error (BubbleMap.markers minRadius maxRadius data) i = Some (radius, fill) /\
      ((hi =? lo) = false ->
       radius = minRadius + (maxRadius - minRadius) * ((v - lo) / (hi - lo))) /\
      ((hi =? lo) = true ->
       radius = (minRadius + maxRadius) / 2 /\ fill = BubbleMap.Hex "#3B82F6").
Proof.
  intros minRadius maxRadius data i item Hnth lo hi v.
  exists (BubbleMap.getRadius minRadius maxRadius v lo hi),
         (BubbleMap.getColor v lo hi).
  split; [|split].
  - destruct data as [|d data]; [destruct i; discriminate|].
    unfold BubbleMap.markers.
    change (nth_error
              (map (fun item0 =>
                      (BubbleMap.getRadius minRadius maxRadius
                         (BubbleMapDataPoint.value item0) lo hi,
                       BubbleMap.getColor (BubbleMapDataPoint.value item0) lo hi))
                   (d :: data)) i
            = Some (BubbleMap.getRadius minRadius maxRadius v lo hi,
                    BubbleMap.getColor v lo hi)).
    now rewrite nth_error_map, Hnth.
  - intros Hne. unfold BubbleMap.getRadius. now rewrite Hne.
  - intros Heq. unfold BubbleMap.getRadius, BubbleMap.getColor. now rewrite Heq.
Qed.

Lemma bubble_radius_and_color_witness :
  Math_min (BubbleMap.values_of Samples.two_bubbles) = 10 /\
  Math_max (BubbleMap.values_of Samples.two_bubbles) = 30 /\
  exists radius fill,
    nth_error (BubbleMap.markers 8 50 Samples.two_bubbles) 1 = Some (radius, fill) /\
    ((30 =? 10) = false -> radius = 8 + (50 - 8) * ((30 - 10) / (30 - 10))) /\
    ((30 =? 10) = true -> radius = (8 + 50) / 2 /\ fill = BubbleMap.Hex "#3B82F6").
Proof.
  split; [reflexivity|]. split; [reflexivity|].
  exact (bubble_radius_and_color 8 50 Samples.two_bubbles 1
           (Samples.bubble "Sharjah" 25.3573 55.4033 30) eq_refl).
Defined.

(** ** The synthesized device breakdown *)

Lemma fill_device_breakdown_synthesized random campaigns :
  forall i, Forall2 (synthesized_from random) campaigns
              (DeviceView.fill_device_breakdown random i campaigns).
Proof.
  induction campaigns as [|c cs IH]; intros i; simpl; [constructor|].
  destruct (Campaign.device_breakdown c) as [l|] eqn:Hd; constructor; auto.
  - unfold synthesized_from. now rewrite Hd.
  - unfold synthesized_from. rewrite Hd. exists i. reflexivity.
Qed.

(** C9, as the claim states it: with the draws 0.25, 0.5 and 0.5 the synthetic
    percentages are 37.5, 25 and 7, their sum is 69.5, and the three
    renormalized percentages add up to 99.999999999999986, not to 100. *)
Lemma synthesized_percentages_not_exactly_100 :
  DeviceView.fetchData Samples.draws (MarketingData.mk (Some [Samples.legacy_campaign]))
  = Normal (MarketingData.mk (Some
      [ DeviceView.with_device_breakdown Samples.legacy_campaign
          [ DeviceBreakdown.mk "Mobile" 53.956834532374096;
            DeviceBreakdown.mk "Desktop" 35.97122302158273;
            DeviceBreakdown.mk "Tablet" 10.071942446043165 ] ]))
  /\ sum_from 0 [53.956834532374096; 35.97122302158273; 10.071942446043165]
     = 99.999999999999986
  /\ sum_from 0 [53.956834532374096; 35.97122302158273; 10.071942446043165] <> 100.
Proof.
  split; [vm_compute; reflexivity|]. split; [vm_compute; reflexivity|].
  intros H.
  assert (Hb : (sum_from 0 [53.956834532374096; 35.97122302158273; 10.071942446043165]
                =? 100) = true) by (rewrite H; reflexivity).
  vm_compute in Hb. discriminate Hb.
Qed.

(** C9, amended.  The fetch of the device view keeps every campaign that has
    a device breakdown and gives every campaign without one the three entries
    Mobile, Desktop and Tablet, each synthetic percentage divided by the sum
    of the three and multiplied by 100. *)
Theorem synthesized_device_breakdown :
  forall (random : nat -> number) (result : MarketingData.t)
         (campaigns : list Campaign.t),
    MarketingData.campaigns result = Some campaigns ->
    exists fetched,
      DeviceView.fetchData random result = Normal (MarketingData.mk (Some fetched)) /\
      Forall2 (synthesized_from random) campaigns fetched.
Proof.
  intros random result campaigns Hc.
  exists (DeviceView.fill_device_breakdown random 0 campaigns). split.
  - unfold DeviceView.fetchData. now rewrite Hc.
  - apply fill_device_breakdown_synthesized.
Qed.

Lemma synthesized_device_breakdown_witness :
  exists fetched,
    DeviceView.fetchData Samples.draws (MarketingData.mk (Some [Samples.legacy_campaign]))
    = Normal (MarketingData.mk (Some fetched)) /\
    Forall2 (synthesized_from Samples.draws) [Samples.legacy_campaign] fetched.
Proof.
  exact (synthesized_device_breakdown Samples.draws
           (MarketingData.mk (Some [Samples.legacy_campaign]))
           [Samples.legacy_campaign] eq_refl).
Defined.

(** ** Where the additive metrics of a bucket come from *)

(** C1, as the claim states it.  Two campaigns report the week of 2024-01-01
    with 7 and 5 impressions of the entries' own: the weekly bucket holds
    12 impressions (and 5 clicks, 2 conversions, spend 4, revenue 7), the
    sums of the entries' own values, and it holds the same when every
    campaign total is doubled. *)
Lemma weekly_bucket_sums_entries_own_values :
  WeeklyView.getAggregatedWeeklyData Samples.sample_getTime
    (document [ Samples.weekly_campaign "A" 1000 100 10 500 900 [Samples.week_A];
                Samples.weekly_campaign "B" 1000 100 10 500 900 [Samples.week_B] ])
  = Normal [ WeeklyPerformance.mk "2024-01-01" 12 5 2 4 7 ]
  /\
  WeeklyView.getAggregatedWeeklyData Samples.sample_getTime
    (document [ Samples.weekly_campaign "A" 2000 200 20 1000 1800 [Samples.week_A];
                Samples.weekly_campaign "B" 2000 200 20 1000 1800 [Samples.week_B] ])
  = Normal [ WeeklyPerformance.mk "2024-01-01" 12 5 2 4 7 ].
Proof. split; vm_compute; reflexivity. Qed.

Lemma weekly_bucket_metrics D campaigns out b :
  WeeklyView.getAggregatedWeeklyData D (document campaigns) = Normal out ->
  In b out ->
  exists first rest,
    filter (has_key WeeklyPerformance.week_start (WeeklyPerformance.week_start b))
           (weeks_of campaigns) = first :: rest /\
    WeeklyPerformance.impressions b
    = sum_from (WeeklyPerformance.impressions first)
               (map WeeklyPerformance.impressions rest) /\
    WeeklyPerformance.clicks b
    = sum_from (WeeklyPerformance.clicks first) (map WeeklyPerformance.clicks rest) /\
    WeeklyPerformance.conversions b
    = sum_from (WeeklyPerformance.conversions first)
               (map WeeklyPerformance.conversions rest) /\
    WeeklyPerformance.spend b
    = sum_from (WeeklyPerformance.spend first) (map WeeklyPerformance.spend rest) /\
    WeeklyPerformance.revenue b
    = sum_from (WeeklyPerformance.revenue first) (map WeeklyPerformance.revenue rest).
Proof.
  intros Hout Hb. destruct (weekly_bucket D campaigns out b Hout Hb)
    as (first & rest & Hf & ->).
  exists first, rest. split; [exact Hf|].
  repeat split; apply fold_left_project; reflexivity.
Qed.

Lemma regional_bucket_metrics campaigns out b :
  RegionView.getAggregatedRegionalData (document campaigns) = Normal out ->
  In b out ->
  exists first rest,
    filter (has_key RegionView.key_of (RegionView.key_of b)) (regions_of campaigns)
    = first :: rest /\
    RegionalPerformance.impressions b
    = sum_from (RegionalPerformance.impressions first)
               (map RegionalPerformance.impressions rest) /\
    RegionalPerformance.clicks b
    = sum_from (RegionalPerformance.clicks first) (map RegionalPerformance.clicks rest) /\
    RegionalPerformance.conversions b
    = sum_from (RegionalPerformance.conversions first)
               (map RegionalPerformance.conversions rest) /\
    RegionalPerformance.spend b
    = sum_from (RegionalPerformance.spend first) (map RegionalPerformance.spend rest) /\
    RegionalPerformance.revenue b
    = sum_from (RegionalPerformance.revenue first) (map RegionalPerformance.revenue rest).
Proof.
  intros Hout Hb. destruct (regional_bucket campaigns out b Hout Hb)
    as (first & rest & Hf & ->).
  exists first, rest. split; [exact Hf|].
  repeat split; apply fold_left_project; reflexivity.
Qed.

Lemma performance_row_metrics lc g ces row :
  In row (Array_sort (DemographicView.by_performance_ageGroup lc)
            (Map_values (fold_left performance_upsert (filter (is_gender g) ces) []))) ->
  exists first rest,
    filter (has_key age_of (CampaignPerformance.ageGroup row)) (filter (is_gender g) ces)
    = first :: rest /\
    CampaignPerformance.impressions row
    = sum_from (rounded_demographic_share Campaign.impressions first)
               (map (rounded_demographic_share Campaign.impressions) rest) /\
    CampaignPerformance.clicks row
    = sum_from (rounded_demographic_share Campaign.clicks first)
               (map (rounded_demographic_share Campaign.clicks) rest) /\
    CampaignPerformance.conversions row
    = sum_from (rounded_demographic_share Campaign.conversions first)
               (map (rounded_demographic_share Campaign.conversions) rest).
Proof.
  intros Hb. destruct (performance_row lc g ces row Hb) as (first & rest & Hf & ->).
  exists first, rest. split; [exact Hf|].
  repeat split.
  - apply (fold_left_project _ CampaignPerformance.impressions
             (rounded_demographic_share Campaign.impressions)). reflexivity.
  - apply (fold_left_project _ CampaignPerformance.clicks
             (rounded_demographic_share Campaign.clicks)). reflexivity.
  - apply (fold_left_project _ CampaignPerformance.conversions
             (rounded_demographic_share Campaign.conversions)). reflexivity.
Qed.

Lemma age_rows_metrics lc campaigns spend_rows revenue_rows :
  DemographicView.processAgeGroupData lc (document campaigns)
  = Normal (spend_rows, revenue_rows) ->
  (forall row, In row spend_rows ->
     AgeGroupData.spend row
     = sum_from 0 (map (demographic_share Campaign.spend)
                       (filter (has_key age_of (AgeGroupData.ageGroup row))
                               (demographics_of campaigns)))) /\
  (forall row, In row revenue_rows ->
     AgeGroupData.revenue row
     = sum_from 0 (map (demographic_share Campaign.revenue)
                       (filter (has_key age_of (AgeGroupData.ageGroup row))
                               (demographics_of campaigns)))).
Proof.
  intros Hout. apply age_output in Hout. destruct Hout as (_ & -> & ->).
  split; intros row Hrow; apply (proj1 (Array_sort_In _ _ _)) in Hrow;
    apply in_map_iff in Hrow; destruct Hrow as ([k v] & <- & Hin);
    apply shares_bucket in Hin; simpl; tauto.
Qed.

Lemma chart_points_metrics campaigns spend_points revenue_points :
  DeviceView.processDeviceChartData (document campaigns)
  = Normal (spend_points, revenue_points) ->
  (forall p, In p spend_points ->
     ChartPoint.value p
     = sum_from 0 (map (device_share Campaign.spend)
                       (filter (has_key device_of (ChartPoint.label p))
                               (devices_of campaigns)))) /\
  (forall p, In p revenue_points ->
     ChartPoint.value p
     = sum_from 0 (map (device_share Campaign.revenue)
                       (filter (has_key device_of (ChartPoint.label p))
                               (devices_of campaigns)))).
Proof.
  intros Hout. apply chart_output in Hout. destruct Hout as (_ & -> & ->).
  split; intros p Hp; apply in_map_iff in Hp; destruct Hp as ([k v] & <- & Hin);
    apply shares_bucket in Hin; simpl; tauto.
Qed.

Lemma fold_left_invariant {A B : Type} (P : A -> Prop) (f : A -> B -> A) (l : list B) :
  (forall a b, In b l -> P a -> P (f a b)) ->
  forall a, P a -> P (fold_left f l a).
Proof.
  induction l as [|b l IH]; intros Hstep a Ha; simpl; auto.
  apply IH.
  - intros a' b' Hb'. apply Hstep. now right.
  - apply Hstep; [now left|assumption].
Qed.

Lemma device_tables_rows campaigns tables :
  DeviceView.processCampaignPerformanceByDevice (document campaigns) = Normal tables ->
  forall row,
    In row (DeviceView.Tables.mobile tables ++ DeviceView.Tables.desktop tables
            ++ DeviceView.Tables.tablet tables)%list ->
    exists ce,
      In ce (devices_of campaigns) /\
      row = DeviceView.performance_of (fst ce) (snd ce).
Proof.
  unfold DeviceView.processCampaignPerformanceByDevice. simpl. intros Hf.
  apply forEach_breakdown_Normal in Hf. destruct Hf as [_ ->].
  apply (fold_left_invariant
           (fun t => forall row,
              In row (DeviceView.Tables.mobile t ++ DeviceView.Tables.desktop t
                      ++ DeviceView.Tables.tablet t)%list ->
              exists ce, In ce (devices_of campaigns) /\
                         row = DeviceView.performance_of (fst ce) (snd ce))).
  - intros t [c d] Hin IH row. unfold visit_pair, DeviceView.performance_visit. simpl.
    assert (Hnew : forall r, r = DeviceView.performance_of c d ->
                   exists ce, In ce (devices_of campaigns) /\
                              r = DeviceView.performance_of (fst ce) (snd ce)).
    { intros r ->. now exists (c, d). }
    destruct (String.eqb (DeviceBreakdown.device_type d) "Mobile");
      [|destruct (String.eqb (DeviceBreakdown.device_type d) "Desktop");
        [|destruct (String.eqb (DeviceBreakdown.device_type d) "Tablet")]];
      simpl; intros Hrow; auto;
      repeat (rewrite !in_app_iff in Hrow; simpl in Hrow);
      specialize (IH row); rewrite !in_app_iff in IH;
      intuition auto.
  - simpl. intros row [].
Qed.

(** C1, amended.  The demographic and device reducers apportion the campaign
    totals by the entry's percentage of audience: a row of the male or female
    table holds, for impressions, clicks and conversions, the sum over the
    entries of its age group and gender of the rounded share of the
    campaign's total; a row of the age-group chart and a point of the device
    chart hold, for spend and revenue, the sum of the shares of the entries of
    their age group or device type; a row of the device tables holds the
    rounded shares of its one entry.  The weekly and regional reducers do not
    apportion: a bucket holds, for each of the five metrics, the sum of the
    own values of the entries of its key.  All sums run in document order. *)
Theorem additive_metrics_of_buckets :
  forall (Date_getTime : string -> option Z) (localeCompare : string -> string -> Z)
         (campaigns : list Campaign.t),
    (forall out b,
       WeeklyView.getAggregatedWeeklyData Date_getTime (document campaigns) = Normal out ->
       In b out ->
       exists first rest,
         filter (has_key WeeklyPerformance.week_start (WeeklyPerformance.week_start b))
                (weeks_of campaigns) = first :: rest /\
         WeeklyPerformance.impressions b
         = sum_from (WeeklyPerformance.impressions first)
                    (map WeeklyPerformance.impressions rest) /\
         WeeklyPerformance.clicks b
         = sum_from (WeeklyPerformance.clicks first) (map WeeklyPerformance.clicks rest) /\
         WeeklyPerformance.conversions b
         = sum_from (WeeklyPerformance.conversions first)
                    (map WeeklyPerformance.conversions rest) /\
         WeeklyPerformance.spend b
         = sum_from (WeeklyPerformance.spend first) (map WeeklyPerformance.spend rest) /\
         WeeklyPerformance.revenue b
         = sum_from (WeeklyPerformance.revenue first)
                    (map WeeklyPerformance.revenue rest)) /\
    (forall out b,
       RegionView.getAggregatedRegionalData (document campaigns) = Normal out ->
       In b out ->
       exists first rest,
         filter (has_key RegionView.key_of (RegionView.key_of b)) (regions_of campaigns)
         = first :: rest /\
         RegionalPerformance.impressions b
         = sum_from (RegionalPerformance.impressions first)
                    (map RegionalPerformance.impressions rest) /\
         RegionalPerformance.clicks b
         = sum_from (RegionalPerformance.clicks first)
                    (map RegionalPerformance.clicks rest) /\
         RegionalPerformance.conversions b
         = sum_from (RegionalPerformance.conversions first)
                    (map RegionalPerformance.conversions rest) /\
         RegionalPerformance.spend b
         = sum_from (RegionalPerformance.spend first) (map RegionalPerformance.spend rest) /\
         RegionalPerformance.revenue b
         = sum_from (RegionalPerformance.revenue first)
                    (map RegionalPerformance.revenue rest)) /\
    (forall male female g rows row,
       DemographicView.processCampaignPerformance localeCompare (document campaigns)
       = Normal (male, female) ->
       (g, rows) = ("Male", male) \/ (g, rows) = ("Female", female) ->
       In row rows ->
       exists first rest,
         filter (has_key age_of (CampaignPerformance.ageGroup row))
                (filter (is_gender g) (demographics_of campaigns)) = first :: rest /\
         CampaignPerformance.impressions row
         = sum_from (rounded_demographic_share Campaign.impressions first)
                    (map (rounded_demographic_share Campaign.impressions) rest) /\
         CampaignPerformance.clicks row
         = sum_from (rounded_demographic_share Campaign.clicks first)
                    (map (rounded_demographic_share Campaign.clicks) rest) /\
         CampaignPerformance.conversions row
         = sum_from (rounded_demographic_share Campaign.conversions first)
                    (map (rounded_demographic_share Campaign.conversions) rest)) /\
    (forall spend_rows revenue_rows,
       DemographicView.processAgeGroupData localeCompare (document campaigns)
       = Normal (spend_rows, revenue_rows) ->
       (forall row, In row spend_rows ->
          AgeGroupData.spend row
          = sum_from 0 (map (demographic_share Campaign.spend)
                            (filter (has_key age_of (AgeGroupData.ageGroup row))
                                    (demographics_of campaigns)))) /\
       (forall row, In row revenue_rows ->
          AgeGroupData.revenue row
          = sum_from 0 (map (demographic_share Campaign.revenue)
                            (filter (has_key age_of (AgeGroupData.ageGroup row))
                                    (demographics_of campaigns))))) /\
    (forall spend_points revenue_points,
       DeviceView.processDeviceChartData (document campaigns)
       = Normal (spend_points, revenue_points) ->
       (forall p, In p spend_points ->
          ChartPoint.value p
          = sum_from 0 (map (device_share Campaign.spend)
                            (filter (has_key device_of (ChartPoint.label p))
                                    (devices_of campaigns)))) /\
       (forall p, In p revenue_points ->
          ChartPoint.value p
          = sum_from 0 (map (device_share Campaign.revenue)
                            (filter (has_key device_of (ChartPoint.label p))
                                    (devices_of campaigns))))) /\
    (forall tables row,
       DeviceView.processCampaignPerformanceByDevice (document campaigns) = Normal tables ->
       In row (DeviceView.Tables.mobile tables ++ DeviceView.Tables.desktop tables
               ++ DeviceView.Tables.tablet tables)%list ->
       exists ce,
         In ce (devices_of campaigns) /\
         CampaignPerformanceByDevice.deviceType row = device_of ce /\
         CampaignPerformanceByDevice.impressions row
         = rounded_device_share Campaign.impressions ce /\
         CampaignPerformanceByDevice.clicks row
         = rounded_device_share Campaign.clicks ce /\
         CampaignPerformanceByDevice.conversions row
         = rounded_device_share Campaign.conversions ce).
Proof.
  intros D lc campaigns. repeat apply conj.
  - intros out b. apply weekly_bucket_metrics.
  - intros out b. apply regional_bucket_metrics.
  - intros male female g rows row Hout Hg Hrow.
    apply performance_output in Hout. destruct Hout as (_ & Hm & Hf).
    destruct Hg as [Hg|Hg]; inversion Hg; subst g rows;
      [rewrite Hm in Hrow|rewrite Hf in Hrow];
      now apply performance_row_metrics in Hrow.
  - intros spend_rows revenue_rows. apply age_rows_metrics.
  - intros spend_points revenue_points. apply chart_points_metrics.
  - intros tables row Hout Hrow.
    destruct (device_tables_rows campaigns tables Hout row Hrow) as (ce & Hin & ->).
    exists ce. repeat split. exact Hin.
Qed.

Lemma additive_metrics_of_buckets_witness :
  (exists first rest,
     filter (has_key WeeklyPerformance.week_start
               (WeeklyPerformance.week_start Samples.merged_week))
            (weeks_of Samples.weekly_pair) = first :: rest /\
     WeeklyPerformance.impressions Samples.merged_week
     = sum_from (WeeklyPerformance.impressions first)
                (map WeeklyPerformance.impressions rest) /\
     WeeklyPerformance.clicks Samples.merged_week
     = sum_from (WeeklyPerformance.clicks first) (map WeeklyPerformance.clicks rest) /\
     WeeklyPerformance.conversions Samples.merged_week
     = sum_from (WeeklyPerformance.conversions first)
                (map WeeklyPerformance.conversions rest) /\
     WeeklyPerformance.spend Samples.merged_week
     = sum_from (WeeklyPerformance.spend first) (map WeeklyPerformance.spend rest) /\
     WeeklyPerformance.revenue Samples.merged_week
     = sum_from (WeeklyPerformance.revenue first)
                (map WeeklyPerformance.revenue rest))
  /\
  (exists first rest,
     filter (has_key age_of (CampaignPerformance.ageGroup Samples.merged_young_men))
            (filter (is_gender "Male") (demographics_of Samples.two_half_male))
     = first :: rest /\
     CampaignPerformance.impressions Samples.merged_young_men
     = sum_from (rounded_demographic_share Campaign.impressions first)
                (map (rounded_demographic_share Campaign.impressions) rest) /\
     CampaignPerformance.clicks Samples.merged_young_men
     = sum_from (rounded_demographic_share Campaign.clicks first)
                (map (rounded_demographic_share Campaign.clicks) rest) /\
     CampaignPerformance.conversions Samples.merged_young_men
     = sum_from (rounded_demographic_share Campaign.conversions first)
                (map (rounded_demographic_share Campaign.conversions) rest)).
Proof.
  split.
  - apply (proj1 (additive_metrics_of_buckets Samples.sample_getTime
                    Samples.codeUnitCompare Samples.weekly_pair)
             [Samples.merged_week] Samples.merged_week).
    + vm_compute. reflexivity.
    + simpl. left. reflexivity.
  - apply (proj1 (proj2 (proj2 (additive_metrics_of_buckets Samples.sample_getTime
                                  Samples.codeUnitCompare Samples.two_half_male)))
             [Samples.merged_young_men] [] "Male" [Samples.merged_young_men]
             Samples.merged_young_men).
    + vm_compute. reflexivity.
    + left. reflexivity.
    + simpl. left. reflexivity.
Defined.

(** ** The order of the buckets *)

Lemma weekly_values_keys campaigns :
  map WeeklyPerformance.week_start
      (Map_values (fold_left weekly_upsert (weeks_of campaigns) []))
  = first_seen (map WeeklyPerformance.week_start (weeks_of campaigns)).
Proof.
  apply (upsert_fold_values_keys WeeklyPerformance.week_start (fun w => w)
           WeeklyView.merged WeeklyPerformance.week_start); reflexivity.
Qed.

Lemma weekly_sorted D campaigns out :
  WeeklyView.getAggregatedWeeklyData D (document campaigns) = Normal out ->
  Forall (fun w => D (WeeklyPerformance.week_start w) <> None) (weeks_of campaigns) ->
  StronglySorted (week_le D) out.
Proof.
  intros Hout Hvalid. apply weekly_output in Hout. destruct Hout as [_ ->].
  set (vals := Map_values (fold_left weekly_upsert (weeks_of campaigns) [])).
  assert (Hdate : forall b, In b vals -> exists t, D (WeeklyPerformance.week_start b) = Some t).
  { intros b Hb.
    assert (Hk : In (WeeklyPerformance.week_start b)
                    (map WeeklyPerformance.week_start (weeks_of campaigns))).
    { apply first_seen_In. rewrite <- weekly_values_keys. now apply in_map. }
    apply in_map_iff in Hk. destruct Hk as (w & Hw & Hin).
    rewrite Forall_forall in Hvalid. specialize (Hvalid w Hin). rewrite Hw in Hvalid.
    destruct (D (WeeklyPerformance.week_start b)) as [t|]; [eauto|congruence]. }
  apply (StronglySorted_impl (cmp_le (WeeklyView.by_week_start D))).
  - intros a b Ha Hb. apply (proj1 (Array_sort_In _ _ _)) in Ha, Hb.
    destruct (Hdate a Ha) as [ta Hta]. destruct (Hdate b Hb) as [tb Htb].
    unfold cmp_le, week_le, WeeklyView.by_week_start. rewrite Hta, Htb. lia.
  - apply Array_sort_sorted.
    + intros a b Ha Hb. destruct (Hdate a Ha) as [ta Hta]. destruct (Hdate b Hb) as [tb Htb].
      unfold cmp_le, WeeklyView.by_week_start. rewrite Hta, Htb. lia.
    + intros a b c Ha Hb Hc. destruct (Hdate a Ha) as [ta Hta].
      destruct (Hdate b Hb) as [tb Htb]. destruct (Hdate c Hc) as [tc Htc].
      unfold cmp_le, WeeklyView.by_week_start. rewrite Hta, Htb, Htc. lia.
Qed.

Lemma sorted_by_label {A : Type} (lc : string -> string -> Z) (label : A -> string)
    (l : list A) :
  consistent lc ->
  StronglySorted (fun a b => (lc (label a) (label b) <= 0)%Z)
    (Array_sort (fun a b => lc (label a) (label b)) l).
Proof.
  intros [Hanti Htrans].
  apply (@Array_sort_sorted _ (fun a b => lc (label a) (label b))).
  - intros a b _ _. apply Hanti.
  - intros a b c _ _ _. apply Htrans.
Qed.

Lemma regional_order campaigns out :
  RegionView.getAggregatedRegionalData (document campaigns) = Normal out ->
  map RegionView.key_of out = first_seen (map RegionView.key_of (regions_of campaigns)).
Proof.
  intros Hout. apply regional_output in Hout. destruct Hout as [_ ->].
  apply (upsert_fold_values_keys RegionView.key_of (fun r => r) RegionView.merged
           RegionView.key_of); reflexivity.
Qed.

Lemma chart_order campaigns spend_points revenue_points :
  DeviceView.processDeviceChartData (document campaigns)
  = Normal (spend_points, revenue_points) ->
  map ChartPoint.label spend_points = first_seen (map device_of (devices_of campaigns)) /\
  map ChartPoint.label revenue_points = first_seen (map device_of (devices_of campaigns)).
Proof.
  intros Hout. apply chart_output in Hout. destruct Hout as (_ & -> & ->).
  unfold chart_upsert, shares_upsert.
  rewrite <- (Map_keys_upsert_all device_of
                (add_shares (device_share Campaign.spend) (device_share Campaign.revenue)
                            (SpendRevenue.mk 0 0))
                (add_shares (device_share Campaign.spend) (device_share Campaign.revenue))).
  unfold Map_keys. rewrite !map_map. split; reflexivity.
Qed.

(** C5, as the claim states it.  A campaign reports the weeks 2024-01-15, TBD
    and 2024-01-01, in this order.  [new Date("TBD").getTime()] is NaN, so the
    comparator's difference is NaN, which the sort reads as 0, whenever one of
    the two buckets is that of TBD: the buckets are returned in the order of
    the document, the week of 2024-01-15 before the week of 2024-01-01, which
    is fourteen days earlier.  The output is not sorted by week-start date. *)
Lemma undated_week_breaks_date_order :
  WeeklyView.getAggregatedWeeklyData Samples.sample_getTime
    (document Samples.undated_week)
  = Normal [ Samples.week "2024-01-15" 3; Samples.week "TBD" 2;
             Samples.week "2024-01-01" 1 ]
  /\
  Samples.sample_getTime "TBD" = None
  /\
  WeeklyView.by_week_start Samples.sample_getTime
    (Samples.week "2024-01-15" 3) (Samples.week "2024-01-01" 1)
  = 1209600000%Z
  /\
  ~ week_le Samples.sample_getTime
      (Samples.week "2024-01-15" 3) (Samples.week "2024-01-01" 1)
  /\
  ~ StronglySorted (week_le Samples.sample_getTime)
      [ Samples.week "2024-01-15" 3; Samples.week "TBD" 2;
        Samples.week "2024-01-01" 1 ].
Proof.
  assert (Hpair : ~ week_le Samples.sample_getTime
                      (Samples.week "2024-01-15" 3) (Samples.week "2024-01-01" 1)).
  { unfold week_le. simpl. lia. }
  split; [vm_compute; reflexivity|]. split; [reflexivity|].
  split; [reflexivity|]. split; [exact Hpair|].
  intros Hsorted. inversion Hsorted as [|w ws _ Hall]. subst.
  inversion Hall as [|w ws _ Hrest]. subst.
  inversion Hrest as [|w ws Hlast _]. subst.
  exact (Hpair Hlast).
Qed.

(** C5, amended.  The weekly reducer emits its buckets in ascending order of
    their week-start dates when every week start is a date; the demographic reducer
    emits the rows of the male and female tables and of the age-group charts
    in the order of the collation of their age-group labels, when the
    collation is consistent; the regional and device reducers emit their
    buckets in the order in which their keys first appear in the document. *)
Theorem dimension_specific_order :
  forall (Date_getTime : string -> option Z) (localeCompare : string -> string -> Z)
         (campaigns : list Campaign.t),
    (forall out,
       WeeklyView.getAggregatedWeeklyData Date_getTime (document campaigns) = Normal out ->
       Forall (fun w => Date_getTime (WeeklyPerformance.week_start w) <> None)
              (weeks_of campaigns) ->
       StronglySorted (week_le Date_getTime) out) /\
    (forall male female,
       DemographicView.processCampaignPerformance localeCompare (document campaigns)
       = Normal (male, female) ->
       consistent localeCompare ->
       StronglySorted
         (fun a b => (localeCompare (CampaignPerformance.ageGroup a)
                                    (CampaignPerformance.ageGroup b) <= 0)%Z) male /\
       StronglySorted
         (fun a b => (localeCompare (CampaignPerformance.ageGroup a)
                                    (CampaignPerformance.ageGroup b) <= 0)%Z) female) /\
    (forall spend_rows revenue_rows,
       DemographicView.processAgeGroupData localeCompare (document campaigns)
       = Normal (spend_rows, revenue_rows) ->
       consistent localeCompare ->
       StronglySorted
         (fun a b => (localeCompare (AgeGroupData.ageGroup a)
                                    (AgeGroupData.ageGroup b) <= 0)%Z) spend_rows /\
       StronglySorted
         (fun a b => (localeCompare (AgeGroupData.ageGroup a)
                                    (AgeGroupData.ageGroup b) <= 0)%Z) revenue_rows) /\
    (forall out,
       RegionView.getAggregatedRegionalData (document campaigns) = Normal out ->
       map RegionView.key_of out
       = first_seen (map RegionView.key_of (regions_of campaigns))) /\
    (forall spend_points revenue_points,
       DeviceView.processDeviceChartData (document campaigns)
       = Normal (spend_points, revenue_points) ->
       map ChartPoint.label spend_points
       = first_seen (map device_of (devices_of campaigns)) /\
       map ChartPoint.label revenue_points
       = first_seen (map device_of (devices_of campaigns))).
Proof.
  intros D lc campaigns. repeat apply conj.
  - intros out. apply weekly_sorted.
  - intros male female Hout Hc.
    apply performance_output in Hout. destruct Hout as (_ & -> & ->).
    split; apply (sorted_by_label lc CampaignPerformance.ageGroup); exact Hc.
  - intros spend_rows revenue_rows Hout Hc.
    apply age_output in Hout. destruct Hout as (_ & -> & ->).
    split; apply (sorted_by_label lc AgeGroupData.ageGroup); exact Hc.
  - intros out. apply regional_order.
  - intros spend_points revenue_points. apply chart_order.
Qed.

Lemma codeUnitCompare_opp a :
  forall b, Samples.codeUnitCompare b a = (- Samples.codeUnitCompare a b)%Z.
Proof.
  induction a as [|x a IH]; intros [|y b]; simpl; try reflexivity.
  destruct (Z.eqb_spec (Z.of_N (N_of_ascii x) - Z.of_N (N_of_ascii y)) 0) as [Hd|Hd];
    destruct (Z.eqb_spec (Z.of_N (N_of_ascii y) - Z.of_N (N_of_ascii x)) 0) as [Hd'|Hd'];
    try lia.
  apply IH.
Qed.

Lemma codeUnitCompare_trans a :
  forall b c,
    (Samples.codeUnitCompare a b <= 0)%Z -> (Samples.codeUnitCompare b c <= 0)%Z ->
    (Samples.codeUnitCompare a c <= 0)%Z.
Proof.
  induction a as [|x a IH]; intros [|y b] [|z c]; simpl; try lia.
  destruct (Z.eqb_spec (Z.of_N (N_of_ascii x) - Z.of_N (N_of_ascii y)) 0) as [Hxy|Hxy];
    destruct (Z.eqb_spec (Z.of_N (N_of_ascii y) - Z.of_N (N_of_ascii z)) 0) as [Hyz|Hyz];
    destruct (Z.eqb_spec (Z.of_N (N_of_ascii x) - Z.of_N (N_of_ascii z)) 0) as [Hxz|Hxz];
    try lia.
  apply IH.
Qed.

Lemma codeUnitCompare_consistent : consistent Samples.codeUnitCompare.
Proof.
  split.
  - intros a b H. rewrite (codeUnitCompare_opp a b). lia.
  - intros a b c. apply codeUnitCompare_trans.
Qed.

Lemma dimension_specific_order_witness :
  StronglySorted (week_le Samples.sample_getTime)
    [ Samples.week "2024-01-01" 1; Samples.week "2024-01-08" 6;
      Samples.week "2024-01-15" 3 ]
  /\
  (StronglySorted
     (fun a b => (Samples.codeUnitCompare (CampaignPerformance.ageGroup a)
                                          (CampaignPerformance.ageGroup b) <= 0)%Z)
     [ Samples.male_row "18-24" 400 40 4; Samples.male_row "25-34" 300 30 3;
       Samples.male_row "35-44" 300 30 3 ] /\
   StronglySorted
     (fun a b => (Samples.codeUnitCompare (CampaignPerformance.ageGroup a)
                                          (CampaignPerformance.ageGroup b) <= 0)%Z)
     [])
  /\
  map RegionView.key_of
      [ RegionalPerformance.mk "Doha" "GCC" 200 20 2 100 400 10 10 5 50 4;
        Samples.region "Dubai" ]
  = first_seen (map RegionView.key_of (regions_of Samples.regions_and_devices)).
Proof.
  split; [|split].
  - apply (proj1 (dimension_specific_order Samples.sample_getTime
                    Samples.codeUnitCompare Samples.weeks_latest_first)).
    + vm_compute. reflexivity.
    + repeat constructor; vm_compute; discriminate.
  - apply (proj1 (proj2 (dimension_specific_order Samples.sample_getTime
                           Samples.codeUnitCompare Samples.ages_oldest_first))).
    + vm_compute. reflexivity.
    + exact codeUnitCompare_consistent.
  - apply (proj1 (proj2 (proj2 (proj2
             (dimension_specific_order Samples.sample_getTime
                Samples.codeUnitCompare Samples.regions_and_devices))))).
    vm_compute. reflexivity.
Defined.

(** ** Entries of another gender *)

Lemma fold_left_filter_neutral {A B : Type} (f : A -> B -> A) (p : B -> bool) :
  (forall a b, p b = false -> f a b = a) ->
  forall l a, fold_left f (filter p l) a = fold_left f l a.
Proof.
  intros Hn. induction l as [|b l IH]; intros a; simpl; auto.
  destruct (p b) eqn:Hp; simpl; [apply IH|]. now rewrite (Hn a b Hp).
Qed.

Lemma forEach_without_other_genders {S : Type}
    (visit : Campaign.t -> S -> DemographicBreakdown.t -> S) :
  (forall c s demo, visit (without_other_genders c) s demo = visit c s demo) ->
  (forall c s demo, binary_gender demo = false -> visit c s demo = s) ->
  forall campaigns s,
    forEach_breakdown Campaign.demographic_breakdown visit
      (map without_other_genders campaigns) s
    = forEach_breakdown Campaign.demographic_breakdown visit campaigns s.
Proof.
  intros Hsame Hskip. induction campaigns as [|c cs IH]; intros s; simpl; auto.
  destruct (Campaign.demographic_breakdown c) as [l|]; simpl; auto.
  rewrite IH. f_equal.
  rewrite (fold_left_ext _ (visit c)) by (intros; apply Hsame).
  apply fold_left_filter_neutral. intros a b. apply Hskip.
Qed.

Lemma not_binary_gender demo :
  binary_gender demo = false ->
  String.eqb (DemographicBreakdown.gender demo) "Male" = false /\
  String.eqb (DemographicBreakdown.gender demo) "Female" = false.
Proof. unfold binary_gender. apply orb_false_elim. Qed.

Lemma entries_of_In {E : Type} (field : Campaign.t -> option (list E)) campaigns c l e :
  In c campaigns -> field c = Some l -> In e l -> In (c, e) (entries_of field campaigns).
Proof.
  intros Hc Hf He. unfold entries_of. apply in_flat_map. exists c. split; auto.
  rewrite Hf. now apply in_map.
Qed.

Lemma Map_keys_In {V : Type} k (m : Map V) : In k (Map_keys m) -> exists v, In (k, v) m.
Proof.
  unfold Map_keys. rewrite in_map_iff. intros ([k' v] & Hk & Hin). simpl in Hk. subst.
  eauto.
Qed.

(** C10.  Dropping from every campaign the demographic entries whose gender
    is neither "Male" nor "Female" changes neither the gender metric totals
    nor the male and female tables; yet every entry of a campaign, whatever
    its gender, is a summand of the spend row and of the revenue row of its
    age group. *)
Theorem other_genders_dropped :
  forall (localeCompare : string -> string -> Z) (campaigns : list Campaign.t),
    DemographicView.processDemographicMetrics
      (document (map without_other_genders campaigns))
    = DemographicView.processDemographicMetrics (document campaigns)
    /\
    DemographicView.processCampaignPerformance localeCompare
      (document (map without_other_genders campaigns))
    = DemographicView.processCampaignPerformance localeCompare (document campaigns)
    /\
    (forall spend_rows revenue_rows c l demo,
       DemographicView.processAgeGroupData localeCompare (document campaigns)
       = Normal (spend_rows, revenue_rows) ->
       In c campaigns ->
       Campaign.demographic_breakdown c = Some l ->
       In demo l ->
       let group :=
         filter (has_key age_of (DemographicBreakdown.age_group demo))
                (demographics_of campaigns) in
       In (c, demo) group /\
       exists spend_row revenue_row,
         In spend_row spend_rows /\
         AgeGroupData.ageGroup spend_row = DemographicBreakdown.age_group demo /\
         AgeGroupData.spend spend_row
         = sum_from 0 (map (demographic_share Campaign.spend) group) /\
         In revenue_row revenue_rows /\
         AgeGroupData.ageGroup revenue_row = DemographicBreakdown.age_group demo /\
         AgeGroupData.revenue revenue_row
         = sum_from 0 (map (demographic_share Campaign.revenue) group)).
Proof.
  intros lc campaigns. split; [|split].
  - unfold DemographicView.processDemographicMetrics. simpl.
    apply forEach_without_other_genders.
    + intros [] s demo. reflexivity.
    + intros c s demo Hg. apply not_binary_gender in Hg. destruct Hg as [Hm Hf].
      unfold DemographicView.metrics_visit. now rewrite Hm, Hf.
  - unfold DemographicView.processCampaignPerformance. simpl. f_equal.
    apply forEach_without_other_genders.
    + intros [] s demo. reflexivity.
    + intros c [mm fm] demo Hg. apply not_binary_gender in Hg. destruct Hg as [Hm Hf].
      unfold DemographicView.performance_visit. now rewrite Hm, Hf.
  - intros spend_rows revenue_rows c l demo Hout Hc Hl Hdemo group.
    assert (Hin : In (c, demo) (demographics_of campaigns))
      by (eapply entries_of_In; eauto).
    assert (Hgroup : In (c, demo) group).
    { apply filter_In. split; [exact Hin|]. apply String.eqb_refl. }
    split; [exact Hgroup|].
    destruct (age_rows_metrics lc campaigns spend_rows revenue_rows Hout) as [Hs Hr].
    apply age_output in Hout. destruct Hout as (_ & Hsr & Hrr).
    assert (Hkey : In (DemographicBreakdown.age_group demo)
                      (Map_keys (fold_left age_upsert (demographics_of campaigns) []))).
    { unfold age_upsert, shares_upsert. rewrite Map_keys_upsert_all.
      apply first_seen_In. apply (in_map age_of) in Hin. exact Hin. }
    apply Map_keys_In in Hkey. destruct Hkey as [v Hv].
    exists (DemographicView.spend_row (DemographicBreakdown.age_group demo, v)),
           (DemographicView.revenue_row (DemographicBreakdown.age_group demo, v)).
    assert (Hsrow : In (DemographicView.spend_row (DemographicBreakdown.age_group demo, v))
                       spend_rows).
    { rewrite Hsr. apply Array_sort_In. now apply in_map. }
    assert (Hrrow : In (DemographicView.revenue_row (DemographicBreakdown.age_group demo, v))
                       revenue_rows).
    { rewrite Hrr. apply Array_sort_In. now apply in_map. }
    repeat split; auto.
Qed.

Lemma other_genders_dropped_witness :
  In (Samples.mixed_genders, DemographicBreakdown.mk "18-24" "Non-binary" 20)
     (filter (has_key age_of "18-24") (demographics_of [Samples.mixed_genders]))
  /\
  exists spend_row revenue_row,
    In spend_row [AgeGroupData.mk "18-24" 350 0] /\
    AgeGroupData.ageGroup spend_row = "18-24" /\
    AgeGroupData.spend spend_row
    = sum_from 0 (map (demographic_share Campaign.spend)
                      (filter (has_key age_of "18-24")
                              (demographics_of [Samples.mixed_genders]))) /\
    In revenue_row [AgeGroupData.mk "18-24" 0 630] /\
    AgeGroupData.ageGroup revenue_row = "18-24" /\
    AgeGroupData.revenue revenue_row
    = sum_from 0 (map (demographic_share Campaign.revenue)
                      (filter (has_key age_of "18-24")
                              (demographics_of [Samples.mixed_genders]))).
Proof.
  apply (proj2 (proj2 (other_genders_dropped Samples.codeUnitCompare [Samples.mixed_genders]))
           [AgeGroupData.mk "18-24" 350 0] [AgeGroupData.mk "18-24" 0 630]
           Samples.mixed_genders
           [ DemographicBreakdown.mk "18-24" "Male" 50;
             DemographicBreakdown.mk "18-24" "Non-binary" 20 ]
           (DemographicBreakdown.mk "18-24" "Non-binary" 20)).
  - vm_compute. reflexivity.
  - simpl. left. reflexivity.
  - reflexivity.
  - simpl. right. left. reflexivity.
Defined.

(** ** Absent collections *)

Ltac unfold_aggregations :=
  unfold WeeklyView.getAggregatedWeeklyData, RegionView.getAggregatedRegionalData,
    DemographicView.processDemographicMetrics, DemographicView.processAgeGroupData,
    DemographicView.processCampaignPerformance, DeviceView.processDeviceMetrics,
    DeviceView.processDeviceChartData, DeviceView.processCampaignPerformanceByDevice.

Lemma forEach_breakdown_app {E S : Type} (field : Campaign.t -> option (list E))
    (visit : Campaign.t -> S -> E -> S) before after :
  forall s,
    forEach_breakdown field visit (before ++ after)%list s
    = (s' <- forEach_breakdown field visit before s ;;
       forEach_breakdown field visit after s').
Proof.
  induction before as [|c cs IH]; intros s; simpl; auto.
  destruct (field c); simpl; auto.
Qed.

Lemma forEach_breakdown_empty {E S : Type} (field : Campaign.t -> option (list E))
    (visit : Campaign.t -> S -> E -> S) before c after s :
  field c = Some [] ->
  forEach_breakdown field visit (before ++ c :: after)%list s
  = forEach_breakdown field visit (before ++ after)%list s.
Proof.
  intros Hc. rewrite !forEach_breakdown_app. simpl. now rewrite Hc.
Qed.

Lemma forEach_breakdown_missing {E S : Type} (field : Campaign.t -> option (list E))
    (visit : Campaign.t -> S -> E -> S) campaigns c s :
  In c campaigns -> field c = None ->
  forEach_breakdown field visit campaigns s = TypeError.
Proof.
  intros Hin Hc. apply forEach_breakdown_absent. apply Exists_exists. eauto.
Qed.

Lemma fill_device_breakdown_present random campaigns :
  forall i, all_present Campaign.device_breakdown
              (DeviceView.fill_device_breakdown random i campaigns).
Proof.
  induction campaigns as [|c cs IH]; intros i; simpl; [constructor|].
  destruct (Campaign.device_breakdown c) eqn:Hd; constructor; try apply IH.
  - now rewrite Hd.
  - discriminate.
Qed.

(** C6, as the claim states it.  A campaign whose payload has no demographic
    breakdown makes [processDemographicMetrics] throw, where the same campaign
    with an empty breakdown gives the zero metrics. *)
Lemma absent_breakdown_throws :
  DemographicView.processDemographicMetrics (document [Samples.no_demographics])
  = TypeError
  /\
  DemographicView.processDemographicMetrics (document [Samples.empty_demographics])
  = Normal DemographicView.metrics_zero.
Proof. split; reflexivity. Qed.

(** C6, amended.  While nothing is fetched, or when the payload has no
    campaigns, every aggregation function returns its empty result.  A
    campaign whose breakdown collection is present and empty contributes
    nothing for that dimension.  A campaign whose weekly, regional or
    demographic collection is absent is not treated as empty: the function
    reading it throws a TypeError, and so would the device functions on an
    absent device breakdown; but the device view's fetch gives every campaign
    a device breakdown, so that on the fetched document the three device
    functions return normally. *)
Theorem absent_and_empty_collections :
  forall (Date_getTime : string -> option Z) (localeCompare : string -> string -> Z)
         (random : nat -> number),
    (forall data,
       optional_campaigns data = None ->
       WeeklyView.getAggregatedWeeklyData Date_getTime data = Normal [] /\
       RegionView.getAggregatedRegionalData data = Normal [] /\
       DemographicView.processDemographicMetrics data
       = Normal DemographicView.metrics_zero /\
       DemographicView.processAgeGroupData localeCompare data = Normal ([], []) /\
       DemographicView.processCampaignPerformance localeCompare data = Normal ([], []) /\
       DeviceView.processDeviceMetrics data = Normal DeviceView.initialMetrics /\
       DeviceView.processDeviceChartData data = Normal ([], []) /\
       DeviceView.processCampaignPerformanceByDevice data
       = Normal (DeviceView.Tables.mk [] [] []))
    /\
    (forall before c after,
       (Campaign.weekly_performance c = Some [] ->
        WeeklyView.getAggregatedWeeklyData Date_getTime
          (document (before ++ c :: after)%list)
        = WeeklyView.getAggregatedWeeklyData Date_getTime
            (document (before ++ after)%list)) /\
       (Campaign.regional_performance c = Some [] ->
        RegionView.getAggregatedRegionalData (document (before ++ c :: after)%list)
        = RegionView.getAggregatedRegionalData (document (before ++ after)%list)) /\
       (Campaign.demographic_breakdown c = Some [] ->
        DemographicView.processDemographicMetrics (document (before ++ c :: after)%list)
        = DemographicView.processDemographicMetrics (document (before ++ after)%list) /\
        DemographicView.processAgeGroupData localeCompare
          (document (before ++ c :: after)%list)
        = DemographicView.processAgeGroupData localeCompare
            (document (before ++ after)%list) /\
        DemographicView.processCampaignPerformance localeCompare
          (document (before ++ c :: after)%list)
        = DemographicView.processCampaignPerformance localeCompare
            (document (before ++ after)%list)) /\
       (Campaign.device_breakdown c = Some [] ->
        DeviceView.processDeviceMetrics (document (before ++ c :: after)%list)
        = DeviceView.processDeviceMetrics (document (before ++ after)%list) /\
        DeviceView.processDeviceChartData (document (before ++ c :: after)%list)
        = DeviceView.processDeviceChartData (document (before ++ after)%list) /\
        DeviceView.processCampaignPerformanceByDevice
          (document (before ++ c :: after)%list)
        = DeviceView.processCampaignPerformanceByDevice
            (document (before ++ after)%list)))
    /\
    (forall campaigns c,
       In c campaigns ->
       (Campaign.weekly_performance c = None ->
        WeeklyView.getAggregatedWeeklyData Date_getTime (document campaigns)
        = TypeError) /\
       (Campaign.regional_performance c = None ->
        RegionView.getAggregatedRegionalData (document campaigns) = TypeError) /\
       (Campaign.demographic_breakdown c = None ->
        DemographicView.processDemographicMetrics (document campaigns) = TypeError /\
        DemographicView.processAgeGroupData localeCompare (document campaigns)
        = TypeError /\
        DemographicView.processCampaignPerformance localeCompare (document campaigns)
        = TypeError) /\
       (Campaign.device_breakdown c = None ->
        DeviceView.processDeviceMetrics (document campaigns) = TypeError /\
        DeviceView.processDeviceChartData (document campaigns) = TypeError /\
        DeviceView.processCampaignPerformanceByDevice (document campaigns)
        = TypeError))
    /\
    (forall result campaigns,
       MarketingData.campaigns result = Some campaigns ->
       exists fetched,
         DeviceView.fetchData random result = Normal fetched /\
         (exists metrics,
            DeviceView.processDeviceMetrics (Some fetched) = Normal metrics) /\
         (exists points,
            DeviceView.processDeviceChartData (Some fetched) = Normal points) /\
         (exists tables,
            DeviceView.processCampaignPerformanceByDevice (Some fetched)
            = Normal tables)).
Proof.
  intros D lc random. split; [|split; [|split]].
  - intros data Hnone.
    unfold_aggregations.
    rewrite Hnone. repeat split.
  - intros before c after.
    unfold_aggregations.
    simpl.
    split; [|split; [|split]]; intros Hc; repeat split;
      now rewrite (forEach_breakdown_empty _ _ before c after _ Hc).
  - intros campaigns c Hin.
    unfold_aggregations.
    simpl.
    split; [|split; [|split]]; intros Hc; repeat split;
      now rewrite (forEach_breakdown_missing _ _ campaigns c _ Hin Hc).
  - intros result campaigns Hc.
    exists (MarketingData.mk (Some (DeviceView.fill_device_breakdown random 0 campaigns))).
    split; [unfold DeviceView.fetchData; now rewrite Hc|].
    pose proof (fill_device_breakdown_present random campaigns 0) as Hall.
    unfold DeviceView.processDeviceMetrics, DeviceView.processDeviceChartData,
      DeviceView.processCampaignPerformanceByDevice. simpl.
    rewrite !(forEach_breakdown_present _ _ Hall). simpl.
    repeat split; eexists; reflexivity.
Qed.

Lemma absent_and_empty_collections_witness :
  DemographicView.processDemographicMetrics (document [Samples.no_demographics])
  = TypeError /\
  DemographicView.processAgeGroupData Samples.codeUnitCompare
    (document [Samples.no_demographics]) = TypeError /\
  DemographicView.processCampaignPerformance Samples.codeUnitCompare
    (document [Samples.no_demographics]) = TypeError.
Proof.
  exact (proj1 (proj2 (proj2
           (proj1 (proj2 (proj2
              (absent_and_empty_collections Samples.sample_getTime
                 Samples.codeUnitCompare Samples.draws)))
              [Samples.no_demographics] Samples.no_demographics
              (or_introl eq_refl))))
           eq_refl).
Defined.

(** ** What holds of the zero denominators, the regional ratios and the
    regions without coordinates *)

Lemma zero_not_positive (x : number) : (x =? 0) = true -> (0 <? x) = false.
Proof.
  rewrite eqb_spec, ltb_spec.
  replace (Prim2SF 0) with (S754_zero false) by reflexivity.
  destruct (Prim2SF x) as [s| s| |s m e]; try destruct s; cbn; auto; discriminate.
Qed.

(** X1.  A row of the device tables with no impressions has ctr 0, and one
    with no clicks has conversion rate 0. *)
Theorem device_rows_zero_denominators :
  forall (campaigns : list Campaign.t) (tables : DeviceView.Tables.t)
         (row : CampaignPerformanceByDevice.t),
    DeviceView.processCampaignPerformanceByDevice (document campaigns) = Normal tables ->
    In row (DeviceView.Tables.mobile tables ++ DeviceView.Tables.desktop tables
            ++ DeviceView.Tables.tablet tables)%list ->
    ((CampaignPerformanceByDevice.impressions row =? 0) = true ->
     CampaignPerformanceByDevice.ctr row = 0) /\
    ((CampaignPerformanceByDevice.clicks row =? 0) = true ->
     CampaignPerformanceByDevice.conversionRate row = 0).
Proof.
  intros campaigns tables row Hout Hrow.
  destruct (device_tables_rows campaigns tables Hout row Hrow) as (ce & _ & ->).
  unfold DeviceView.performance_of. simpl. split; intros Hz;
    apply zero_not_positive in Hz; rewrite Hz; reflexivity.
Qed.

Lemma device_rows_zero_denominators_witness :
  ((CampaignPerformanceByDevice.impressions
      (CampaignPerformanceByDevice.mk "Idle" "Mobile" 0 0 0 0 0) =? 0) = true ->
   CampaignPerformanceByDevice.ctr
     (CampaignPerformanceByDevice.mk "Idle" "Mobile" 0 0 0 0 0) = 0) /\
  ((CampaignPerformanceByDevice.clicks
      (CampaignPerformanceByDevice.mk "Idle" "Mobile" 0 0 0 0 0) =? 0) = true ->
   CampaignPerformanceByDevice.conversionRate
     (CampaignPerformanceByDevice.mk "Idle" "Mobile" 0 0 0 0 0) = 0).
Proof.
  apply (device_rows_zero_denominators [Samples.idle_campaign]
           (DeviceView.Tables.mk
              [CampaignPerformanceByDevice.mk "Idle" "Mobile" 0 0 0 0 0] [] [])).
  - vm_compute. reflexivity.
  - simpl. left. reflexivity.
Defined.

Lemma performance_of_no_clicks c demo :
  (0 <? CampaignPerformance.clicks (DemographicView.performance_of c demo)) = false ->
  CampaignPerformance.ctr (DemographicView.performance_of c demo) = 0 /\
  CampaignPerformance.conversionRate (DemographicView.performance_of c demo) = 0.
Proof.
  unfold DemographicView.performance_of. simpl. intros Hz. rewrite Hz. split; reflexivity.
Qed.

Lemma performance_add_no_clicks existing performance :
  (0 <? CampaignPerformance.clicks
          (DemographicView.performance_add existing performance)) = false ->
  CampaignPerformance.ctr (DemographicView.performance_add existing performance) = 0 /\
  CampaignPerformance.conversionRate
    (DemographicView.performance_add existing performance) = 0.
Proof.
  unfold DemographicView.performance_add. simpl. intros Hz. rewrite Hz. split; reflexivity.
Qed.

(** X2.  A row of the male or female table with no clicks has ctr 0 and
    conversion rate 0. *)
Theorem demographic_rows_without_clicks :
  forall (localeCompare : string -> string -> Z) (campaigns : list Campaign.t)
         (male female : list CampaignPerformance.t) (row : CampaignPerformance.t),
    DemographicView.processCampaignPerformance localeCompare (document campaigns)
    = Normal (male, female) ->
    In row (male ++ female)%list ->
    (CampaignPerformance.clicks row =? 0) = true ->
    CampaignPerformance.ctr row = 0 /\ CampaignPerformance.conversionRate row = 0.
Proof.
  intros lc campaigns male female row Hout Hrow Hz.
  apply zero_not_positive in Hz.
  apply performance_output in Hout. destruct Hout as (_ & -> & ->).
  assert (Hr : exists first rest,
             row = fold_left
                     (fun existing ce =>
                        DemographicView.performance_add existing
                          (DemographicView.performance_of (fst ce) (snd ce)))
                     rest (DemographicView.performance_of (fst first) (snd first))).
  { apply in_app_or in Hrow. destruct Hrow as [H|H];
      apply performance_row in H; destruct H as (first & rest & _ & H); eauto. }
  destruct Hr as (first & rest & ->). revert Hz.
  destruct rest as [|e rest] using rev_ind; [|clear IHrest].
  - apply performance_of_no_clicks.
  - rewrite fold_left_app. apply performance_add_no_clicks.
Qed.

Lemma demographic_rows_without_clicks_witness :
  CampaignPerformance.ctr (CampaignPerformance.mk "18-24" "Male" 0 0 0 0 0) = 0 /\
  CampaignPerformance.conversionRate (CampaignPerformance.mk "18-24" "Male" 0 0 0 0 0) = 0.
Proof.
  apply (demographic_rows_without_clicks Samples.codeUnitCompare [Samples.unseen_campaign]
           [CampaignPerformance.mk "18-24" "Male" 0 0 0 0 0] []).
  - vm_compute. reflexivity.
  - simpl. left. reflexivity.
  - reflexivity.
Defined.

(** X3.  The ratios of a regional bucket are those of the last entry merged
    into it: with [first :: rest] the entries of its key in document order, the
    bucket carries the ctr and the conversion rate of the last of them. *)
Theorem regional_ratios_of_bucket :
  forall (campaigns : list Campaign.t) (out : list RegionalPerformance.t)
         (b : RegionalPerformance.t),
    RegionView.getAggregatedRegionalData (document campaigns) = Normal out ->
    In b out ->
    exists first rest,
      filter (has_key RegionView.key_of (RegionView.key_of b)) (regions_of campaigns)
      = first :: rest /\
      RegionalPerformance.ctr b = RegionalPerformance.ctr (last rest first) /\
      RegionalPerformance.conversion_rate b
      = RegionalPerformance.conversion_rate (last rest first).
Proof.
  intros campaigns out b Hout Hb.
  destruct (regional_bucket campaigns out b Hout Hb) as (first & rest & Hf & ->).
  exists first, rest. split; [exact Hf|]. clear Hf.
  destruct rest as [|e rest] using rev_ind; [|clear IHrest].
  - simpl. auto.
  - rewrite fold_left_app, last_last. simpl. auto.
Qed.

Lemma regional_ratios_of_bucket_witness :
  exists first rest,
    filter (has_key RegionView.key_of
              (RegionView.key_of
                 (RegionalPerformance.mk "Dubai" "UAE" 300 20 3 130 440 5 20 8 40 3)))
           (regions_of [ Samples.regional_campaign "A" [Samples.dubai_A];
                         Samples.regional_campaign "B" [Samples.dubai_B] ])
    = first :: rest /\
    RegionalPerformance.ctr
      (RegionalPerformance.mk "Dubai" "UAE" 300 20 3 130 440 5 20 8 40 3)
    = RegionalPerformance.ctr (last rest first) /\
    RegionalPerformance.conversion_rate
      (RegionalPerformance.mk "Dubai" "UAE" 300 20 3 130 440 5 20 8 40 3)
    = RegionalPerformance.conversion_rate (last rest first).
Proof.
  apply (regional_ratios_of_bucket
           [ Samples.regional_campaign "A" [Samples.dubai_A];
             Samples.regional_campaign "B" [Samples.dubai_B] ]
           [ RegionalPerformance.mk "Dubai" "UAE" 300 20 3 130 440 5 20 8 40 3 ]).
  - vm_compute. reflexivity.
  - simpl. left. reflexivity.
Defined.

Lemma transform_points regionalData v p :
  In p (fst (BubbleMap.transformRegionalDataForBubbleMap regionalData v)) <->
  exists item, In item regionalData /\ fst (BubbleMap.transform_item v item) = Some p.
Proof.
  induction regionalData as [|item rest IH]; simpl.
  - split; [tauto|]. intros (item & [] & _).
  - destruct (BubbleMap.transform_item v item) as [o w] eqn:Hi.
    destruct (BubbleMap.transformRegionalDataForBubbleMap rest v) as [ps ws]. simpl in *.
    split.
    + destruct o as [pt|]; simpl.
      * intros [<-|Hin].
        -- exists item. rewrite Hi. auto.
        -- apply IH in Hin. destruct Hin as (i & Hi' & Hp). eauto.
      * intros Hin. apply IH in Hin. destruct Hin as (i & Hi' & Hp). eauto.
    + intros (i & [<-|Hin] & Hp).
      * rewrite Hi in Hp. simpl in Hp. subst o. now left.
      * assert (In p ps) by (apply IH; eauto). destruct o; simpl; auto.
Qed.

Lemma transform_warnings regionalData v item :
  In item regionalData ->
  incl (snd (BubbleMap.transform_item v item))
       (snd (BubbleMap.transformRegionalDataForBubbleMap regionalData v)).
Proof.
  induction regionalData as [|i rest IH]; simpl; [tauto|].
  destruct (BubbleMap.transform_item v i) as [o w] eqn:Hi.
  destruct (BubbleMap.transformRegionalDataForBubbleMap rest v) as [ps ws]. simpl in *.
  intros [<-|Hin] x Hx; apply in_or_app.
  - rewrite Hi in Hx. now left.
  - right. now apply IH.
Qed.

(** X4.  For a record of the regional data: when its region is an entry of
    the table, the output has a point of that region with the table's latitude
    and longitude and the selected metric as its value; when its region is
    neither an entry of the table nor a member of [Object.prototype], the
    output has no point of that region and the warning is logged. *)
Theorem regions_with_and_without_coordinates :
  forall (regionalData : list RegionalPerformance.t) (v : BubbleMap.valueType)
         (item : RegionalPerformance.t),
    In item regionalData ->
    (forall lat lng,
       Map_get (RegionalPerformance.region item) BubbleMap.own_CITY_COORDINATES
       = Some (lat, lng) ->
       exists p,
         In p (fst (BubbleMap.transformRegionalDataForBubbleMap regionalData v)) /\
         BubbleMapDataPoint.region p = RegionalPerformance.region item /\
         BubbleMapDataPoint.country p = RegionalPerformance.country item /\
         BubbleMapDataPoint.latitude p = Some lat /\
         BubbleMapDataPoint.longitude p = Some lng /\
         BubbleMapDataPoint.value p = BubbleMap.pick item v) /\
    (Map_get (RegionalPerformance.region item) BubbleMap.own_CITY_COORDINATES = None ->
     existsb (String.eqb (RegionalPerformance.region item)) BubbleMap.Object_prototype
     = false ->
     (forall p,
        In p (fst (BubbleMap.transformRegionalDataForBubbleMap regionalData v)) ->
        BubbleMapDataPoint.region p <> RegionalPerformance.region item) /\
     In ("Coordinates not found for region: " ++ RegionalPerformance.region item)
        (snd (BubbleMap.transformRegionalDataForBubbleMap regionalData v))).
Proof.
  intros regionalData v item Hin. split.
  - intros lat lng Hown.
    exists (BubbleMap.point_of item v (Some lat) (Some lng)). split.
    + apply transform_points. exists item. split; [exact Hin|].
      unfold BubbleMap.transform_item, BubbleMap.CITY_COORDINATES. now rewrite Hown.
    + repeat split.
  - intros Hown Hproto. split.
    + intros p Hp Hregion. apply transform_points in Hp.
      destruct Hp as (i & _ & Hi).
      unfold BubbleMap.transform_item, BubbleMap.CITY_COORDINATES in Hi.
      assert (Hr : RegionalPerformance.region i = RegionalPerformance.region item).
      { destruct (Map_get (RegionalPerformance.region i) BubbleMap.own_CITY_COORDINATES)
          as [[lat lng]|];
          [|destruct (existsb (String.eqb (RegionalPerformance.region i))
                        BubbleMap.Object_prototype)];
          simpl in Hi; inversion Hi; subst p; exact Hregion. }
      rewrite Hr, Hown, Hproto in Hi. discriminate Hi.
    + apply (transform_warnings regionalData v item Hin).
      unfold BubbleMap.transform_item, BubbleMap.CITY_COORDINATES.
      rewrite Hown, Hproto. now left.
Qed.

Lemma regions_with_and_without_coordinates_witness :
  (forall p,
     In p (fst (BubbleMap.transformRegionalDataForBubbleMap
                  [Samples.dubai_A; Samples.atlantis] BubbleMap.revenue)) ->
     BubbleMapDataPoint.region p <> "Atlantis") /\
  In "Coordinates not found for region: Atlantis"
     (snd (BubbleMap.transformRegionalDataForBubbleMap
             [Samples.dubai_A; Samples.atlantis] BubbleMap.revenue)).
Proof.
  apply (proj2 (regions_with_and_without_coordinates
                  [Samples.dubai_A; Samples.atlantis] BubbleMap.revenue Samples.atlantis
                  (or_intror (or_introl eq_refl)))).
  - reflexivity.
  - reflexivity.
Defined.

Lemma performance_of_ratios c demo :
  let row := DemographicView.performance_of c demo in
  CampaignPerformance.ctr row
  = (if 0 <? CampaignPerformance.clicks row
     then toFixed2 (CampaignPerformance.clicks row / CampaignPerformance.impressions row * 100)
     else 0) /\
  CampaignPerformance.conversionRate row
  = (if 0 <? CampaignPerformance.clicks row
     then toFixed2 (CampaignPerformance.conversions row / CampaignPerformance.clicks row * 100)
     else 0).
Proof.
  unfold DemographicView.performance_of. simpl.
  destruct (0 <? Math_round
                   (Campaign.clicks c
                    * (DemographicBreakdown.percentage_of_audience demo / 100)));
    split; reflexivity.
Qed.

(** X5.  The ratios of a row of the male or female table are those of its own
    counts, also after merges: with clicks above 0 the ctr is
    [clicks / impressions * 100] and the conversion rate
    [conversions / clicks * 100], each rounded to two decimals; otherwise
    both are 0. *)
Theorem demographic_ratios_recomputed :
  forall (localeCompare : string -> string -> Z) (campaigns : list Campaign.t)
         (male female : list CampaignPerformance.t) (row : CampaignPerformance.t),
    DemographicView.processCampaignPerformance localeCompare (document campaigns)
    = Normal (male, female) ->
    In row (male ++ female)%list ->
    CampaignPerformance.ctr row
    = (if 0 <? CampaignPerformance.clicks row
       then toFixed2 (CampaignPerformance.clicks row
                      / CampaignPerformance.impressions row * 100)
       else 0) /\
    CampaignPerformance.conversionRate row
    = (if 0 <? CampaignPerformance.clicks row
       then toFixed2 (CampaignPerformance.conversions row
                      / CampaignPerformance.clicks row * 100)
       else 0).
Proof.
  intros lc campaigns male female row Hout Hrow.
  apply performance_output in Hout. destruct Hout as (_ & -> & ->).
  assert (Hr : exists first rest,
             row = fold_left
                     (fun existing ce =>
                        DemographicView.performance_add existing
                          (DemographicView.performance_of (fst ce) (snd ce)))
                     rest (DemographicView.performance_of (fst first) (snd first))).
  { apply in_app_or in Hrow. destruct Hrow as [H|H];
      apply performance_row in H; destruct H as (first & rest & _ & H); eauto. }
  destruct Hr as (first & rest & ->).
  destruct rest as [|e rest] using rev_ind; [|clear IHrest].
  - apply performance_of_ratios.
  - rewrite fold_left_app. split; reflexivity.
Qed.

Lemma demographic_ratios_recomputed_witness :
  CampaignPerformance.ctr Samples.merged_young_men
  = (if 0 <? CampaignPerformance.clicks Samples.merged_young_men
     then toFixed2 (CampaignPerformance.clicks Samples.merged_young_men
                    / CampaignPerformance.impressions Samples.merged_young_men * 100)
     else 0) /\
  CampaignPerformance.conversionRate Samples.merged_young_men
  = (if 0 <? CampaignPerformance.clicks Samples.merged_young_men
     then toFixed2 (CampaignPerformance.conversions Samples.merged_young_men
                    / CampaignPerformance.clicks Samples.merged_young_men * 100)
     else 0).
Proof.
  apply (demographic_ratios_recomputed Samples.codeUnitCompare Samples.two_half_male
           [Samples.merged_young_men] []).
  - vm_compute. reflexivity.
  - simpl. left. reflexivity.
Defined.

(* ================================================================= *)
(** * Further properties of the views *)

(** ** The cards of the demographic and device views *)

Lemma fold_left_where {A B : Type} (f : A -> B -> A) (p : B -> bool)
    (proj : A -> number) (val : B -> number) :
  (forall a b, p b = true -> proj (f a b) = proj a + val b) ->
  (forall a b, p b = false -> proj (f a b) = proj a) ->
  forall l a, proj (fold_left f l a) = sum_from (proj a) (map val (filter p l)).
Proof.
  intros Hyes Hno. induction l as [|b l IH]; intros a; simpl; auto.
  rewrite IH. destruct (p b) eqn:Hp; simpl.
  - unfold sum_from. simpl. now rewrite (Hyes a b Hp).
  - now rewrite (Hno a b Hp).
Qed.

Ltac card_step :=
  intros ? [? ?] Hp; unfold visit_pair, is_gender, is_device in *; simpl in *;
  unfold DemographicView.metrics_visit, DeviceView.metrics_visit;
  try (apply String.eqb_eq in Hp; rewrite Hp; reflexivity);
  try (rewrite Hp; reflexivity);
  repeat match goal with
         | |- context [String.eqb ?x ?y] =>
             destruct (String.eqb x y) eqn:?; try rewrite Hp; try reflexivity;
             try discriminate
         end.

(** X6.  The six gender cards are sums over the demographic entries of that
    gender, in document order, starting from 0: the clicks card adds the
    rounded share of each campaign's clicks, the spend and revenue cards the
    unrounded shares. *)
Theorem gender_cards_are_sums :
  forall (campaigns : list Campaign.t) (metrics : DemographicMetrics.t),
    DemographicView.processDemographicMetrics (document campaigns) = Normal metrics ->
    let males := filter (is_gender "Male") (demographics_of campaigns) in
    let females := filter (is_gender "Female") (demographics_of campaigns) in
    DemographicMetrics.maleClicks metrics
    = sum_from 0 (map (rounded_demographic_share Campaign.clicks) males) /\
    DemographicMetrics.maleSpend metrics
    = sum_from 0 (map (demographic_share Campaign.spend) males) /\
    DemographicMetrics.maleRevenue metrics
    = sum_from 0 (map (demographic_share Campaign.revenue) males) /\
    DemographicMetrics.femaleClicks metrics
    = sum_from 0 (map (rounded_demographic_share Campaign.clicks) females) /\
    DemographicMetrics.femaleSpend metrics
    = sum_from 0 (map (demographic_share Campaign.spend) females) /\
    DemographicMetrics.femaleRevenue metrics
    = sum_from 0 (map (demographic_share Campaign.revenue) females).
Proof.
  intros campaigns metrics Hout males females.
  unfold DemographicView.processDemographicMetrics in Hout. simpl in Hout.
  apply forEach_breakdown_Normal in Hout. destruct Hout as [_ ->].
  repeat split.
  - apply (fold_left_where _ (is_gender "Male") DemographicMetrics.maleClicks
             (rounded_demographic_share Campaign.clicks)); card_step.
  - apply (fold_left_where _ (is_gender "Male") DemographicMetrics.maleSpend
             (demographic_share Campaign.spend)); card_step.
  - apply (fold_left_where _ (is_gender "Male") DemographicMetrics.maleRevenue
             (demographic_share Campaign.revenue)); card_step.
  - apply (fold_left_where _ (is_gender "Female") DemographicMetrics.femaleClicks
             (rounded_demographic_share Campaign.clicks)); card_step.
  - apply (fold_left_where _ (is_gender "Female") DemographicMetrics.femaleSpend
             (demographic_share Campaign.spend)); card_step.
  - apply (fold_left_where _ (is_gender "Female") DemographicMetrics.femaleRevenue
             (demographic_share Campaign.revenue)); card_step.
Qed.

Lemma gender_cards_are_sums_witness :
  DemographicMetrics.maleClicks (DemographicMetrics.mk 50 250 450 30 150 270)
  = sum_from 0 (map (rounded_demographic_share Campaign.clicks)
                    (filter (is_gender "Male")
                            (demographics_of [Samples.three_genders]))).
Proof.
  apply (gender_cards_are_sums [Samples.three_genders]
           (DemographicMetrics.mk 50 250 450 30 150 270)).
  vm_compute. reflexivity.
Defined.

(** X7.  The nine device cards are sums over the device entries of that
    device type, in document order, starting from 0: clicks add the rounded
    share of each campaign's clicks, spend and revenue the unrounded shares. *)
Theorem device_cards_are_sums :
  forall (campaigns : list Campaign.t) (metrics : DeviceMetrics.t),
    DeviceView.processDeviceMetrics (document campaigns) = Normal metrics ->
    let mobile := filter (is_device "Mobile") (devices_of campaigns) in
    let desktop := filter (is_device "Desktop") (devices_of campaigns) in
    let tablet := filter (is_device "Tablet") (devices_of campaigns) in
    (DeviceMetrics.mobileClicks metrics
     = sum_from 0 (map (rounded_device_share Campaign.clicks) mobile) /\
     DeviceMetrics.mobileSpend metrics
     = sum_from 0 (map (device_share Campaign.spend) mobile) /\
     DeviceMetrics.mobileRevenue metrics
     = sum_from 0 (map (device_share Campaign.revenue) mobile)) /\
    (DeviceMetrics.desktopClicks metrics
     = sum_from 0 (map (rounded_device_share Campaign.clicks) desktop) /\
     DeviceMetrics.desktopSpend metrics
     = sum_from 0 (map (device_share Campaign.spend) desktop) /\
     DeviceMetrics.desktopRevenue metrics
     = sum_from 0 (map (device_share Campaign.revenue) desktop)) /\
    (DeviceMetrics.tabletClicks metrics
     = sum_from 0 (map (rounded_device_share Campaign.clicks) tablet) /\
     DeviceMetrics.tabletSpend metrics
     = sum_from 0 (map (device_share Campaign.spend) tablet) /\
     DeviceMetrics.tabletRevenue metrics
     = sum_from 0 (map (device_share Campaign.revenue) tablet)).
Proof.
  intros campaigns metrics Hout mobile desktop tablet.
  unfold DeviceView.processDeviceMetrics in Hout. simpl in Hout.
  apply forEach_breakdown_Normal in Hout. destruct Hout as [_ ->].
  repeat split.
  - apply (fold_left_where _ (is_device "Mobile") DeviceMetrics.mobileClicks
             (rounded_device_share Campaign.clicks)); card_step.
  - apply (fold_left_where _ (is_device "Mobile") DeviceMetrics.mobileSpend
             (device_share Campaign.spend)); card_step.
  - apply (fold_left_where _ (is_device "Mobile") DeviceMetrics.mobileRevenue
             (device_share Campaign.revenue)); card_step.
  - apply (fold_left_where _ (is_device "Desktop") DeviceMetrics.desktopClicks
             (rounded_device_share Campaign.clicks)); card_step.
  - apply (fold_left_where _ (is_device "Desktop") DeviceMetrics.desktopSpend
             (device_share Campaign.spend)); card_step.
  - apply (fold_left_where _ (is_device "Desktop") DeviceMetrics.desktopRevenue
             (device_share Campaign.revenue)); card_step.
  - apply (fold_left_where _ (is_device "Tablet") DeviceMetrics.tabletClicks
             (rounded_device_share Campaign.clicks)); card_step.
  - apply (fold_left_where _ (is_device "Tablet") DeviceMetrics.tabletSpend
             (device_share Campaign.spend)); card_step.
  - apply (fold_left_where _ (is_device "Tablet") DeviceMetrics.tabletRevenue
             (device_share Campaign.revenue)); card_step.
Qed.

Lemma device_cards_are_sums_witness :
  DeviceMetrics.mobileClicks (DeviceMetrics.mk 60 300 540 30 150 270 0 0 0)
  = sum_from 0 (map (rounded_device_share Campaign.clicks)
                    (filter (is_device "Mobile") (devices_of [Samples.four_devices]))) /\
  DeviceMetrics.mobileSpend (DeviceMetrics.mk 60 300 540 30 150 270 0 0 0)
  = sum_from 0 (map (device_share Campaign.spend)
                    (filter (is_device "Mobile") (devices_of [Samples.four_devices]))) /\
  DeviceMetrics.mobileRevenue (DeviceMetrics.mk 60 300 540 30 150 270 0 0 0)
  = sum_from 0 (map (device_share Campaign.revenue)
                    (filter (is_device "Mobile") (devices_of [Samples.four_devices]))).
Proof.
  apply (device_cards_are_sums [Samples.four_devices]
           (DeviceMetrics.mk 60 300 540 30 150 270 0 0 0)).
  vm_compute. reflexivity.
Defined.

(** ** The device tables *)

Lemma device_tables_fold ces :
  forall t,
    let t' := fold_left (visit_pair DeviceView.performance_visit) ces t in
    DeviceView.Tables.mobile t'
    = (DeviceView.Tables.mobile t
       ++ map device_row (filter (is_device "Mobile") ces))%list /\
    DeviceView.Tables.desktop t'
    = (DeviceView.Tables.desktop t
       ++ map device_row (filter (is_device "Desktop") ces))%list /\
    DeviceView.Tables.tablet t'
    = (DeviceView.Tables.tablet t
       ++ map device_row (filter (is_device "Tablet") ces))%list.
Proof.
  induction ces as [|[c d] ces IH]; intros t; simpl.
  - now rewrite !app_nil_r.
  - destruct (IH (visit_pair DeviceView.performance_visit t (c, d))) as (Hm & Hd & Ht).
    rewrite Hm, Hd, Ht. clear IH Hm Hd Ht.
    unfold visit_pair, DeviceView.performance_visit, is_device. simpl.
    destruct (String.eqb (DeviceBreakdown.device_type d) "Mobile") eqn:Hmob.
    + apply String.eqb_eq in Hmob. rewrite Hmob. simpl.
      rewrite <- app_assoc. repeat split.
    + destruct (String.eqb (DeviceBreakdown.device_type d) "Desktop") eqn:Hdesk.
      * apply String.eqb_eq in Hdesk. rewrite Hdesk. simpl.
        rewrite <- app_assoc. repeat split.
      * destruct (String.eqb (DeviceBreakdown.device_type d) "Tablet") eqn:Htab; simpl.
        -- rewrite <- app_assoc. repeat split.
        -- repeat split.
Qed.

(** X9.  The device tables are not merged: the mobile table holds one row for
    every Mobile entry of every campaign, in document order, built from that
    entry alone, and so do the desktop and tablet tables. *)
Theorem device_tables_list_every_entry :
  forall (campaigns : list Campaign.t) (tables : DeviceView.Tables.t),
    DeviceView.processCampaignPerformanceByDevice (document campaigns) = Normal tables ->
    DeviceView.Tables.mobile tables
    = map device_row (filter (is_device "Mobile") (devices_of campaigns)) /\
    DeviceView.Tables.desktop tables
    = map device_row (filter (is_device "Desktop") (devices_of campaigns)) /\
    DeviceView.Tables.tablet tables
    = map device_row (filter (is_device "Tablet") (devices_of campaigns)).
Proof.
  intros campaigns tables Hout.
  unfold DeviceView.processCampaignPerformanceByDevice in Hout. simpl in Hout.
  apply forEach_breakdown_Normal in Hout. destruct Hout as [_ ->].
  apply (device_tables_fold (devices_of campaigns) (DeviceView.Tables.mk [] [] [])).
Qed.

Lemma device_tables_list_every_entry_witness :
  DeviceView.Tables.mobile
    (DeviceView.Tables.mk
       [ CampaignPerformanceByDevice.mk "Devices" "Mobile" 400 40 4 10 10;
         CampaignPerformanceByDevice.mk "Devices" "Mobile" 200 20 2 10 10 ]
       [ CampaignPerformanceByDevice.mk "Devices" "Desktop" 300 30 3 10 10 ]
       [])
  = map device_row (filter (is_device "Mobile") (devices_of [Samples.four_devices])).
Proof.
  apply (device_tables_list_every_entry [Samples.four_devices]).
  vm_compute. reflexivity.
Defined.

(** ** Device types outside Mobile, Desktop and Tablet *)

Lemma forEach_devices_filter {S : Type}
    (visit : Campaign.t -> S -> DeviceBreakdown.t -> S) :
  (forall c s device, visit (without_unknown_devices c) s device = visit c s device) ->
  (forall c s device, known_device device = false -> visit c s device = s) ->
  forall campaigns s,
    forEach_breakdown Campaign.device_breakdown visit
      (map without_unknown_devices campaigns) s
    = forEach_breakdown Campaign.device_breakdown visit campaigns s.
Proof.
  intros Hsame Hskip. induction campaigns as [|c cs IH]; intros s; simpl; auto.
  destruct (Campaign.device_breakdown c) as [l|]; simpl; auto.
  rewrite IH. f_equal.
  rewrite (fold_left_ext _ (visit c)) by (intros; apply Hsame).
  apply fold_left_filter_neutral. intros a b. apply Hskip.
Qed.

Lemma unknown_device device :
  known_device device = false ->
  String.eqb (DeviceBreakdown.device_type device) "Mobile" = false /\
  String.eqb (DeviceBreakdown.device_type device) "Desktop" = false /\
  String.eqb (DeviceBreakdown.device_type device) "Tablet" = false.
Proof.
  unfold known_device. intros H.
  apply orb_false_elim in H. destruct H as [H Ht].
  apply orb_false_elim in H. tauto.
Qed.

(** X8.  Device entries whose type is none of "Mobile", "Desktop" and
    "Tablet" count neither in the device cards nor in the device tables:
    dropping them changes neither result.  The spend and revenue charts do
    show them: the device type of every entry of the document is a label of
    both charts. *)
Theorem unknown_devices_charted_only :
  forall (campaigns : list Campaign.t),
    DeviceView.processDeviceMetrics (document (map without_unknown_devices campaigns))
    = DeviceView.processDeviceMetrics (document campaigns)
    /\
    DeviceView.processCampaignPerformanceByDevice
      (document (map without_unknown_devices campaigns))
    = DeviceView.processCampaignPerformanceByDevice (document campaigns)
    /\
    (forall spend_points revenue_points c l device,
       DeviceView.processDeviceChartData (document campaigns)
       = Normal (spend_points, revenue_points) ->
       In c campaigns ->
       Campaign.device_breakdown c = Some l ->
       In device l ->
       In (DeviceBreakdown.device_type device) (map ChartPoint.label spend_points) /\
       In (DeviceBreakdown.device_type device) (map ChartPoint.label revenue_points)).
Proof.
  intros campaigns. split; [|split].
  - unfold DeviceView.processDeviceMetrics. simpl. apply forEach_devices_filter.
    + intros [] s device. reflexivity.
    + intros c s device Hk. apply unknown_device in Hk. destruct Hk as (Hm & Hd & Ht).
      unfold DeviceView.metrics_visit. now rewrite Hm, Hd, Ht.
  - unfold DeviceView.processCampaignPerformanceByDevice. simpl.
    apply forEach_devices_filter.
    + intros [] s device. reflexivity.
    + intros c s device Hk. apply unknown_device in Hk. destruct Hk as (Hm & Hd & Ht).
      unfold DeviceView.performance_visit. now rewrite Hm, Hd, Ht.
  - intros spend_points revenue_points c l device Hout Hc Hl Hdev.
    apply chart_order in Hout. destruct Hout as [-> ->].
    assert (Hin : In (DeviceBreakdown.device_type device)
                     (first_seen (map device_of (devices_of campaigns)))).
    { apply first_seen_In.
      apply (in_map device_of (devices_of campaigns) (c, device)).
      eapply entries_of_In; eauto. }
    split; exact Hin.
Qed.

Lemma unknown_devices_charted_only_witness :
  In (DeviceBreakdown.device_type (DeviceBreakdown.mk "TV" 10))
     (map ChartPoint.label
          [ChartPoint.mk "Mobile" 300; ChartPoint.mk "Desktop" 150; ChartPoint.mk "TV" 50])
  /\
  In (DeviceBreakdown.device_type (DeviceBreakdown.mk "TV" 10))
     (map ChartPoint.label
          [ChartPoint.mk "Mobile" 540; ChartPoint.mk "Desktop" 270; ChartPoint.mk "TV" 90]).
Proof.
  apply (proj2 (proj2 (unknown_devices_charted_only [Samples.four_devices]))
           _ _ Samples.four_devices
           [ DeviceBreakdown.mk "Mobile" 40; DeviceBreakdown.mk "Desktop" 30;
             DeviceBreakdown.mk "Mobile" 20; DeviceBreakdown.mk "TV" 10 ]).
  - vm_compute. reflexivity.
  - simpl. left. reflexivity.
  - reflexivity.
  - simpl. tauto.
Defined.

(** ** Fetching twice *)

Lemma fill_device_breakdown_complete random campaigns :
  all_present Campaign.device_breakdown campaigns ->
  forall i, DeviceView.fill_device_breakdown random i campaigns = campaigns.
Proof.
  intros Hall. induction Hall as [|c cs Hc _ IH]; intros i; simpl; auto.
  destruct (Campaign.device_breakdown c); [|contradiction]. now rewrite IH.
Qed.

(** X10.  The device view's fetch is idempotent: a document it has produced
    has a device breakdown in every campaign, and fetching that document
    again, with any draws, returns it unchanged; so does fetching any document
    whose campaigns all have a device breakdown. *)
Theorem fetch_is_idempotent :
  forall (random random' : nat -> number) (result fetched : MarketingData.t),
    DeviceView.fetchData random result = Normal fetched ->
    DeviceView.fetchData random' fetched = Normal fetched /\
    (forall complete,
       all_present Campaign.device_breakdown complete ->
       DeviceView.fetchData random' (MarketingData.mk (Some complete))
       = Normal (MarketingData.mk (Some complete))).
Proof.
  intros random random' result fetched Hf.
  assert (Hcomplete : forall complete,
             all_present Campaign.device_breakdown complete ->
             DeviceView.fetchData random' (MarketingData.mk (Some complete))
             = Normal (MarketingData.mk (Some complete))).
  { intros complete Hall. unfold DeviceView.fetchData. simpl.
    now rewrite fill_device_breakdown_complete. }
  split; [|exact Hcomplete].
  unfold DeviceView.fetchData in Hf.
  destruct (MarketingData.campaigns result) as [cs|]; simpl in Hf; [|discriminate].
  inversion Hf. apply Hcomplete. apply fill_device_breakdown_present.
Qed.

Lemma fetch_is_idempotent_witness :
  DeviceView.fetchData (fun _ => 0.5)
    (MarketingData.mk (Some
       [ DeviceView.with_device_breakdown Samples.legacy_campaign
           [ DeviceBreakdown.mk "Mobile" 53.956834532374096;
             DeviceBreakdown.mk "Desktop" 35.97122302158273;
             DeviceBreakdown.mk "Tablet" 10.071942446043165 ] ]))
  = Normal
      (MarketingData.mk (Some
         [ DeviceView.with_device_breakdown Samples.legacy_campaign
             [ DeviceBreakdown.mk "Mobile" 53.956834532374096;
               DeviceBreakdown.mk "Desktop" 35.97122302158273;
               DeviceBreakdown.mk "Tablet" 10.071942446043165 ] ])).
Proof.
  apply (fetch_is_idempotent Samples.draws (fun _ => 0.5)
           (MarketingData.mk (Some [Samples.legacy_campaign]))).
  vm_compute. reflexivity.
Defined.

(** ** The rows of the male and female tables *)

Lemma performance_fold_gender rest :
  forall row,
    CampaignPerformance.gender
      (fold_left
         (fun existing ce =>
            DemographicView.performance_add existing
              (DemographicView.performance_of (fst ce) (snd ce)))
         rest row)
    = CampaignPerformance.gender row.
Proof.
  induction rest as [|e rest IH]; intros row; simpl; auto. now rewrite IH.
Qed.

Lemma gender_table_rows lc g ces :
  let table := Array_sort (DemographicView.by_performance_ageGroup lc)
                 (Map_values (fold_left performance_upsert (filter (is_gender g) ces) [])) in
  Forall (fun row => CampaignPerformance.gender row = g) table /\
  Permutation (map CampaignPerformance.ageGroup table)
    (first_seen (map age_of (filter (is_gender g) ces))) /\
  NoDup (map CampaignPerformance.ageGroup table).
Proof.
  intros table.
  assert (Hperm : Permutation (map CampaignPerformance.ageGroup table)
                    (first_seen (map age_of (filter (is_gender g) ces)))).
  { unfold table. rewrite (Array_sort_perm _ _).
    unfold performance_upsert.
    rewrite (upsert_fold_values_keys age_of _ _ CampaignPerformance.ageGroup);
      reflexivity. }
  split; [|split; [exact Hperm|]].
  - apply Forall_forall. intros row Hrow.
    apply performance_row in Hrow. destruct Hrow as (first & rest & Hf & ->).
    rewrite performance_fold_gender. simpl.
    assert (Hin : In first (filter (is_gender g) ces)).
    { assert (H : In first (first :: rest)) by now left.
      rewrite <- Hf in H. apply filter_In in H. tauto. }
    apply filter_In in Hin. destruct Hin as [_ Hg]. now apply String.eqb_eq in Hg.
  - apply (Permutation_NoDup (Permutation_sym Hperm)). apply first_seen_NoDup.
Qed.

(** X11.  Every row of the male table has gender "Male" and every row of the
    female table gender "Female"; each table has exactly one row for every
    age group that occurs among the entries of its gender, and none twice. *)
Theorem gender_tables_rows :
  forall (localeCompare : string -> string -> Z) (campaigns : list Campaign.t)
         (male female : list CampaignPerformance.t),
    DemographicView.processCampaignPerformance localeCompare (document campaigns)
    = Normal (male, female) ->
    (Forall (fun row => CampaignPerformance.gender row = "Male") male /\
     Permutation (map CampaignPerformance.ageGroup male)
       (first_seen (map age_of (filter (is_gender "Male") (demographics_of campaigns)))) /\
     NoDup (map CampaignPerformance.ageGroup male)) /\
    (Forall (fun row => CampaignPerformance.gender row = "Female") female /\
     Permutation (map CampaignPerformance.ageGroup female)
       (first_seen (map age_of (filter (is_gender "Female") (demographics_of campaigns)))) /\
     NoDup (map CampaignPerformance.ageGroup female)).
Proof.
  intros lc campaigns male female Hout.
  apply performance_output in Hout. destruct Hout as (_ & -> & ->).
  split; apply gender_table_rows.
Qed.

Lemma gender_tables_rows_witness :
  Forall (fun row => CampaignPerformance.gender row = "Male")
    [Samples.male_row "18-24" 500 50 5] /\
  Permutation (map CampaignPerformance.ageGroup [Samples.male_row "18-24" 500 50 5])
    (first_seen (map age_of (filter (is_gender "Male")
                                    (demographics_of [Samples.three_genders])))) /\
  NoDup (map CampaignPerformance.ageGroup [Samples.male_row "18-24" 500 50 5]).
Proof.
  apply (gender_tables_rows Samples.codeUnitCompare [Samples.three_genders]
           [Samples.male_row "18-24" 500 50 5]
           [CampaignPerformance.mk "18-24" "Female" 300 30 3 10 10]).
  vm_compute. reflexivity.
Defined.

(** ** The two age-group charts *)

Lemma sort_insert_map {A : Type} (lc : string -> string -> Z) (key : A -> string) x l :
  map key (sort_insert (fun a b => lc (key a) (key b)) x l)
  = sort_insert lc (key x) (map key l).
Proof.
  induction l as [|y l IH]; simpl; auto.
  destruct (lc (key x) (key y) <=? 0)%Z; simpl; auto. now rewrite IH.
Qed.

Lemma Array_sort_map {A : Type} (lc : string -> string -> Z) (key : A -> string) l :
  map key (Array_sort (fun a b => lc (key a) (key b)) l) = Array_sort lc (map key l).
Proof.
  induction l as [|x l IH]; simpl; auto. now rewrite sort_insert_map, IH.
Qed.

(** X12.  The spend chart and the revenue chart of the demographic view list
    the same age groups in the same order; every age group that occurs in the
    document, under any gender, is listed exactly once; and the value of a
    bar is the sum of the shares of the entries of its age group. *)
Theorem age_charts_are_aligned :
  forall (localeCompare : string -> string -> Z) (campaigns : list Campaign.t)
         (spend_bars revenue_bars : list ChartPoint.t),
    DemographicCharts.barData localeCompare (document campaigns)
    = Normal (spend_bars, revenue_bars) ->
    map ChartPoint.label spend_bars = map ChartPoint.label revenue_bars /\
    Permutation (map ChartPoint.label spend_bars)
      (first_seen (map age_of (demographics_of campaigns))) /\
    NoDup (map ChartPoint.label spend_bars) /\
    (forall bar, In bar spend_bars ->
       ChartPoint.value bar
       = sum_from 0 (map (demographic_share Campaign.spend)
                         (filter (has_key age_of (ChartPoint.label bar))
                                 (demographics_of campaigns)))) /\
    (forall bar, In bar revenue_bars ->
       ChartPoint.value bar
       = sum_from 0 (map (demographic_share Campaign.revenue)
                         (filter (has_key age_of (ChartPoint.label bar))
                                 (demographics_of campaigns)))).
Proof.
  intros lc campaigns spend_bars revenue_bars Hout.
  unfold DemographicCharts.barData in Hout.
  destruct (DemographicView.processAgeGroupData lc (document campaigns))
    as [[spend_rows revenue_rows]|] eqn:Hrows; simpl in Hout; [|discriminate].
  inversion Hout. subst spend_bars revenue_bars. clear Hout.
  destruct (age_rows_metrics lc campaigns spend_rows revenue_rows Hrows) as [Hs Hr].
  apply age_output in Hrows. destruct Hrows as (_ & Hsr & Hrr).
  assert (Hlabels : forall rows row_of,
             (forall e, AgeGroupData.ageGroup (row_of e) = fst e) ->
             rows = Array_sort (DemographicView.by_ageGroup lc)
                      (map row_of (fold_left age_upsert (demographics_of campaigns) [])) ->
             map AgeGroupData.ageGroup rows
             = Array_sort lc (Map_keys (fold_left age_upsert (demographics_of campaigns) []))).
  { intros rows row_of Hrow ->. unfold DemographicView.by_ageGroup.
    rewrite (Array_sort_map lc AgeGroupData.ageGroup), map_map.
    unfold Map_keys. f_equal. apply map_ext. exact Hrow. }
  assert (Hsl := Hlabels spend_rows DemographicView.spend_row (fun e => eq_refl) Hsr).
  assert (Hrl := Hlabels revenue_rows DemographicView.revenue_row (fun e => eq_refl) Hrr).
  rewrite !map_map. simpl.
  change (map (fun x => AgeGroupData.ageGroup x) spend_rows)
    with (map AgeGroupData.ageGroup spend_rows).
  change (map (fun x => AgeGroupData.ageGroup x) revenue_rows)
    with (map AgeGroupData.ageGroup revenue_rows).
  assert (Hperm : Permutation (map AgeGroupData.ageGroup spend_rows)
                    (first_seen (map age_of (demographics_of campaigns)))).
  { rewrite Hsl, (Array_sort_perm _ _). unfold age_upsert, shares_upsert.
    now rewrite Map_keys_upsert_all. }
  split; [congruence|]. split; [exact Hperm|]. split.
  - apply (Permutation_NoDup (Permutation_sym Hperm)). apply first_seen_NoDup.
  - split; intros bar Hbar; apply in_map_iff in Hbar;
      destruct Hbar as (row & <- & Hrow); simpl; auto.
Qed.

Lemma age_charts_are_aligned_witness :
  map ChartPoint.label [ChartPoint.mk "18-24" 400; ChartPoint.mk "25-34" 100]
  = map ChartPoint.label [ChartPoint.mk "18-24" 720; ChartPoint.mk "25-34" 180].
Proof.
  apply (age_charts_are_aligned Samples.codeUnitCompare [Samples.three_genders]).
  vm_compute. reflexivity.
Defined.

(** ** The weekly chart *)

Lemma weekly_keys_perm D campaigns out :
  WeeklyView.getAggregatedWeeklyData D (document campaigns) = Normal out ->
  Permutation (map WeeklyPerformance.week_start out)
    (first_seen (map WeeklyPerformance.week_start (weeks_of campaigns))).
Proof.
  intros Hout. apply weekly_output in Hout. destruct Hout as [_ ->].
  rewrite (Array_sort_perm _ _). now rewrite weekly_values_keys.
Qed.

(** X13.  The weekly chart has exactly one point for every distinct
    week-start string of the document: the points are the weekly buckets in
    their order, each with the rendered date as its name and the bucket's
    five sums as its values, and no week start has two buckets. *)
Theorem weekly_chart_one_point_per_week :
  forall (Date_getTime : string -> option Z) (toLocaleDateString : string -> string)
         (campaigns : list Campaign.t) (chart : list ChartDataPoint.t),
    WeeklyChart.chartData Date_getTime toLocaleDateString (document campaigns)
    = Normal chart ->
    exists buckets,
      WeeklyView.getAggregatedWeeklyData Date_getTime (document campaigns)
      = Normal buckets /\
      Permutation (map WeeklyPerformance.week_start buckets)
        (first_seen (map WeeklyPerformance.week_start (weeks_of campaigns))) /\
      NoDup (map WeeklyPerformance.week_start buckets) /\
      List.length chart
      = List.length (first_seen (map WeeklyPerformance.week_start (weeks_of campaigns))) /\
      map ChartDataPoint.name chart
      = map (fun b => toLocaleDateString (WeeklyPerformance.week_start b)) buckets /\
      map ChartDataPoint.revenue chart = map WeeklyPerformance.revenue buckets /\
      map ChartDataPoint.spend chart = map WeeklyPerformance.spend buckets /\
      map ChartDataPoint.impressions chart = map WeeklyPerformance.impressions buckets /\
      map ChartDataPoint.clicks chart = map WeeklyPerformance.clicks buckets /\
      map ChartDataPoint.conversions chart = map WeeklyPerformance.conversions buckets.
Proof.
  intros D fmt campaigns chart Hchart. unfold WeeklyChart.chartData in Hchart.
  destruct (WeeklyView.getAggregatedWeeklyData D (document campaigns))
    as [buckets|] eqn:Hout; simpl in Hchart; [|discriminate].
  inversion Hchart. subst chart. clear Hchart.
  exists buckets. split; [reflexivity|].
  pose proof (weekly_keys_perm D campaigns buckets Hout) as Hperm.
  split; [exact Hperm|]. split.
  - apply (Permutation_NoDup (Permutation_sym Hperm)). apply first_seen_NoDup.
  - split.
    + unfold WeeklyChart.transformWeeklyData. rewrite length_map.
      rewrite <- (Permutation_length Hperm). now rewrite length_map.
    + unfold WeeklyChart.transformWeeklyData. rewrite !map_map. repeat split.
Qed.

Lemma weekly_chart_one_point_per_week_witness :
  exists buckets,
    WeeklyView.getAggregatedWeeklyData Samples.sample_getTime
      (document Samples.weeks_latest_first) = Normal buckets /\
    Permutation (map WeeklyPerformance.week_start buckets)
      (first_seen (map WeeklyPerformance.week_start
                       (weeks_of Samples.weeks_latest_first))) /\
    NoDup (map WeeklyPerformance.week_start buckets) /\
    List.length
      [ ChartDataPoint.mk "Jan 1" 1 1 1 1 1; ChartDataPoint.mk "Jan 8" 6 6 6 6 6;
        ChartDataPoint.mk "Jan 15" 3 3 3 3 3 ]
    = List.length (first_seen (map WeeklyPerformance.week_start
                                   (weeks_of Samples.weeks_latest_first))) /\
    map ChartDataPoint.name
      [ ChartDataPoint.mk "Jan 1" 1 1 1 1 1; ChartDataPoint.mk "Jan 8" 6 6 6 6 6;
        ChartDataPoint.mk "Jan 15" 3 3 3 3 3 ]
    = map (fun b => Samples.sample_toLocaleDateString (WeeklyPerformance.week_start b))
          buckets /\
    map ChartDataPoint.revenue
      [ ChartDataPoint.mk "Jan 1" 1 1 1 1 1; ChartDataPoint.mk "Jan 8" 6 6 6 6 6;
        ChartDataPoint.mk "Jan 15" 3 3 3 3 3 ]
    = map WeeklyPerformance.revenue buckets /\
    map ChartDataPoint.spend
      [ ChartDataPoint.mk "Jan 1" 1 1 1 1 1; ChartDataPoint.mk "Jan 8" 6 6 6 6 6;
        ChartDataPoint.mk "Jan 15" 3 3 3 3 3 ]
    = map WeeklyPerformance.spend buckets /\
    map ChartDataPoint.impressions
      [ ChartDataPoint.mk "Jan 1" 1 1 1 1 1; ChartDataPoint.mk "Jan 8" 6 6 6 6 6;
        ChartDataPoint.mk "Jan 15" 3 3 3 3 3 ]
    = map WeeklyPerformance.impressions buckets /\
    map ChartDataPoint.clicks
      [ ChartDataPoint.mk "Jan 1" 1 1 1 1 1; ChartDataPoint.mk "Jan 8" 6 6 6 6 6;
        ChartDataPoint.mk "Jan 15" 3 3 3 3 3 ]
    = map WeeklyPerformance.clicks buckets /\
    map ChartDataPoint.conversions
      [ ChartDataPoint.mk "Jan 1" 1 1 1 1 1; ChartDataPoint.mk "Jan 8" 6 6 6 6 6;
        ChartDataPoint.mk "Jan 15" 3 3 3 3 3 ]
    = map WeeklyPerformance.conversions buckets.
Proof.
  apply (weekly_chart_one_point_per_week Samples.sample_getTime
           Samples.sample_toLocaleDateString Samples.weeks_latest_first).
  vm_compute. reflexivity.
Defined.

(** ** The order of the weeks does not depend on the order of the input *)

Lemma StronglySorted_map {A B : Type} (R : B -> B -> Prop) (f : A -> B) l :
  StronglySorted (fun a b => R (f a) (f b)) l -> StronglySorted R (map f l).
Proof.
  intros Hs. induction Hs as [|a l Hs IH Hall]; simpl; constructor; auto.
  rewrite Forall_forall in *. intros b Hb. apply in_map_iff in Hb.
  destruct Hb as (x & <- & Hx). auto.
Qed.

Lemma sorted_permutation_unique {A : Type} (R : A -> A -> Prop) :
  forall l1 l2,
    (forall a b, In a l1 -> In b l1 -> R a b -> R b a -> a = b) ->
    StronglySorted R l1 -> StronglySorted R l2 -> NoDup l1 ->
    Permutation l1 l2 -> l1 = l2.
Proof.
  induction l1 as [|a l1 IH]; intros l2 Hanti Hs1 Hs2 Hnd Hperm.
  - apply Permutation_nil in Hperm. now subst.
  - destruct l2 as [|b l2]; [apply Permutation_sym, Permutation_nil in Hperm; discriminate|].
    inversion Hs1 as [|? ? Hs1' Hall1]. inversion Hs2 as [|? ? Hs2' Hall2]. subst.
    rewrite Forall_forall in Hall1, Hall2.
    assert (Hab : a = b).
    { assert (Hb : In b (a :: l1))
        by (apply (Permutation_in _ (Permutation_sym Hperm)); now left).
      assert (Ha : In a (b :: l2)) by (apply (Permutation_in _ Hperm); now left).
      destruct Hb as [Hb|Hb]; [exact Hb|].
      destruct Ha as [Ha|Ha]; [now symmetry|].
      apply Hanti; simpl; auto. }
    subst b. f_equal. apply Permutation_cons_inv in Hperm.
    inversion Hnd. subst. apply IH; auto.
    intros x y Hx Hy. apply Hanti; now right.
Qed.

(** X14.  The sequence of week starts in the weekly output depends only on
    which week starts occur in the document, not on the order of campaigns and
    entries: two documents with the same week-start strings give the same
    sequence, when these strings are dates and different strings are
    different dates. *)
Theorem weekly_order_independent_of_input_order :
  forall (Date_getTime : string -> option Z) (campaigns campaigns' : list Campaign.t)
         (out out' : list WeeklyPerformance.t),
    WeeklyView.getAggregatedWeeklyData Date_getTime (document campaigns) = Normal out ->
    WeeklyView.getAggregatedWeeklyData Date_getTime (document campaigns') = Normal out' ->
    (forall k, In k (map WeeklyPerformance.week_start (weeks_of campaigns)) <->
               In k (map WeeklyPerformance.week_start (weeks_of campaigns'))) ->
    (forall k, In k (map WeeklyPerformance.week_start (weeks_of campaigns)) ->
               Date_getTime k <> None) ->
    (forall k k', In k (map WeeklyPerformance.week_start (weeks_of campaigns)) ->
                  In k' (map WeeklyPerformance.week_start (weeks_of campaigns)) ->
                  Date_getTime k = Date_getTime k' -> k = k') ->
    map WeeklyPerformance.week_start out = map WeeklyPerformance.week_start out'.
Proof.
  intros D cs cs' out out' Hout Hout' Hsame Hvalid Hinj.
  pose proof (weekly_keys_perm D cs out Hout) as Hp.
  pose proof (weekly_keys_perm D cs' out' Hout') as Hp'.
  assert (Hin : forall k, In k (map WeeklyPerformance.week_start out) <->
                          In k (map WeeklyPerformance.week_start (weeks_of cs))).
  { intros k. split; intros H.
    - apply first_seen_In. exact (Permutation_in _ Hp H).
    - apply first_seen_In in H. exact (Permutation_in _ (Permutation_sym Hp) H). }
  assert (Hin' : forall k, In k (map WeeklyPerformance.week_start out') <->
                           In k (map WeeklyPerformance.week_start (weeks_of cs'))).
  { intros k. split; intros H.
    - apply first_seen_In. exact (Permutation_in _ Hp' H).
    - apply first_seen_In in H. exact (Permutation_in _ (Permutation_sym Hp') H). }
  assert (Hnd : NoDup (map WeeklyPerformance.week_start out))
    by (apply (Permutation_NoDup (Permutation_sym Hp)); apply first_seen_NoDup).
  assert (Hnd' : NoDup (map WeeklyPerformance.week_start out'))
    by (apply (Permutation_NoDup (Permutation_sym Hp')); apply first_seen_NoDup).
  apply (sorted_permutation_unique (date_le D)); auto.
  - intros k k' Hk Hk'. apply Hin in Hk, Hk'. unfold date_le. intros H1 H2.
    apply Hinj; auto.
    destruct (D k) as [t|], (D k') as [t'|]; try contradiction. f_equal. lia.
  - apply StronglySorted_map. apply (weekly_sorted D cs out Hout).
    apply Forall_forall. intros w Hw. apply Hvalid. now apply in_map.
  - apply StronglySorted_map. apply (weekly_sorted D cs' out' Hout').
    apply Forall_forall. intros w Hw. apply Hvalid. apply Hsame. now apply in_map.
  - apply NoDup_Permutation; auto. intros k. rewrite Hin, Hin'. apply Hsame.
Qed.

Lemma weekly_order_independent_of_input_order_witness :
  map WeeklyPerformance.week_start
    [ Samples.week "2024-01-01" 1; Samples.week "2024-01-08" 6;
      Samples.week "2024-01-15" 3 ]
  = map WeeklyPerformance.week_start
      [ Samples.week "2024-01-01" 1; Samples.week "2024-01-08" 6;
        Samples.week "2024-01-15" 3 ].
Proof.
  apply (weekly_order_independent_of_input_order Samples.sample_getTime
           Samples.weeks_latest_first Samples.weeks_other_order).
  - vm_compute. reflexivity.
  - vm_compute. reflexivity.
  - intros k. simpl. tauto.
  - intros k Hk. simpl in Hk.
    destruct Hk as [<-|[<-|[<-|[<-|[]]]]]; vm_compute; discriminate.
  - intros k k' Hk Hk'. simpl in Hk, Hk'.
    destruct Hk as [<-|[<-|[<-|[<-|[]]]]];
      destruct Hk' as [<-|[<-|[<-|[<-|[]]]]];
      vm_compute; intros H; try reflexivity; discriminate H.
Defined.

(** ** The regional buckets and the bubble maps *)

Lemma hyphen_key_injective a a' b b' :
  no_hyphen a = true -> no_hyphen a' = true ->
  (a ++ "-" ++ b)%string = (a' ++ "-" ++ b')%string -> a = a' /\ b = b'.
Proof.
  revert a'. induction a as [|c a IH]; intros [|c' a'] Ha Ha' Heq; simpl in *.
  - inversion Heq. auto.
  - inversion Heq. subst c'. rewrite Ascii.eqb_refl in Ha'. discriminate.
  - inversion Heq. subst c. rewrite Ascii.eqb_refl in Ha. discriminate.
  - inversion Heq. subst c'.
    apply andb_true_iff in Ha, Ha'. destruct Ha as [_ Ha]. destruct Ha' as [_ Ha'].
    destruct (IH a' Ha Ha' H1) as [-> ->]. auto.
Qed.

Lemma merged_fold_place rest first :
  place_of (fold_left RegionView.merged rest first) = place_of first.
Proof.
  revert first. induction rest as [|r rest IH]; intros first; simpl; auto.
  now rewrite IH.
Qed.

Lemma NoDup_map_filter {A B : Type} (g : A -> B) (f : A -> bool) l :
  NoDup (map g l) -> NoDup (map g (filter f l)).
Proof.
  induction l as [|a l IH]; simpl; intros Hnd; [constructor|].
  inversion Hnd as [|? ? Hnotin Hnd']. subst.
  destruct (f a); simpl; auto. constructor; auto.
  intros Hin. apply Hnotin. apply in_map_iff in Hin. destruct Hin as (x & Hx & Hin).
  apply filter_In in Hin. apply in_map_iff. exists x. tauto.
Qed.

Lemma regional_places_NoDup campaigns out :
  RegionView.getAggregatedRegionalData (document campaigns) = Normal out ->
  NoDup (map place_of out).
Proof.
  intros Hout. pose proof (regional_order campaigns out Hout) as Hkeys.
  assert (Hnd : NoDup (map RegionView.key_of out))
    by (rewrite Hkeys; apply first_seen_NoDup).
  replace (map RegionView.key_of out)
    with (map (fun pl : string * string => (fst pl ++ "-" ++ snd pl)%string)
              (map place_of out)) in Hnd
    by (rewrite map_map; reflexivity).
  exact (NoDup_map_inv _ _ Hnd).
Qed.

(** X15.  No two buckets of [getAggregatedRegionalData] have the same region
    and country, whatever the names are; and when no region name of the
    document contains a hyphen, every bucket is the merge, in document order,
    of exactly the entries that have its region and its country. *)
Theorem regional_bucket_is_one_place :
  forall (campaigns : list Campaign.t) (out : list RegionalPerformance.t),
    RegionView.getAggregatedRegionalData (document campaigns) = Normal out ->
    NoDup (map place_of out) /\
    (Forall (fun r => no_hyphen (RegionalPerformance.region r) = true)
            (regions_of campaigns) ->
     forall b, In b out ->
       exists first rest,
         filter (same_place b) (regions_of campaigns) = first :: rest /\
         b = fold_left RegionView.merged rest first).
Proof.
  intros campaigns out Hout.
  split; [exact (regional_places_NoDup campaigns out Hout)|].
  intros Hnames b Hb.
  destruct (regional_bucket campaigns out b Hout Hb) as (first & rest & Hf & Hbucket).
  exists first, rest. split; [|exact Hbucket].
  rewrite <- Hf. apply filter_ext_in. intros r Hr.
  rewrite Forall_forall in Hnames.
  assert (Hfirst : In first (regions_of campaigns)).
  { assert (H : In first (filter (has_key RegionView.key_of (RegionView.key_of b))
                            (regions_of campaigns))) by (rewrite Hf; now left).
    now apply filter_In in H. }
  assert (Hplace : place_of b = place_of first)
    by (rewrite Hbucket; apply merged_fold_place).
  unfold place_of in Hplace. inversion Hplace as [[Hregion Hcountry]].
  unfold same_place, has_key.
  destruct (String.eqb (RegionView.key_of r) (RegionView.key_of b)) eqn:Hk.
  - apply String.eqb_eq in Hk. unfold RegionView.key_of in Hk.
    apply hyphen_key_injective in Hk;
      [|now apply Hnames | rewrite Hregion; now apply Hnames].
    destruct Hk as [-> ->]. now rewrite !String.eqb_refl.
  - apply andb_false_iff.
    destruct (String.eqb (RegionalPerformance.region r) (RegionalPerformance.region b))
      eqn:Hr1; [|now left].
    destruct (String.eqb (RegionalPerformance.country r) (RegionalPerformance.country b))
      eqn:Hr2; [|now right].
    apply String.eqb_eq in Hr1, Hr2. unfold RegionView.key_of in Hk.
    rewrite Hr1, Hr2, String.eqb_refl in Hk. discriminate.
Qed.

Lemma regional_bucket_is_one_place_witness :
  NoDup (map place_of [Samples.dubai_bucket; Samples.atlantis]) /\
  exists first rest,
    filter (same_place Samples.dubai_bucket) (regions_of Samples.dubai_twice)
    = first :: rest /\
    Samples.dubai_bucket = fold_left RegionView.merged rest first.
Proof.
  destruct (regional_bucket_is_one_place Samples.dubai_twice
              [Samples.dubai_bucket; Samples.atlantis]) as [Hplaces Hbuckets].
  - vm_compute. reflexivity.
  - split; [exact Hplaces|].
    apply Hbuckets; [repeat constructor | left; reflexivity].
Defined.

Lemma transform_fst regionalData v :
  fst (BubbleMap.transformRegionalDataForBubbleMap regionalData v)
  = map (bubble_of v)
        (filter (fun r => located (RegionalPerformance.region r)) regionalData).
Proof.
  induction regionalData as [|item rest IH]; simpl; [reflexivity|].
  destruct (BubbleMap.transformRegionalDataForBubbleMap rest v) as [ps ws].
  simpl in IH. subst ps.
  assert (Hl : located (RegionalPerformance.region item)
               = match BubbleMap.CITY_COORDINATES (RegionalPerformance.region item) with
                 | BubbleMap.Undefined => false
                 | _ => true
                 end) by reflexivity.
  assert (Hb : bubble_of v item
               = match BubbleMap.CITY_COORDINATES (RegionalPerformance.region item) with
                 | BubbleMap.Coordinates lat lng =>
                     BubbleMap.point_of item v (Some lat) (Some lng)
                 | _ => BubbleMap.point_of item v None None
                 end) by reflexivity.
  unfold BubbleMap.transform_item.
  destruct (BubbleMap.CITY_COORDINATES (RegionalPerformance.region item)) eqn:Hc;
    rewrite Hl; simpl; rewrite ?Hb; reflexivity.
Qed.

Lemma transform_snd regionalData v :
  snd (BubbleMap.transformRegionalDataForBubbleMap regionalData v)
  = map (fun r => warning_of (RegionalPerformance.region r))
        (filter (fun r => negb (located (RegionalPerformance.region r))) regionalData).
Proof.
  induction regionalData as [|item rest IH]; simpl; [reflexivity|].
  destruct (BubbleMap.transformRegionalDataForBubbleMap rest v) as [ps ws].
  simpl in IH. subst ws.
  assert (Hl : located (RegionalPerformance.region item)
               = match BubbleMap.CITY_COORDINATES (RegionalPerformance.region item) with
                 | BubbleMap.Undefined => false
                 | _ => true
                 end) by reflexivity.
  unfold BubbleMap.transform_item.
  destruct (BubbleMap.CITY_COORDINATES (RegionalPerformance.region item)) eqn:Hc;
    rewrite Hl; simpl; reflexivity.
Qed.

Lemma filter_partition_length {A : Type} (f : A -> bool) l :
  (List.length (filter f l) + List.length (filter (fun a => negb (f a)) l))%nat
  = List.length l.
Proof.
  induction l as [|a l IH]; simpl; [reflexivity|].
  destruct (f a); simpl; lia.
Qed.

Lemma transform_partition regionalData v :
  map bubble_place (fst (BubbleMap.transformRegionalDataForBubbleMap regionalData v))
  = map place_of
        (filter (fun r => located (RegionalPerformance.region r)) regionalData) /\
  (List.length (fst (BubbleMap.transformRegionalDataForBubbleMap regionalData v))
   + List.length (snd (BubbleMap.transformRegionalDataForBubbleMap regionalData v)))%nat
  = List.length regionalData.
Proof.
  rewrite transform_fst, transform_snd. split.
  - rewrite map_map. apply map_ext. intros r. unfold bubble_of.
    now destruct (BubbleMap.CITY_COORDINATES (RegionalPerformance.region r)).
  - rewrite !length_map. apply filter_partition_length.
Qed.

(** X16.  [transformRegionalDataForBubbleMap] splits its input, keeping the
    order: the points are those of the records whose region reads as truthy in
    the coordinate table, each with the region, the country and the selected
    metric of its record; the warnings are those of the other records; so
    every record gives exactly one point or one warning. *)
Theorem bubble_points_and_warnings_partition :
  forall (regionalData : list RegionalPerformance.t) (v : BubbleMap.valueType),
    let located_records :=
      filter (fun r => located (RegionalPerformance.region r)) regionalData in
    let other_records :=
      filter (fun r => negb (located (RegionalPerformance.region r))) regionalData in
    let points := fst (BubbleMap.transformRegionalDataForBubbleMap regionalData v) in
    let warnings := snd (BubbleMap.transformRegionalDataForBubbleMap regionalData v) in
    map bubble_place points = map place_of located_records /\
    map BubbleMapDataPoint.value points
    = map (fun r => BubbleMap.pick r v) located_records /\
    warnings = map (fun r => warning_of (RegionalPerformance.region r)) other_records /\
    (List.length points + List.length warnings)%nat = List.length regionalData.
Proof.
  intros regionalData v located_records other_records points warnings.
  subst points warnings. rewrite transform_fst, transform_snd.
  fold located_records. fold other_records.
  assert (Hplace : forall r, bubble_place (bubble_of v r) = place_of r).
  { intros r. unfold bubble_of.
    now destruct (BubbleMap.CITY_COORDINATES (RegionalPerformance.region r)). }
  assert (Hvalue : forall r, BubbleMapDataPoint.value (bubble_of v r) = BubbleMap.pick r v).
  { intros r. unfold bubble_of.
    now destruct (BubbleMap.CITY_COORDINATES (RegionalPerformance.region r)). }
  split; [|split; [|split]].
  - rewrite map_map. apply map_ext. exact Hplace.
  - rewrite map_map. apply map_ext. exact Hvalue.
  - reflexivity.
  - rewrite !length_map. apply filter_partition_length.
Qed.

Lemma pick_merged_fold v rest first :
  BubbleMap.pick (fold_left RegionView.merged rest first) v
  = sum_from (BubbleMap.pick first v) (map (fun r => BubbleMap.pick r v) rest).
Proof.
  destruct v; simpl;
    [ apply (fold_left_project RegionView.merged RegionalPerformance.revenue)
    | apply (fold_left_project RegionView.merged RegionalPerformance.spend)
    | apply (fold_left_project RegionView.merged RegionalPerformance.impressions)
    | apply (fold_left_project RegionView.merged RegionalPerformance.clicks)
    | apply (fold_left_project RegionView.merged RegionalPerformance.conversions) ];
    reflexivity.
Qed.

(** X17.  On the region page every bubble of a map is one bucket of the
    regional aggregation: its value is the sum, in document order, of the
    selected metric over the regional entries whose key is its region and
    country joined by a hyphen; no two bubbles of a map have the same region
    and country; and bubbles and warnings together are as many as there are
    distinct keys in the document. *)
Theorem region_map_values_are_sums :
  forall (v : BubbleMap.valueType) (campaigns : list Campaign.t)
         (points : list BubbleMapDataPoint.t) (warnings : list string),
    RegionMaps.bubbleMapData v (document campaigns) = Normal (points, warnings) ->
    NoDup (map bubble_place points) /\
    (List.length points + List.length warnings)%nat
    = List.length (first_seen (map RegionView.key_of (regions_of campaigns))) /\
    forall p, In p points ->
      exists first rest,
        filter (has_key RegionView.key_of
                  (BubbleMapDataPoint.region p ++ "-" ++ BubbleMapDataPoint.country p)%string)
               (regions_of campaigns)
        = first :: rest /\
        bubble_place p = place_of first /\
        BubbleMapDataPoint.value p
        = sum_from (BubbleMap.pick first v) (map (fun r => BubbleMap.pick r v) rest).
Proof.
  intros v campaigns points warnings Hmap. unfold RegionMaps.bubbleMapData in Hmap.
  destruct (RegionView.getAggregatedRegionalData (document campaigns))
    as [out|] eqn:Hout; simpl in Hmap; [|discriminate].
  inversion Hmap as [Hpair]. clear Hmap.
  assert (Hpoints : points = fst (BubbleMap.transformRegionalDataForBubbleMap out v))
    by now rewrite Hpair.
  assert (Hwarnings : warnings = snd (BubbleMap.transformRegionalDataForBubbleMap out v))
    by now rewrite Hpair.
  clear Hpair.
  destruct (transform_partition out v) as (Hplaces & Hlen).
  rewrite <- Hpoints in Hplaces, Hlen. rewrite <- Hwarnings in Hlen.
  split; [|split].
  - rewrite Hplaces. apply NoDup_map_filter.
    exact (regional_places_NoDup campaigns out Hout).
  - rewrite Hlen. rewrite <- (regional_order campaigns out Hout). now rewrite length_map.
  - intros p Hp. rewrite Hpoints, transform_fst in Hp.
    apply in_map_iff in Hp. destruct Hp as (b & <- & Hb). apply filter_In in Hb.
    destruct Hb as [Hb _].
    destruct (regional_bucket campaigns out b Hout Hb) as (first & rest & Hf & Hbucket).
    exists first, rest.
    assert (Hplace : bubble_place (bubble_of v b) = place_of b).
    { unfold bubble_of.
      now destruct (BubbleMap.CITY_COORDINATES (RegionalPerformance.region b)). }
    assert (Hvalue : BubbleMapDataPoint.value (bubble_of v b) = BubbleMap.pick b v).
    { unfold bubble_of.
      now destruct (BubbleMap.CITY_COORDINATES (RegionalPerformance.region b)). }
    split; [|split].
    + unfold bubble_place in Hplace. unfold place_of in Hplace.
      inversion Hplace as [[Hr Hc]]. rewrite Hr, Hc. exact Hf.
    + rewrite Hplace, Hbucket. apply merged_fold_place.
    + rewrite Hvalue, Hbucket. apply pick_merged_fold.
Qed.

Lemma region_map_values_are_sums_witness :
  NoDup (map bubble_place [bubble_of BubbleMap.revenue Samples.dubai_bucket]) /\
  (List.length [bubble_of BubbleMap.revenue Samples.dubai_bucket]
   + List.length [warning_of "Atlantis"])%nat
  = List.length (first_seen (map RegionView.key_of (regions_of Samples.dubai_twice))) /\
  forall p, In p [bubble_of BubbleMap.revenue Samples.dubai_bucket] ->
    exists first rest,
      filter (has_key RegionView.key_of
                (BubbleMapDataPoint.region p ++ "-" ++ BubbleMapDataPoint.country p)%string)
             (regions_of Samples.dubai_twice)
      = first :: rest /\
      bubble_place p = place_of first /\
      BubbleMapDataPoint.value p
      = sum_from (BubbleMap.pick first BubbleMap.revenue)
                 (map (fun r => BubbleMap.pick r BubbleMap.revenue) rest).
Proof.
  apply (region_map_values_are_sums BubbleMap.revenue Samples.dubai_twice).
  vm_compute. reflexivity.
Defined.

(** ** The pages: fetch, state and render *)

Lemma present_or_absent {E : Type} (field : Campaign.t -> option (list E)) campaigns :
  all_present field campaigns \/ Exists (fun c => field c = None) campaigns.
Proof.
  induction campaigns as [|c cs [IH|IH]].
  - left. constructor.
  - destruct (field c) eqn:Hc.
    + left. constructor; [congruence|exact IH].
    + right. now constructor.
  - right. now constructor 2.
Qed.

Lemma final_in_states s updates :
  In (ViewState.final s updates) (ViewState.states s updates).
Proof.
  unfold ViewState.final. revert s.
  induction updates as [|u us IH]; intros s; simpl; auto.
Qed.

Lemma device_render_present s :
  (forall cs, optional_campaigns (ViewState.data s) = Some cs ->
              all_present Campaign.device_breakdown cs) ->
  exists content, DevicePage.render s = Normal (ViewState.choose s content).
Proof.
  intros H. unfold DevicePage.render, DeviceView.processDeviceMetrics,
    DeviceView.processDeviceChartData, DeviceView.processCampaignPerformanceByDevice.
  destruct (optional_campaigns (ViewState.data s)) as [cs|] eqn:Hcs.
  - specialize (H cs eq_refl). rewrite !(forEach_breakdown_present _ _ H). simpl. eauto.
  - simpl. eauto.
Qed.

(** X18.  The device page never throws while rendering, whatever the fetch
    comes to and whether or not a render happens between two of its state
    updates: in every state from the initial one to the final one the three
    device functions return.  The first render shows the loading screen, the
    final one does not, and the final state holds either a document or an
    error message, never both and never neither. *)
Theorem device_page_renders_in_every_state :
  forall (random : nat -> number) (TypeError_message : string)
         (outcome : DemographicPage.fetched),
    let updates := DevicePage.fetchData random TypeError_message outcome in
    (forall s, In s (ViewState.states ViewState.initial updates) ->
               exists screen, DevicePage.render s = Normal screen) /\
    DevicePage.render ViewState.initial = Normal ViewState.Loading /\
    (exists screen,
       DevicePage.render (ViewState.final ViewState.initial updates) = Normal screen /\
       screen <> ViewState.Loading) /\
    ViewState.loading (ViewState.final ViewState.initial updates) = false /\
    has_data (ViewState.final ViewState.initial updates)
    = negb (has_error (ViewState.final ViewState.initial updates)).
Proof.
  intros random msg outcome updates.
  assert (Hstates :
    forall s, In s (ViewState.states ViewState.initial updates) ->
      (forall cs, optional_campaigns (ViewState.data s) = Some cs ->
                  all_present Campaign.device_breakdown cs) /\
      (s = ViewState.final ViewState.initial updates ->
       ViewState.loading s = false /\ has_data s = negb (has_error s))).
  { subst updates. unfold DevicePage.fetchData.
    assert (Hfailed : forall m s,
      In s (ViewState.states ViewState.initial
              [ViewState.setError m; ViewState.setLoading false]) ->
      (forall cs, optional_campaigns (ViewState.data s) = Some cs ->
                  all_present Campaign.device_breakdown cs) /\
      (s = ViewState.final ViewState.initial
             [ViewState.setError m; ViewState.setLoading false] ->
       ViewState.loading s = false /\ has_data s = negb (has_error s))).
    { intros m s Hs. simpl in Hs.
      destruct Hs as [<-|[<-|[<-|[]]]]; (split; [discriminate|]);
        unfold ViewState.final; simpl; intros Heq; try discriminate Heq; auto. }
    destruct outcome as [err|[|] [err|result]]; simpl; try apply Hfailed.
    unfold DeviceView.fetchData.
    destruct (MarketingData.campaigns result) as [cs|]; simpl; try apply Hfailed.
    intros s Hs. destruct Hs as [<-|[<-|[<-|[]]]]; simpl.
    - split; [discriminate|]. unfold ViewState.final. simpl. discriminate.
    - split.
      + intros cs' Hcs'. inversion Hcs'. apply fill_device_breakdown_present.
      + unfold ViewState.final. simpl. discriminate.
    - split.
      + intros cs' Hcs'. inversion Hcs'. apply fill_device_breakdown_present.
      + auto. }
  assert (Hfinal : In (ViewState.final ViewState.initial updates)
                      (ViewState.states ViewState.initial updates)).
  { apply final_in_states. }
  split; [|split; [|split; [|split]]].
  - intros s Hs. destruct (Hstates s Hs) as [Hpresent _].
    destruct (device_render_present s Hpresent) as [content ->]. eauto.
  - reflexivity.
  - destruct (Hstates _ Hfinal) as [Hpresent Hloading].
    destruct (Hloading eq_refl) as [Hl _].
    destruct (device_render_present _ Hpresent) as [content ->].
    eexists. split; [reflexivity|].
    unfold ViewState.choose. rewrite Hl.
    destruct (ViewState.error (ViewState.final ViewState.initial updates)) as [m|];
      [destruct (String.eqb m "")|]; discriminate.
  - destruct (Hstates _ Hfinal) as [_ Hloading]. now destruct (Hloading eq_refl).
  - destruct (Hstates _ Hfinal) as [_ Hloading]. now destruct (Hloading eq_refl).
Qed.

Lemma demographic_render_present localeCompare s cs :
  optional_campaigns (ViewState.data s) = Some cs ->
  all_present Campaign.demographic_breakdown cs ->
  exists content,
    DemographicPage.render localeCompare s = Normal (ViewState.choose s content).
Proof.
  intros Hcs H. unfold DemographicPage.render, DemographicCharts.barData,
    DemographicView.processDemographicMetrics, DemographicView.processAgeGroupData,
    DemographicView.processCampaignPerformance.
  rewrite Hcs. rewrite !(forEach_breakdown_present _ _ H). simpl. eauto.
Qed.

(** X19.  Once a document with campaigns is fetched, the demographic page
    throws while rendering exactly when one of the campaigns has no
    demographic breakdown, in the state before the loading flag is cleared as
    in the final one; with a breakdown in every campaign the final render
    shows the dashboard. *)
Theorem demographic_page_throws_without_breakdown :
  forall (localeCompare : string -> string -> Z) (result : MarketingData.t)
         (campaigns : list Campaign.t),
    MarketingData.campaigns result = Some campaigns ->
    let updates := DemographicPage.fetchData (fetched_document result) in
    ViewState.states ViewState.initial updates
    = [ ViewState.initial; ViewState.mk (Some result) true None;
        ViewState.mk (Some result) false None ] /\
    DemographicPage.render localeCompare ViewState.initial = Normal ViewState.Loading /\
    (DemographicPage.render localeCompare (ViewState.mk (Some result) true None)
     = TypeError <->
     exists c, In c campaigns /\ Campaign.demographic_breakdown c = None) /\
    (DemographicPage.render localeCompare (ViewState.final ViewState.initial updates)
     = TypeError <->
     exists c, In c campaigns /\ Campaign.demographic_breakdown c = None) /\
    ((forall c, In c campaigns -> Campaign.demographic_breakdown c <> None) ->
     exists content,
       DemographicPage.render localeCompare (ViewState.final ViewState.initial updates)
       = Normal (ViewState.Dashboard content)).
Proof.
  intros lc result campaigns Hcs updates. subst updates.
  assert (Hthrows : forall l,
    DemographicPage.render lc (ViewState.mk (Some result) l None) = TypeError <->
    exists c, In c campaigns /\ Campaign.demographic_breakdown c = None).
  { intros l. split.
    - intros Hrender.
      destruct (present_or_absent Campaign.demographic_breakdown campaigns) as [Hall|Hex].
      + destruct (demographic_render_present lc (ViewState.mk (Some result) l None)
                    campaigns Hcs Hall) as [content Hok].
        rewrite Hok in Hrender. discriminate.
      + apply Exists_exists in Hex. exact Hex.
    - intros (c & Hin & Hc). unfold DemographicPage.render,
        DemographicView.processDemographicMetrics. simpl. rewrite Hcs.
      now rewrite (forEach_breakdown_missing _ _ campaigns c _ Hin Hc). }
  split; [reflexivity|]. split; [reflexivity|]. split; [apply Hthrows|].
  split; [apply Hthrows|].
  intros Hall.
  destruct (demographic_render_present lc (ViewState.mk (Some result) false None)
              campaigns Hcs) as [content Hok].
  - apply Forall_forall. exact Hall.
  - exists content. exact Hok.
Qed.

Lemma demographic_page_throws_without_breakdown_witness :
  ViewState.states ViewState.initial
    (DemographicPage.fetchData
       (fetched_document (MarketingData.mk (Some [Samples.no_demographics]))))
  = [ ViewState.initial;
      ViewState.mk (Some (MarketingData.mk (Some [Samples.no_demographics]))) true None;
      ViewState.mk (Some (MarketingData.mk (Some [Samples.no_demographics]))) false None ] /\
  DemographicPage.render Samples.codeUnitCompare ViewState.initial
  = Normal ViewState.Loading /\
  (DemographicPage.render Samples.codeUnitCompare
     (ViewState.mk (Some (MarketingData.mk (Some [Samples.no_demographics]))) true None)
   = TypeError <->
   exists c, In c [Samples.no_demographics] /\ Campaign.demographic_breakdown c = None) /\
  (DemographicPage.render Samples.codeUnitCompare
     (ViewState.final ViewState.initial
        (DemographicPage.fetchData
           (fetched_document (MarketingData.mk (Some [Samples.no_demographics])))))
   = TypeError <->
   exists c, In c [Samples.no_demographics] /\ Campaign.demographic_breakdown c = None) /\
  ((forall c, In c [Samples.no_demographics] -> Campaign.demographic_breakdown c <> None) ->
   exists content,
     DemographicPage.render Samples.codeUnitCompare
       (ViewState.final ViewState.initial
          (DemographicPage.fetchData
             (fetched_document (MarketingData.mk (Some [Samples.no_demographics])))))
     = Normal (ViewState.Dashboard content)).
Proof.
  apply (demographic_page_throws_without_breakdown Samples.codeUnitCompare
           (MarketingData.mk (Some [Samples.no_demographics])) [Samples.no_demographics]).
  reflexivity.
Defined.

(** ** The colour scale of the bubbles *)

Lemma div_core_self m e :
  SFdiv_core_binary prec emax (Z.pos m) e (Z.pos m) e
  = ((2 ^ 53)%Z, (-53)%Z, loc_Exact).
Proof.
  unfold SFdiv_core_binary. rewrite !Z.sub_diag.
  change (Z.min (fexp prec emax 0) 0) with (-53)%Z.
  change (0 - -53)%Z with 53%Z. cbv iota.
  assert (Hm : Z.shiftl (Z.pos m) 53 = (2 ^ 53 * Z.pos m)%Z)
    by (rewrite Z.shiftl_mul_pow2; lia).
  rewrite Hm.
  pose proof (Z_div_mod (2 ^ 53 * Z.pos m) (Z.pos m) eq_refl) as Hdiv.
  destruct (Z.div_eucl (2 ^ 53 * Z.pos m) (Z.pos m)) as [q r].
  destruct Hdiv as [Heq Hr].
  assert (Hq : q = (2 ^ 53)%Z /\ r = 0%Z).
  { assert (Hr0 : r = ((2 ^ 53 - q) * Z.pos m)%Z) by lia.
    assert (H0 : (2 ^ 53 - q = 0)%Z) by nia. split; lia. }
  destruct Hq as [-> ->].
  unfold new_location, new_location_even, new_location_odd.
  now destruct (Z.even (Z.pos m)).
Qed.

Lemma div_self x :
  finite_nonzero x = true -> (x / x = 1)%float.
Proof.
  unfold finite_nonzero. intros H.
  rewrite <- (SF2Prim_Prim2SF (x / x)), div_spec.
  destruct (Prim2SF x) as [s0|s0| |s m e]; try discriminate.
  unfold SF64div, SFdiv. rewrite div_core_self.
  destruct s; vm_compute; reflexivity.
Qed.

Lemma zero_div d :
  finite_nonzero d = true -> (0 / d = 0)%float \/ (0 / d = neg_zero)%float.
Proof.
  unfold finite_nonzero. intros H.
  rewrite <- (SF2Prim_Prim2SF (0 / d)), div_spec.
  destruct (Prim2SF d) as [s0|s0| |s m e]; try discriminate.
  change (Prim2SF 0) with (S754_zero false).
  destruct s; [right|left]; reflexivity.
Qed.

Lemma sub_self_of_finite_spread hi lo :
  finite_nonzero (hi - lo) = true -> (lo - lo = 0)%float.
Proof.
  unfold finite_nonzero. intros H. rewrite sub_spec in H.
  rewrite <- (SF2Prim_Prim2SF (lo - lo)), sub_spec.
  destruct (Prim2SF lo) as [sl|sl| |sl ml el].
  - destruct sl; reflexivity.
  - destruct (Prim2SF hi) as [sh|sh| |sh mh eh]; try destruct sh; destruct sl;
      discriminate.
  - destruct (Prim2SF hi) as [sh|sh| |sh mh eh]; discriminate.
  - unfold SF64sub, SFsub. rewrite Z.sub_diag. reflexivity.
Qed.

(** X20.  When the maximum and the minimum of the values differ by a finite
    non-zero amount, the marker of a point whose value is the minimum is
    filled rgb(59, 130, 246), which is the colour #3B82F6 used when all
    values are equal, and the marker of a point whose value is the maximum is
    filled rgb(0, 0, 0). *)
Theorem color_scale_ends :
  forall (minRadius maxRadius : number) (data : list BubbleMapDataPoint.t)
         (i : nat) (item : BubbleMapDataPoint.t),
    nth_error data i = Some item ->
    let lo := Math_min (BubbleMap.values_of data) in
    let hi := Math_max (BubbleMap.values_of data) in
    (hi =? lo) = false ->
    finite_nonzero (hi - lo) = true ->
    exists radius fill,
      nth_error (BubbleMap.markers minRadius maxRadius data) i = Some (radius, fill) /\
      (BubbleMapDataPoint.value item = lo -> fill = BubbleMap.Rgb 59 130 246) /\
      (BubbleMapDataPoint.value item = hi -> fill = BubbleMap.Rgb 0 0 0).
Proof.
  intros minRadius maxRadius data i item Hnth lo hi Hne Hspread.
  exists (BubbleMap.getRadius minRadius maxRadius (BubbleMapDataPoint.value item) lo hi),
         (BubbleMap.getColor (BubbleMapDataPoint.value item) lo hi).
  split; [|split].
  - destruct data as [|d data]; [destruct i; discriminate|].
    unfold BubbleMap.markers.
    change (nth_error
              (map (fun item0 =>
                      (BubbleMap.getRadius minRadius maxRadius
                         (BubbleMapDataPoint.value item0) lo hi,
                       BubbleMap.getColor (BubbleMapDataPoint.value item0) lo hi))
                   (d :: data)) i
            = Some (BubbleMap.getRadius minRadius maxRadius
                      (BubbleMapDataPoint.value item) lo hi,
                    BubbleMap.getColor (BubbleMapDataPoint.value item) lo hi)).
    now rewrite nth_error_map, Hnth.
  - intros ->. unfold BubbleMap.getColor. rewrite Hne.
    rewrite (sub_self_of_finite_spread hi lo Hspread).
    destruct (zero_div (hi - lo) Hspread) as [-> | ->]; vm_compute; reflexivity.
  - intros ->. unfold BubbleMap.getColor. rewrite Hne.
    rewrite (div_self (hi - lo) Hspread). vm_compute. reflexivity.
Qed.

Lemma color_scale_ends_witness :
  exists radius fill,
    nth_error (BubbleMap.markers 8 50 Samples.two_bubbles) 1 = Some (radius, fill) /\
    (BubbleMapDataPoint.value (Samples.bubble "Sharjah" 25.3573 55.4033 30)
     = Math_min (BubbleMap.values_of Samples.two_bubbles) ->
     fill = BubbleMap.Rgb 59 130 246) /\
    (BubbleMapDataPoint.value (Samples.bubble "Sharjah" 25.3573 55.4033 30)
     = Math_max (BubbleMap.values_of Samples.two_bubbles) ->
     fill = BubbleMap.Rgb 0 0 0).
Proof.
  apply (color_scale_ends 8 50 Samples.two_bubbles 1
           (Samples.bubble "Sharjah" 25.3573 55.4033 30)).
  - reflexivity.
  - vm_compute. reflexivity.
  - vm_compute. reflexivity.
Defined.
